(** * Heap-file manager (heapfile.C): a shallow embedding and its properties

    The development follows the layout of the source:
    - the data of the heap-file layer (status codes, RIDs, records, the
      file header page, the members of HeapFile / HeapFileScan);
    - the collaborators of the layer (file layer, buffer pool, page), which
      heapfile.C only calls: an interface [Collab], every call of which is
      logged in a trace;
    - the functions of heapfile.C, one definition each, in source order;
    - a reference implementation of the collaborators, used to run the code
      on concrete inputs and for the properties that speak about the page
      chain;
    - the properties. *)

From Stdlib Require Import ZArith List String Bool Lia.
From Stdlib.Strings Require Import Byte.
From stdpp Require Import base option list gmap strings.
Import ListNotations.
Local Open Scope Z_scope.

(** ** Status codes

    error.h is not among the sources.  The enumerators below are the ones
    heapfile.C names (OK, FILEEXISTS, BADSCANPARM, INVALIDRECLEN, NOSPACE,
    NORECORDS, ENDOFPAGE, NOMORERECS) and the ones the collaborators report
    for their own failures. *)
Inductive Status : Set :=
| OK | FILEEXISTS | BADSCANPARM | INVALIDRECLEN
| NOSPACE | NORECORDS | ENDOFPAGE | NOMORERECS
| UNIXERR | BADPAGENO | HASHNOTFOUND | PAGENOTPINNED | BUFFEREXCEEDED
| INVALIDSLOTNO.

#[global] Instance Status_eq_dec : EqDecision Status.
Proof. solve_decision. Defined.

(** [a != b] on status codes. *)
Definition status_ne (a b : Status) : bool := negb (bool_decide (a = b)).

#[global] Instance byte_eq_dec : EqDecision byte := Byte.byte_eq_dec.

(** ** Record identifiers and records *)
Record RID : Set := mkRID { pageNo : Z; slotNo : Z }.

#[global] Instance RID_eq_dec : EqDecision RID.
Proof. solve_decision. Defined.

Definition NULLRID : RID := mkRID (-1) (-1).

(** struct Record { void* data; int length; }: the bytes [data] points to,
    and the declared length ([Rec.length rec] is the source's rec.length). *)
Module Rec.
Record t : Set := mk { data : list byte; length : Z }.
End Rec.

#[global] Instance Record_eq_dec : EqDecision Rec.t.
Proof. solve_decision. Defined.

(** enum Datatype and enum Operator.  A C++ enum object can hold a value that
    is none of its enumerators, which is what the range tests of startScan
    are for: the last constructor of each type stands for such a value. *)
Inductive Datatype : Set := STRING | INTEGER | FLOAT | DatatypeOther (code : Z).
Inductive Operator : Set := LT | LTE | EQ | GTE | GT | NE | OperatorOther (code : Z).

#[global] Instance Datatype_eq_dec : EqDecision Datatype.
Proof. solve_decision. Defined.
#[global] Instance Operator_eq_dec : EqDecision Operator.
Proof. solve_decision. Defined.

(** ** The file header page *)
Record FileHdrPage : Set := mkHdr {
  fileName : string;
  firstPage : Z;
  lastPage : Z;
  pageCnt : Z;
  recCnt : Z
}.

#[global] Instance FileHdrPage_eq_dec : EqDecision FileHdrPage.
Proof. solve_decision. Defined.

Definition set_fileName (h : FileHdrPage) (v : string) : FileHdrPage :=
  mkHdr v (firstPage h) (lastPage h) (pageCnt h) (recCnt h).
Definition set_firstPage (h : FileHdrPage) (v : Z) : FileHdrPage :=
  mkHdr (fileName h) v (lastPage h) (pageCnt h) (recCnt h).
Definition set_lastPage (h : FileHdrPage) (v : Z) : FileHdrPage :=
  mkHdr (fileName h) (firstPage h) v (pageCnt h) (recCnt h).
Definition set_pageCnt (h : FileHdrPage) (v : Z) : FileHdrPage :=
  mkHdr (fileName h) (firstPage h) (lastPage h) v (recCnt h).
Definition set_recCnt (h : FileHdrPage) (v : Z) : FileHdrPage :=
  mkHdr (fileName h) (firstPage h) (lastPage h) (pageCnt h) v.

(** ** The platform

    [float diff] of matchRec is only ever compared with 0.0; the embedding
    keeps of it what the six comparisons can see. *)
Inductive fclass : Set := FNeg | FZero | FPos | FNaN.

Class Platform := {
  sizeof_int : Z;                 (* sizeof(int), in bytes *)
  sizeof_float : Z;               (* sizeof(float), in bytes *)
  big_endian : bool;              (* byte order of an int in memory *)
  PAGESIZE : Z;                   (* page.h *)
  DPFIXED : Z;                    (* page.h: bytes of a page that hold no record *)
  MAXNAMESIZE : nat;              (* size of FileHdrPage::fileName *)
  (* class of [fattr - ffltr] for the two floats stored in the given bytes *)
  float_sub_class : list byte -> list byte -> fclass
}.

Section Integers.
Context `{Platform}.

Definition int_bits : Z := 8 * sizeof_int.

  (** Value of an [int] after wrap-around (two's complement). *)
Definition int_wrap (z : Z) : Z :=
    (z + 2 ^ (int_bits - 1)) mod 2 ^ int_bits - 2 ^ (int_bits - 1).

  (** Value of an [unsigned int]: conversion and arithmetic are modulo 2^bits. *)
Definition uint_wrap (z : Z) : Z := z mod 2 ^ int_bits.

Definition INT_MAX : Z := 2 ^ (int_bits - 1) - 1.
Definition INT_MIN : Z := - 2 ^ (int_bits - 1).

  (** The unsigned number stored in a run of bytes, least significant first. *)
Fixpoint le_unsigned (bs : list byte) : Z :=
    match bs with
    | [] => 0
    | b :: bs' => Z.of_N (Byte.to_N b) + 256 * le_unsigned bs'
    end.

  (** memcpy(&i, p, sizeof(int)): the int whose object representation is [bs]. *)
Definition int_of_bytes (bs : list byte) : Z :=
    int_wrap (le_unsigned (if big_endian then rev bs else bs)).

  (** Class of an int converted to float: the conversion rounds, but keeps
      the sign and maps only 0 to 0.0. *)
Definition fclass_of_int (z : Z) : fclass :=
    if z <? 0 then FNeg else if z =? 0 then FZero else FPos.

  (** The comparisons of [diff] with 0.0. *)
Definition flt0 (d : fclass) : bool := match d with FNeg => true | _ => false end.
Definition fle0 (d : fclass) : bool := match d with FNeg | FZero => true | _ => false end.
Definition feq0 (d : fclass) : bool := match d with FZero => true | _ => false end.
Definition fge0 (d : fclass) : bool := match d with FZero | FPos => true | _ => false end.
Definition fgt0 (d : fclass) : bool := match d with FPos => true | _ => false end.
Definition fne0 (d : fclass) : bool := match d with FZero => false | _ => true end.

  (** The [n] bytes at [p + off]. *)
Definition bytes_at (p : list byte) (off n : Z) : list byte :=
    take (Z.to_nat n) (drop (Z.to_nat off) p).

  (** strncmp: compares at most [n] characters as unsigned char and stops
      after a NUL; a buffer that ends early reads as NUL. *)
Fixpoint strncmp (a b : list byte) (n : nat) : Z :=
    match n with
    | O => 0
    | S n' =>
        let ca := Z.of_N (Byte.to_N (hd Byte.x00 a)) in
        let cb := Z.of_N (Byte.to_N (hd Byte.x00 b)) in
        if negb (ca =? cb) then ca - cb
        else if ca =? 0 then 0
        else strncmp (tl a) (tl b) n'
    end.
End Integers.

(** ** The collaborators

    db (file layer), bufMgr (buffer pool) and Page are called by heapfile.C
    and defined elsewhere.  [World] is their joint state.  A call returns its
    status, the value it stored in each out-parameter ([None]: it stored
    nothing) and the new world.  [hdr_load] and [hdr_store] read and write
    the bytes of a pinned frame as a [FileHdrPage], which is what the cast
    of a Page pointer to a FileHdrPage pointer gives access to. *)
Class Collab := {
  World : Type;
  File : Type;                    (* what a File* points to *)
  PagePtr : Type;                 (* a non-null Page*: a frame of the pool *)
  db_openFile : string -> World -> Status * option File * World;
  db_createFile : string -> World -> Status * World;
  db_closeFile : File -> World -> Status * World;
  db_destroyFile : string -> World -> Status * World;
  file_getFirstPage : File -> World -> Status * option Z * World;
  buf_allocPage : File -> World -> Status * option Z * option PagePtr * World;
  buf_readPage : File -> Z -> World -> Status * option PagePtr * World;
  buf_unPinPage : File -> Z -> bool -> World -> Status * World;
  page_init : PagePtr -> Z -> World -> World;
  page_getRecord : PagePtr -> RID -> World -> Status * option Rec.t * World;
  page_insertRecord : PagePtr -> Rec.t -> World -> Status * option RID * World;
  page_deleteRecord : PagePtr -> RID -> World -> Status * World;
  page_firstRecord : PagePtr -> World -> Status * option RID * World;
  page_nextRecord : PagePtr -> RID -> World -> Status * option RID * World;
  page_getNextPage : PagePtr -> World -> Status * option Z * World;
  page_setNextPage : PagePtr -> Z -> World -> Status * World;
  hdr_load : PagePtr -> World -> FileHdrPage;
  hdr_store : PagePtr -> FileHdrPage -> World -> World
}.

(** Members that HeapFileScan adds to HeapFile.  [filter] is the
    [const char*] given to startScan: [None] is the null pointer. *)
Module Scan.
Record members : Set := mk {
    offset : Z;
    length : Z;
    type : Datatype;
    filter : option (list byte);
    op : Operator;
    markedPageNo : Z;
    markedRec : RID
  }.
End Scan.

(** What a call can come to: a result, undefined behaviour (a null or
    indeterminate pointer is dereferenced, an indeterminate value is used),
    or, for the loop of scanNext, more iterations than allowed. *)
Inductive outcome (A : Type) : Type :=
| Ret (a : A)
| Undef
| OutOfFuel.
Arguments Ret {A} a.
Arguments Undef {A}.
Arguments OutOfFuel {A}.

Section HeapFileLayer.
Context `{PF : Platform} `{CO : Collab}.

  (** One entry per call of a collaborator. *)
Inductive Event : Type :=
  | EvOpenFile (name : string)
  | EvCreateFile (name : string)
  | EvCloseFile (f : File)
  | EvDestroyFile (name : string)
  | EvGetFirstPage (f : File)
  | EvAllocPage (f : File)
  | EvReadPage (f : File) (pageNo : Z)
  | EvUnPinPage (f : File) (pageNo : Z) (dirty : bool)
  | EvInit (p : PagePtr) (pageNo : Z)
  | EvGetRecord (p : PagePtr) (rid : RID)
  | EvInsertRecord (p : PagePtr) (rec : Rec.t)
  | EvDeleteRecord (p : PagePtr) (rid : RID)
  | EvFirstRecord (p : PagePtr)
  | EvNextRecord (p : PagePtr) (rid : RID)
  | EvGetNextPage (p : PagePtr)
  | EvSetNextPage (p : PagePtr) (pageNo : Z).

  (** The collaborators' state and the calls made so far, oldest first. *)
Record Sys : Type := mkSys { world : World; trace : list Event }.

Definition log (e : Event) (w : World) (t : list Event) : Sys :=
    mkSys w (t ++ [e]).

  (** The members of HeapFile.  [headerPage] is the pointer and [hdr] the
      FileHdrPage it points to: the header frame stays pinned for as long
      as the object lives, and during a call it is written through
      [headerPage] only, so the object carries the header's value; every
      assignment through [headerPage] is also stored in the frame
      ([write_hdr]).  Between two calls another object open on the file may
      write the frame: [hdr] is then read anew from it ([sees], with the
      life of a file). *)
Record HeapFile : Type := mkHeapFile {
    filePtr : File;
    headerPage : PagePtr;
    hdr : FileHdrPage;
    headerPageNo : Z;
    hdrDirtyFlag : bool;
    curPage : option PagePtr;     (* [None] is NULL *)
    curPageNo : Z;
    curDirtyFlag : bool;
    curRec : RID
  }.

Definition set_hdr (this : HeapFile) (v : FileHdrPage) : HeapFile :=
    mkHeapFile (filePtr this) (headerPage this) v (headerPageNo this)
      (hdrDirtyFlag this) (curPage this) (curPageNo this) (curDirtyFlag this)
      (curRec this).
Definition set_hdrDirtyFlag (this : HeapFile) (v : bool) : HeapFile :=
    mkHeapFile (filePtr this) (headerPage this) (hdr this) (headerPageNo this)
      v (curPage this) (curPageNo this) (curDirtyFlag this) (curRec this).
Definition set_curPage (this : HeapFile) (v : option PagePtr) : HeapFile :=
    mkHeapFile (filePtr this) (headerPage this) (hdr this) (headerPageNo this)
      (hdrDirtyFlag this) v (curPageNo this) (curDirtyFlag this) (curRec this).
Definition set_curPageNo (this : HeapFile) (v : Z) : HeapFile :=
    mkHeapFile (filePtr this) (headerPage this) (hdr this) (headerPageNo this)
      (hdrDirtyFlag this) (curPage this) v (curDirtyFlag this) (curRec this).
Definition set_curDirtyFlag (this : HeapFile) (v : bool) : HeapFile :=
    mkHeapFile (filePtr this) (headerPage this) (hdr this) (headerPageNo this)
      (hdrDirtyFlag this) (curPage this) (curPageNo this) v (curRec this).
Definition set_curRec (this : HeapFile) (v : RID) : HeapFile :=
    mkHeapFile (filePtr this) (headerPage this) (hdr this) (headerPageNo this)
      (hdrDirtyFlag this) (curPage this) (curPageNo this) (curDirtyFlag this) v.

  (** HeapFileScan: the HeapFile base object and the scan's own members. *)
Record HeapFileScan : Type := mkScan { base : HeapFile; scan : Scan.members }.

Definition set_base (this : HeapFileScan) (b : HeapFile) : HeapFileScan :=
    mkScan b (scan this).
Definition set_scan (this : HeapFileScan) (m : Scan.members) : HeapFileScan :=
    mkScan (base this) m.

  (** *** The calls, logged *)
Definition DB_openFile (name : string) (s : Sys) : Status * option File * Sys :=
    let '(st, f, w) := db_openFile name (world s) in
    (st, f, log (EvOpenFile name) w (trace s)).
Definition DB_createFile (name : string) (s : Sys) : Status * Sys :=
    let '(st, w) := db_createFile name (world s) in
    (st, log (EvCreateFile name) w (trace s)).
Definition DB_closeFile (f : File) (s : Sys) : Status * Sys :=
    let '(st, w) := db_closeFile f (world s) in
    (st, log (EvCloseFile f) w (trace s)).
Definition DB_destroyFile (name : string) (s : Sys) : Status * Sys :=
    let '(st, w) := db_destroyFile name (world s) in
    (st, log (EvDestroyFile name) w (trace s)).
Definition File_getFirstPage (f : File) (s : Sys) : Status * option Z * Sys :=
    let '(st, n, w) := file_getFirstPage f (world s) in
    (st, n, log (EvGetFirstPage f) w (trace s)).
Definition BufMgr_allocPage (f : File) (s : Sys)
    : Status * option Z * option PagePtr * Sys :=
    let '(st, n, p, w) := buf_allocPage f (world s) in
    (st, n, p, log (EvAllocPage f) w (trace s)).
Definition BufMgr_readPage (f : File) (n : Z) (s : Sys) : Status * option PagePtr * Sys :=
    let '(st, p, w) := buf_readPage f n (world s) in
    (st, p, log (EvReadPage f n) w (trace s)).
Definition BufMgr_unPinPage (f : File) (n : Z) (dirty : bool) (s : Sys) : Status * Sys :=
    let '(st, w) := buf_unPinPage f n dirty (world s) in
    (st, log (EvUnPinPage f n dirty) w (trace s)).
Definition Page_init (p : PagePtr) (n : Z) (s : Sys) : Sys :=
    log (EvInit p n) (page_init p n (world s)) (trace s).
Definition Page_getRecord (p : PagePtr) (rid : RID) (s : Sys)
    : Status * option Rec.t * Sys :=
    let '(st, r, w) := page_getRecord p rid (world s) in
    (st, r, log (EvGetRecord p rid) w (trace s)).
Definition Page_insertRecord (p : PagePtr) (rec : Rec.t) (s : Sys)
    : Status * option RID * Sys :=
    let '(st, r, w) := page_insertRecord p rec (world s) in
    (st, r, log (EvInsertRecord p rec) w (trace s)).
Definition Page_deleteRecord (p : PagePtr) (rid : RID) (s : Sys) : Status * Sys :=
    let '(st, w) := page_deleteRecord p rid (world s) in
    (st, log (EvDeleteRecord p rid) w (trace s)).
Definition Page_firstRecord (p : PagePtr) (s : Sys) : Status * option RID * Sys :=
    let '(st, r, w) := page_firstRecord p (world s) in
    (st, r, log (EvFirstRecord p) w (trace s)).
Definition Page_nextRecord (p : PagePtr) (rid : RID) (s : Sys)
    : Status * option RID * Sys :=
    let '(st, r, w) := page_nextRecord p rid (world s) in
    (st, r, log (EvNextRecord p rid) w (trace s)).
Definition Page_getNextPage (p : PagePtr) (s : Sys) : Status * option Z * Sys :=
    let '(st, n, w) := page_getNextPage p (world s) in
    (st, n, log (EvGetNextPage p) w (trace s)).
Definition Page_setNextPage (p : PagePtr) (n : Z) (s : Sys) : Status * Sys :=
    let '(st, w) := page_setNextPage p n (world s) in
    (st, log (EvSetNextPage p n) w (trace s)).

  (** An assignment through [headerPage]: the object's view of the header
      and the frame both get the new value. *)
Definition write_hdr (this : HeapFile) (v : FileHdrPage) (s : Sys)
    : HeapFile * Sys :=
    (set_hdr this v, mkSys (hdr_store (headerPage this) v (world s)) (trace s)).

  (** A variable passed as an out-parameter keeps its value when the callee
      stores nothing; a local variable starts indeterminate ([None]). *)
Definition stored {A : Type} (new : option A) (old : option A) : option A :=
    match new with Some v => Some v | None => old end.

  (** Use of a value that must be there: dereferencing a pointer, reading a
      variable.  [None] (null or indeterminate) is undefined behaviour. *)
Definition need {A B : Type} (o : option A) (k : A -> outcome B) : outcome B :=
    match o with Some v => k v | None => Undef end.

  (** ** heapfile.C *)

  (** createHeapFile.  strncpy and the terminating NUL leave the first
      MAXNAMESIZE - 1 characters of the name in the header. *)
Definition createHeapFile (fileName_ : string) (s : Sys) : outcome (Status * Sys) :=
    let '(status, file, s) := DB_openFile fileName_ s in
    if status_ne status OK then
      (let '(status, s) := DB_createFile fileName_ s in
      if status_ne status OK then Ret (status, s) else
      let '(status, file', s) := DB_openFile fileName_ s in
      let file := stored file' file in
      if status_ne status OK then Ret (status, s) else
      need file (fun file =>
      let '(status, hdrPageNo, newPage, s) := BufMgr_allocPage file s in
      if status_ne status OK then Ret (status, s) else
      need newPage (fun hdrPage =>
      let h := hdr_load hdrPage (world s) in
      let h := set_fileName h (String.substring 0 (MAXNAMESIZE - 1) fileName_) in
      let h := set_pageCnt h 2 in
      let h := set_recCnt h 0 in
      let s := mkSys (hdr_store hdrPage h (world s)) (trace s) in
      let '(status, newPageNo, newPage', s) := BufMgr_allocPage file s in
      let newPage := stored newPage' newPage in
      if status_ne status OK then Ret (status, s) else
      need newPage (fun newPage =>
      need newPageNo (fun newPageNo =>
      let s := Page_init newPage newPageNo s in
      let h := set_firstPage h newPageNo in
      let h := set_lastPage h newPageNo in
      let s := mkSys (hdr_store hdrPage h (world s)) (trace s) in
      need hdrPageNo (fun hdrPageNo =>
      let '(status, s) := BufMgr_unPinPage file hdrPageNo true s in
      if status_ne status OK then Ret (status, s) else
      let '(status, s) := BufMgr_unPinPage file newPageNo true s in
      if status_ne status OK then Ret (status, s) else
      Ret (OK, s)))))))
    else Ret (FILEEXISTS, s).

Definition destroyHeapFile (fileName_ : string) (s : Sys) : Status * Sys :=
    DB_destroyFile fileName_ s.

  (** HeapFile::HeapFile.  When the status is not OK the members are left
      indeterminate and there is no object to speak of. *)
Definition HeapFile_new (fileName_ : string) (s : Sys)
    : outcome (Status * option HeapFile * Sys) :=
    let '(status, filePtr_, s) := DB_openFile fileName_ s in
    if bool_decide (status = OK) then
      need filePtr_ (fun filePtr_ =>
      let '(status, headerPageNo_, s) := File_getFirstPage filePtr_ s in
      if status_ne status OK then Ret (status, None, s) else
      need headerPageNo_ (fun headerPageNo_ =>
      let '(status, pagePtr, s) := BufMgr_readPage filePtr_ headerPageNo_ s in
      if status_ne status OK then Ret (status, None, s) else
      need pagePtr (fun headerPage_ =>
      let hdr_ := hdr_load headerPage_ (world s) in
      let firstDataPageNo := firstPage hdr_ in
      let '(status, pagePtr', s) := BufMgr_readPage filePtr_ firstDataPageNo s in
      let pagePtr := stored pagePtr' pagePtr in
      if status_ne status OK then Ret (status, None, s) else
      Ret (OK,
           Some (mkHeapFile filePtr_ headerPage_ hdr_ headerPageNo_ false
                   pagePtr firstDataPageNo false NULLRID),
           s))))
    else Ret (status, None, s).

  (** HeapFile::~HeapFile. *)
Definition HeapFile_delete (this : HeapFile) (s : Sys) : Sys :=
    let s :=
      match curPage this with
      | Some _ =>
          snd (BufMgr_unPinPage (filePtr this) (curPageNo this) (curDirtyFlag this) s)
      | None => s
      end in
    let s := snd (BufMgr_unPinPage (filePtr this) (headerPageNo this)
                    (hdrDirtyFlag this) s) in
    snd (DB_closeFile (filePtr this) s).

Definition HeapFile_getRecCnt (this : HeapFile) : Z := recCnt (hdr this).

  (** HeapFile::getRecord, from [status = page->getRecord(rid, rec)] on. *)
Definition HeapFile_getRecord_read (page : option PagePtr) (rid : RID)
      (this : HeapFile) (s : Sys)
    : outcome (Status * option Rec.t * HeapFile * Sys) :=
    need page (fun page =>
    let '(status, rec, s) := Page_getRecord page rid s in
    if status_ne status OK then
      if negb (curPageNo this =? pageNo rid) then
        (let '(_, s) := BufMgr_unPinPage (filePtr this) (pageNo rid) false s in
         Ret (status, rec, this, s))
      else Ret (status, rec, this, s)
    else Ret (OK, rec, set_curRec this rid, s)).

  (** HeapFile::getRecord.  The second component of the result is what was
      stored in the caller's [rec]. *)
Definition HeapFile_getRecord (rid : RID) (this : HeapFile) (s : Sys)
    : outcome (Status * option Rec.t * HeapFile * Sys) :=
    if bool_decide (curPage this <> None) && (curPageNo this =? pageNo rid) then
      HeapFile_getRecord_read (curPage this) rid this s
    else
      let '(status, s) :=
        match curPage this with
        | Some _ =>
            BufMgr_unPinPage (filePtr this) (curPageNo this) (curDirtyFlag this) s
        | None => (OK, s)
        end in
      if status_ne status OK then Ret (status, None, this, s) else
      let '(status, page, s) := BufMgr_readPage (filePtr this) (pageNo rid) s in
      if status_ne status OK then Ret (status, None, this, s) else
      let this := set_curPage this page in
      let this := set_curPageNo this (pageNo rid) in
      let this := set_curDirtyFlag this false in
      HeapFile_getRecord_read page rid this s.

  (** HeapFileScan::HeapFileScan.  Only [filter] is initialised; [junk] is
      what the other members of the scan happen to hold. *)
Definition HeapFileScan_new (name : string) (junk : Scan.members) (s : Sys)
    : outcome (Status * option HeapFileScan * Sys) :=
    match HeapFile_new name s with
    | Ret (status, Some hf, s) =>
        Ret (status,
             Some (mkScan hf
                     (Scan.mk (Scan.offset junk) (Scan.length junk) (Scan.type junk)
                        None (Scan.op junk) (Scan.markedPageNo junk)
                        (Scan.markedRec junk))),
             s)
    | Ret (status, None, s) => Ret (status, None, s)
    | Undef => Undef
    | OutOfFuel => OutOfFuel
    end.

  (** The test of startScan on its arguments, disjunct by disjunct.
      [length_ != sizeof(int)] is only reached with [length_ >= 1], where the
      conversion of [length_] to size_t changes nothing. *)
Definition bad_scan_parm (offset_ length_ : Z) (type_ : Datatype) (op_ : Operator)
    : bool :=
    ((offset_ <? 0) || (length_ <? 1))
    || (bool_decide (type_ <> STRING) && bool_decide (type_ <> INTEGER)
        && bool_decide (type_ <> FLOAT))
    || ((bool_decide (type_ = INTEGER) && negb (length_ =? sizeof_int))
        || (bool_decide (type_ = FLOAT) && negb (length_ =? sizeof_float)))
    || (bool_decide (op_ <> LT) && bool_decide (op_ <> LTE) && bool_decide (op_ <> EQ)
        && bool_decide (op_ <> GTE) && bool_decide (op_ <> GT)
        && bool_decide (op_ <> NE)).

Definition HeapFileScan_startScan (offset_ length_ : Z) (type_ : Datatype)
      (filter_ : option (list byte)) (op_ : Operator) (this : HeapFileScan)
    : Status * HeapFileScan :=
    let m := scan this in
    match filter_ with
    | None =>
        (OK, set_scan this
               (Scan.mk (Scan.offset m) (Scan.length m) (Scan.type m) None
                  (Scan.op m) (Scan.markedPageNo m) (Scan.markedRec m)))
    | Some _ =>
        if bad_scan_parm offset_ length_ type_ op_ then (BADSCANPARM, this)
        else
          (OK, set_scan this
                 (Scan.mk offset_ length_ type_ filter_ op_
                    (Scan.markedPageNo m) (Scan.markedRec m)))
    end.

Definition HeapFileScan_endScan (this : HeapFileScan) (s : Sys)
    : Status * HeapFileScan * Sys :=
    let b := base this in
    match curPage b with
    | Some _ =>
        let '(status, s) :=
          BufMgr_unPinPage (filePtr b) (curPageNo b) (curDirtyFlag b) s in
        let b := set_curPage b None in
        let b := set_curPageNo b 0 in
        let b := set_curDirtyFlag b false in
        (status, set_base this b, s)
    | None => (OK, this, s)
    end.

  (** HeapFileScan::~HeapFileScan, followed by the destructor of the base. *)
Definition HeapFileScan_delete (this : HeapFileScan) (s : Sys) : Sys :=
    let '(_, this, s) := HeapFileScan_endScan this s in
    HeapFile_delete (base this) s.

Definition HeapFileScan_markScan (this : HeapFileScan) : Status * HeapFileScan :=
    let m := scan this in
    (OK, set_scan this
           (Scan.mk (Scan.offset m) (Scan.length m) (Scan.type m) (Scan.filter m)
              (Scan.op m) (curPageNo (base this)) (curRec (base this)))).

Definition HeapFileScan_resetScan (this : HeapFileScan) (s : Sys)
    : Status * HeapFileScan * Sys :=
    let b := base this in
    let m := scan this in
    if negb (Scan.markedPageNo m =? curPageNo b) then
      let '(status, s) :=
        match curPage b with
        | Some _ => BufMgr_unPinPage (filePtr b) (curPageNo b) (curDirtyFlag b) s
        | None => (OK, s)
        end in
      if status_ne status OK then (status, this, s) else
      let b := set_curPageNo b (Scan.markedPageNo m) in
      let b := set_curRec b (Scan.markedRec m) in
      let '(status, page, s) := BufMgr_readPage (filePtr b) (curPageNo b) s in
      let b := set_curPage b (stored page (curPage b)) in
      if status_ne status OK then (status, set_base this b, s) else
      let b := set_curDirtyFlag b false in
      (OK, set_base this b, s)
    else (OK, set_base this (set_curRec b (Scan.markedRec m)), s).

  (** HeapFileScan::matchRec.  A [type] or an [op] outside the enumerators
      falls through its switch: [diff] stays 0, the result is false.  The
      two memcpy of the INTEGER case fill an int when [length] is
      sizeof(int), which startScan makes sure of.  [offset + length - 1] is
      computed in int: where the sum leaves the range of int the C++
      arithmetic is undefined, and the definition wraps around like the
      subtraction of the INTEGER case; the properties that depend on the
      test are stated for sums within the range. *)
Definition HeapFileScan_matchRec (this : HeapFileScan) (rec : Rec.t) : bool :=
    let m := scan this in
    match Scan.filter m with
    | None => true
    | Some filter_ =>
        if int_wrap (int_wrap (Scan.offset m + Scan.length m) - 1) >=? Rec.length rec
        then false
        else
          let attr := bytes_at (Rec.data rec) (Scan.offset m) (Scan.length m) in
          let fltr := bytes_at filter_ 0 (Scan.length m) in
          let diff :=
            match Scan.type m with
            | INTEGER => fclass_of_int (int_wrap (int_of_bytes attr - int_of_bytes fltr))
            | FLOAT => float_sub_class attr fltr
            | STRING =>
                fclass_of_int
                  (strncmp (drop (Z.to_nat (Scan.offset m)) (Rec.data rec)) filter_
                     (Z.to_nat (Scan.length m)))
            | DatatypeOther _ => FZero
            end in
          match Scan.op m with
          | LT => flt0 diff
          | LTE => fle0 diff
          | EQ => feq0 diff
          | GTE => fge0 diff
          | GT => fgt0 diff
          | NE => fne0 diff
          | OperatorOther _ => false
          end
    end.

  (** The call at the top of the loop of scanNext, as it shows in the trace. *)
Definition fetch_event (this : HeapFileScan) (page : PagePtr) : Event :=
  if (pageNo (curRec (base this)) =? -1) && (slotNo (curRec (base this)) =? -1)
  then EvFirstRecord page
  else EvNextRecord page (curRec (base this)).

  (** The loop of HeapFileScan::scanNext.  [nextRid] and [rec] are the
      locals declared before the loop: they keep their value from one
      iteration to the next.  matchRec looks at [rec] only when a filter is
      set.  The second component of the result is what was stored in the
      caller's [outRid]. *)
Fixpoint scanNext_loop (fuel : nat) (nextRid : option RID) (rec : option Rec.t)
      (this : HeapFileScan) (s : Sys)
    : outcome (Status * option RID * HeapFileScan * Sys) :=
    match fuel with
    | O => OutOfFuel
    | S fuel' =>
      let b := base this in
      need (curPage b) (fun page =>
      let '(status, rid', s) :=
        if (pageNo (curRec b) =? -1) && (slotNo (curRec b) =? -1)
        then Page_firstRecord page s
        else Page_nextRecord page (curRec b) s in
      let nextRid := stored rid' nextRid in
      if bool_decide (status = NORECORDS) || bool_decide (status = ENDOFPAGE) then
        let '(status, s) :=
          BufMgr_unPinPage (filePtr b) (curPageNo b) (curDirtyFlag b) s in
        if status_ne status OK then Ret (status, None, this, s) else
        let '(status, nextPageNo, s) := Page_getNextPage page s in
        if status_ne status OK then Ret (status, None, this, s) else
        need nextPageNo (fun nextPageNo =>
        if nextPageNo =? -1 then
          Ret (NOMORERECS, None, set_base this (set_curPage b None), s)
        else
          let '(status, page', s) := BufMgr_readPage (filePtr b) nextPageNo s in
          let b := set_curPage b (stored page' (curPage b)) in
          if status_ne status OK then Ret (status, None, set_base this b, s) else
          let b := set_curPageNo b nextPageNo in
          let b := set_curRec b NULLRID in
          let b := set_curDirtyFlag b false in
          scanNext_loop fuel' nextRid rec (set_base this b) s)
      else if status_ne status OK then Ret (status, None, this, s)
      else
        need nextRid (fun rid =>
        let '(status, rec', s) := Page_getRecord page rid s in
        let rec := stored rec' rec in
        if status_ne status OK then Ret (status, None, this, s) else
        need (match Scan.filter (scan this) with
              | None => Some true
              | Some _ => HeapFileScan_matchRec this <$> rec
              end) (fun matched =>
        if matched then Ret (OK, Some rid, set_base this (set_curRec b rid), s)
        else scanNext_loop fuel' nextRid rec (set_base this (set_curRec b rid)) s)))
    end.

Definition HeapFileScan_scanNext (fuel : nat) (this : HeapFileScan) (s : Sys)
    : outcome (Status * option RID * HeapFileScan * Sys) :=
    scanNext_loop fuel None None this s.

  (** HeapFileScan::getRecord. *)
Definition HeapFileScan_getRecord (this : HeapFileScan) (s : Sys)
    : outcome (Status * option Rec.t * Sys) :=
    need (curPage (base this)) (fun page =>
    Ret (Page_getRecord page (curRec (base this)) s)).

  (** HeapFileScan::deleteRecord. *)
Definition HeapFileScan_deleteRecord (this : HeapFileScan) (s : Sys)
    : outcome (Status * HeapFileScan * Sys) :=
    let b := base this in
    need (curPage b) (fun page =>
    let '(status, s) := Page_deleteRecord page (curRec b) s in
    let b := set_curDirtyFlag b true in
    let '(b, s) := write_hdr b (set_recCnt (hdr b) (int_wrap (recCnt (hdr b) - 1))) s in
    let b := set_hdrDirtyFlag b true in
    Ret (status, set_base this b, s)).

Definition HeapFileScan_markDirty (this : HeapFileScan) : Status * HeapFileScan :=
    (OK, set_base this (set_curDirtyFlag (base this) true)).

  (** InsertFileScan::InsertFileScan: the base constructor and nothing else. *)
Definition InsertFileScan_new (name : string) (s : Sys)
    : outcome (Status * option HeapFile * Sys) :=
    HeapFile_new name s.

  (** InsertFileScan::~InsertFileScan, followed by the destructor of the base. *)
Definition InsertFileScan_delete (this : HeapFile) (s : Sys) : Sys :=
    match curPage this with
    | Some _ =>
        let '(_, s) := BufMgr_unPinPage (filePtr this) (curPageNo this) true s in
        let this := set_curPage this None in
        let this := set_curPageNo this 0 in
        HeapFile_delete this s
    | None => HeapFile_delete this s
    end.

  (** [outRid = rid; headerPage->recCnt++; hdrDirtyFlag = true;
      curDirtyFlag = true; return OK;], the end of both successful paths of
      insertRecord. *)
Definition insertRecord_done (rid : option RID) (this : HeapFile) (s : Sys)
    : outcome (Status * option RID * HeapFile * Sys) :=
    need rid (fun rid =>
    let '(this, s) :=
      write_hdr this (set_recCnt (hdr this) (int_wrap (recCnt (hdr this) + 1))) s in
    let this := set_hdrDirtyFlag this true in
    let this := set_curDirtyFlag this true in
    Ret (OK, Some rid, this, s)).

  (** InsertFileScan::insertRecord.  The second component of the result is
      what was stored in the caller's [outRid]. *)
Definition InsertFileScan_insertRecord (rec : Rec.t) (this : HeapFile) (s : Sys)
    : outcome (Status * option RID * HeapFile * Sys) :=
    if uint_wrap (Rec.length rec) >? uint_wrap (PAGESIZE - DPFIXED) then
      Ret (INVALIDRECLEN, None, this, s)
    else
      need (curPage this) (fun page =>
      let '(status, rid, s) := Page_insertRecord page rec s in
      if bool_decide (status = OK) then insertRecord_done rid this s
      else if bool_decide (status = NOSPACE) then
        let '(status, newPageNo, newPage, s) := BufMgr_allocPage (filePtr this) s in
        if status_ne status OK then Ret (status, None, this, s) else
        need newPage (fun newPage =>
        need newPageNo (fun newPageNo =>
        let s := Page_init newPage newPageNo s in
        let '(status, s) := Page_setNextPage page newPageNo s in
        if status_ne status OK then Ret (status, None, this, s) else
        let '(status, s) :=
          BufMgr_unPinPage (filePtr this) (curPageNo this) true s in
        if status_ne status OK then Ret (status, None, this, s) else
        let '(this, s) := write_hdr this (set_lastPage (hdr this) newPageNo) s in
        let '(this, s) :=
          write_hdr this (set_pageCnt (hdr this) (int_wrap (pageCnt (hdr this) + 1))) s in
        let this := set_hdrDirtyFlag this true in
        let this := set_curPage this (Some newPage) in
        let this := set_curPageNo this newPageNo in
        let this := set_curDirtyFlag this false in
        let '(status, rid', s) := Page_insertRecord newPage rec s in
        let rid := stored rid' rid in
        if status_ne status OK then Ret (status, None, this, s) else
        insertRecord_done rid this s))
      else Ret (status, None, this, s)).

  (** *** Notions used to state properties of a scan *)

  (** What scanNext reads of the object and of the collaborators: two
      (object, system) pairs that agree on it may differ in the trace, the
      dirty flags, the header and the mark. *)
Definition scan_sim (a b : HeapFileScan * Sys) : Prop :=
  filePtr (base a.1) = filePtr (base b.1)
  /\ curPage (base a.1) = curPage (base b.1)
  /\ curPageNo (base a.1) = curPageNo (base b.1)
  /\ curRec (base a.1) = curRec (base b.1)
  /\ Scan.offset (scan a.1) = Scan.offset (scan b.1)
  /\ Scan.length (scan a.1) = Scan.length (scan b.1)
  /\ Scan.type (scan a.1) = Scan.type (scan b.1)
  /\ Scan.filter (scan a.1) = Scan.filter (scan b.1)
  /\ Scan.op (scan a.1) = Scan.op (scan b.1)
  /\ world a.2 = world b.2.

  (** Two calls of scanNext come to the same: both return, with the same
      status and the same RID, leaving the scan in the same position, or
      neither returns. *)
Definition same_next (x y : outcome (Status * option RID * HeapFileScan * Sys))
  : Prop :=
  match x, y with
  | Ret (st1, rid1, t1, s1), Ret (st2, rid2, t2, s2) =>
      st1 = st2 /\ rid1 = rid2 /\ scan_sim (t1, s1) (t2, s2)
  | Undef, Undef => True
  | OutOfFuel, OutOfFuel => True
  | _, _ => False
  end.

  (** [nexts t s t' s']: some number of calls of scanNext, each returning
      OK, lead from scan [t] in system [s] to scan [t'] in system [s']. *)
Inductive nexts : HeapFileScan -> Sys -> HeapFileScan -> Sys -> Prop :=
| nexts_none t s : nexts t s t s
| nexts_more t s fuel rid t1 s1 t2 s2 :
    HeapFileScan_scanNext fuel t s = Ret (OK, rid, t1, s1) ->
    nexts t1 s1 t2 s2 ->
    nexts t s t2 s2.

End HeapFileLayer.

(** ** Reference collaborators *)

(** Modelled from the spec: the file layer, the buffer pool and the page
    (spec section 6 gives their interface; their code is not among the
    sources).  A file is a map from page numbers to page contents, page 0
    being the file layer's own; the pool has [numBufs] frames and counts the
    pins of each page; a page of data has a next-page link, its own number
    and a slot array.  The contents of pool and disk are kept as one: what a
    dirty flag decides is only when a frame is written, which no call can
    observe. *)
Module Ref.

Record PageData : Set := mkPage {
    nextPage : Z;
    curPage : Z;                         (* the page's own number *)
    slots : list (option Rec.t)          (* [None]: an unused slot *)
  }.

  (** What a frame holds: a file header, or a page of data. *)
Inductive Frame : Set :=
  | HdrFrame (h : FileHdrPage)
  | DataFrame (d : PageData).

Definition zero_hdr : FileHdrPage := mkHdr EmptyString 0 0 0 0.
Definition zero_page : PageData := mkPage 0 0 [].

  (** The two readings of a frame.  A frame that holds the other kind reads
      as zeroes. *)
Definition as_hdr (fr : Frame) : FileHdrPage :=
    match fr with HdrFrame h => h | DataFrame _ => zero_hdr end.
Definition as_page (fr : Frame) : PageData :=
    match fr with DataFrame d => d | HdrFrame _ => zero_page end.

Record DbFile : Type := mkFile {
    firstPageNo : Z;                     (* -1: no page allocated yet *)
    numPages : Z;                        (* the next page number to hand out *)
    frames : gmap Z Frame
  }.

Record World : Type := mkWorld {
    files : gmap string DbFile;
    pins : gmap (string * Z) positive;   (* pin count of each pinned page *)
    numBufs : nat
  }.

Definition set_files (w : World) (v : gmap string DbFile) : World :=
    mkWorld v (pins w) (numBufs w).
Definition set_pins (w : World) (v : gmap (string * Z) positive) : World :=
    mkWorld (files w) v (numBufs w).

Definition frame_at (w : World) (p : string * Z) : option Frame :=
    f ← files w !! p.1; frames f !! p.2.

Definition set_frame (w : World) (p : string * Z) (fr : Frame) : World :=
    match files w !! p.1 with
    | Some f =>
        match frames f !! p.2 with
        | Some _ =>
            set_files w
              (<[p.1 := mkFile (firstPageNo f) (numPages f) (<[p.2 := fr]> (frames f))]>
                 (files w))
        | None => w
        end
    | None => w
    end.

  (** *** File layer *)
Definition openFile (name : string) (w : World) : Status * option string * World :=
    match files w !! name with
    | Some _ => (OK, Some name, w)
    | None => (UNIXERR, None, w)
    end.

Definition createFile (name : string) (w : World) : Status * World :=
    match files w !! name with
    | Some _ => (FILEEXISTS, w)
    | None => (OK, set_files w (<[name := mkFile (-1) 1 ∅]> (files w)))
    end.

Definition closeFile (f : string) (w : World) : Status * World := (OK, w).

Definition destroyFile (name : string) (w : World) : Status * World :=
    match files w !! name with
    | Some _ => (OK, set_files w (delete name (files w)))
    | None => (UNIXERR, w)
    end.

Definition getFirstPage (f : string) (w : World) : Status * option Z * World :=
    match files w !! f with
    | Some d => (OK, Some (firstPageNo d), w)
    | None => (UNIXERR, None, w)
    end.

  (** *** Buffer pool *)
Definition has_free_frame (w : World) : bool :=
    bool_decide (size (pins w) < numBufs w)%nat.

Definition pin (p : string * Z) (pn : gmap (string * Z) positive)
    : gmap (string * Z) positive :=
    match pn !! p with
    | Some c => <[p := Pos.succ c]> pn
    | None => <[p := 1%positive]> pn
    end.

Definition unpin (p : string * Z) (pn : gmap (string * Z) positive)
    : gmap (string * Z) positive :=
    match pn !! p with
    | Some c => if (c =? 1)%positive then delete p pn else <[p := Pos.pred c]> pn
    | None => pn
    end.

Definition allocPage (f : string) (w : World)
    : Status * option Z * option (string * Z) * World :=
    match files w !! f with
    | None => (UNIXERR, None, None, w)
    | Some d =>
        if has_free_frame w then
          let n := numPages d in
          let d' := mkFile (if firstPageNo d =? -1 then n else firstPageNo d)
                      (n + 1) (<[n := HdrFrame zero_hdr]> (frames d)) in
          (OK, Some n, Some (f, n),
           mkWorld (<[f := d']> (files w)) (pin (f, n) (pins w)) (numBufs w))
        else (BUFFEREXCEEDED, None, None, w)
    end.

Definition readPage (f : string) (n : Z) (w : World)
    : Status * option (string * Z) * World :=
    match pins w !! (f, n) with
    | Some _ => (OK, Some (f, n), set_pins w (pin (f, n) (pins w)))
    | None =>
        if has_free_frame w then
          match frame_at w (f, n) with
          | Some _ => (OK, Some (f, n), set_pins w (pin (f, n) (pins w)))
          | None => (BADPAGENO, None, w)
          end
        else (BUFFEREXCEEDED, None, w)
    end.

Definition unPinPage (f : string) (n : Z) (dirty : bool) (w : World)
    : Status * World :=
    match pins w !! (f, n) with
    | Some _ => (OK, set_pins w (unpin (f, n) (pins w)))
    | None => (PAGENOTPINNED, w)
    end.

  (** *** Page *)
Section Pages.
Context `{PF : Platform}.

    (** sizeof(slot_t): two shorts. *)
Definition slot_bytes : Z := 4.

Fixpoint live_bytes (sl : list (option Rec.t)) : Z :=
      match sl with
      | [] => 0
      | Some r :: sl' => Rec.length r + live_bytes sl'
      | None :: sl' => live_bytes sl'
      end.

    (** An empty page has room for one record of PAGESIZE - DPFIXED bytes
        and its slot. *)
Definition free_space (d : PageData) : Z :=
      PAGESIZE - DPFIXED + slot_bytes
      - slot_bytes * Z.of_nat (List.length (slots d)) - live_bytes (slots d).

    (** Index of the first used slot at or after [from]; [i] is the index of
        the head of [sl]. *)
Fixpoint find_live (sl : list (option Rec.t)) (i from : nat) : option nat :=
      match sl with
      | [] => None
      | o :: sl' =>
          if (from <=? i)%nat && bool_decide (o <> None) then Some i
          else find_live sl' (S i) from
      end.

    (** Index of the first unused slot. *)
Fixpoint find_unused (sl : list (option Rec.t)) (i : nat) : option nat :=
      match sl with
      | [] => None
      | None :: _ => Some i
      | Some _ :: sl' => find_unused sl' (S i)
      end.

Definition live_slot (d : PageData) (slotNo_ : Z) : option Rec.t :=
      if slotNo_ <? 0 then None
      else match slots d !! Z.to_nat slotNo_ with
           | Some (Some r) => Some r
           | _ => None
           end.

Definition init (p : string * Z) (n : Z) (w : World) : World :=
      set_frame w p (DataFrame (mkPage (-1) n [])).

Definition getRecord (p : string * Z) (rid : RID) (w : World)
      : Status * option Rec.t * World :=
      match frame_at w p with
      | None => (BADPAGENO, None, w)
      | Some fr =>
          match live_slot (as_page fr) (slotNo rid) with
          | Some r => (OK, Some r, w)
          | None => (INVALIDSLOTNO, None, w)
          end
      end.

Definition insertRecord (p : string * Z) (rec : Rec.t) (w : World)
      : Status * option RID * World :=
      match frame_at w p with
      | None => (BADPAGENO, None, w)
      | Some fr =>
          let d := as_page fr in
          if Rec.length rec + slot_bytes >? free_space d then (NOSPACE, None, w)
          else
            match find_unused (slots d) 0 with
            | Some i =>
                (OK, Some (mkRID (curPage d) (Z.of_nat i)),
                 set_frame w p
                   (DataFrame (mkPage (nextPage d) (curPage d)
                                 (<[i := Some rec]> (slots d)))))
            | None =>
                (OK, Some (mkRID (curPage d) (Z.of_nat (List.length (slots d)))),
                 set_frame w p
                   (DataFrame (mkPage (nextPage d) (curPage d)
                                 (slots d ++ [Some rec]))))
            end
      end.

Definition deleteRecord (p : string * Z) (rid : RID) (w : World)
      : Status * World :=
      match frame_at w p with
      | None => (BADPAGENO, w)
      | Some fr =>
          let d := as_page fr in
          match live_slot d (slotNo rid) with
          | Some _ =>
              (OK, set_frame w p
                     (DataFrame (mkPage (nextPage d) (curPage d)
                                   (<[Z.to_nat (slotNo rid) := None]> (slots d)))))
          | None => (INVALIDSLOTNO, w)
          end
      end.

Definition firstRecord (p : string * Z) (w : World)
      : Status * option RID * World :=
      match frame_at w p with
      | None => (BADPAGENO, None, w)
      | Some fr =>
          let d := as_page fr in
          match find_live (slots d) 0 0 with
          | Some i => (OK, Some (mkRID (curPage d) (Z.of_nat i)), w)
          | None => (NORECORDS, None, w)
          end
      end.

Definition nextRecord (p : string * Z) (cur : RID) (w : World)
      : Status * option RID * World :=
      match frame_at w p with
      | None => (BADPAGENO, None, w)
      | Some fr =>
          let d := as_page fr in
          match find_live (slots d) 0 (Z.to_nat (slotNo cur + 1)) with
          | Some i => (OK, Some (mkRID (curPage d) (Z.of_nat i)), w)
          | None => (ENDOFPAGE, None, w)
          end
      end.

Definition getNextPage (p : string * Z) (w : World) : Status * option Z * World :=
      match frame_at w p with
      | None => (BADPAGENO, None, w)
      | Some fr => (OK, Some (nextPage (as_page fr)), w)
      end.

Definition setNextPage (p : string * Z) (n : Z) (w : World) : Status * World :=
      match frame_at w p with
      | None => (BADPAGENO, w)
      | Some fr =>
          let d := as_page fr in
          (OK, set_frame w p (DataFrame (mkPage n (curPage d) (slots d))))
      end.

Definition load (p : string * Z) (w : World) : FileHdrPage :=
      match frame_at w p with
      | Some fr => as_hdr fr
      | None => zero_hdr
      end.

Definition store (p : string * Z) (h : FileHdrPage) (w : World) : World :=
      set_frame w p (HdrFrame h).

Definition collab : Collab :=
      Build_Collab World string (string * Z)
        openFile createFile closeFile destroyFile getFirstPage
        allocPage readPage unPinPage
        init getRecord insertRecord deleteRecord firstRecord nextRecord
        getNextPage setNextPage
        load store.
End Pages.

  (** The number of used slots on the pages of a file. *)
Definition live_slots (fr : Frame) : Z :=
  Z.of_nat (List.length (List.filter (fun o : option Rec.t => bool_decide (o <> None))
                           (slots (as_page fr)))).
Definition live_records (w : World) (f : string) : Z :=
  match files w !! f with
  | Some d => map_fold (fun _ fr acc => live_slots fr + acc) 0 (frames d)
  | None => 0
  end.

  (** The data pages of a file, in chain order from page [n]: [None] when
      the links leave the data pages of the file or do not reach the end
      mark -1 within [fuel] pages. *)
Fixpoint chain_from (fuel : nat) (fr : gmap Z Frame) (n : Z) : option (list Z) :=
    match fuel with
    | O => None
    | S fuel' =>
        match fr !! n with
        | Some (DataFrame d) =>
            if nextPage d =? -1 then Some [n]
            else (n ::.) <$> chain_from fuel' fr (nextPage d)
        | _ => None
        end
    end.

  (** [chain fr n l]: following the links from page [n] visits exactly the
      data pages [l], each once, and then the end mark. *)
Inductive chain (fr : gmap Z Frame) : Z -> list Z -> Prop :=
  | chain_last n d :
      fr !! n = Some (DataFrame d) -> nextPage d = -1 -> chain fr n [n]
  | chain_next n d l :
      fr !! n = Some (DataFrame d) -> nextPage d <> -1 -> n ∉ l ->
      chain fr (nextPage d) l -> chain fr n (n :: l).

End Ref.

(** ** A platform to run the code on

    Four-byte little-endian int, IEEE 754 single-precision float, and the
    page constants of page.h (1024-byte pages, 20 bytes of page
    bookkeeping). *)
Module X86.
Definition f32_sign (u : Z) : bool := Z.testbit u 31.
Definition f32_exp (u : Z) : Z := Z.land (Z.shiftr u 23) 255.
Definition f32_man (u : Z) : Z := Z.land u (2 ^ 23 - 1).
Definition f32_is_nan (u : Z) : bool := (f32_exp u =? 255) && negb (f32_man u =? 0).
Definition f32_is_inf (u : Z) : bool := (f32_exp u =? 255) && (f32_man u =? 0).

  (** Finite floats and infinities are ordered like these integers. *)
Definition f32_key (u : Z) : Z :=
    let k := Z.land u (2 ^ 31 - 1) in
    if f32_sign u then - k else k.

  (** Class of [a - b]: NaN when an operand is NaN or both are the same
      infinity, otherwise the sign of the exact difference (a difference that
      is not zero does not round to zero). *)
Definition f32_sub_class (a b : list byte) : fclass :=
    let ua := le_unsigned a in
    let ub := le_unsigned b in
    if f32_is_nan ua || f32_is_nan ub then FNaN
    else if f32_is_inf ua && f32_is_inf ub && Bool.eqb (f32_sign ua) (f32_sign ub)
         then FNaN
         else fclass_of_int (f32_key ua - f32_key ub).

Definition platform : Platform := {|
    sizeof_int := 4;
    sizeof_float := 4;
    big_endian := false;
    PAGESIZE := 1024;
    DPFIXED := 20;
    MAXNAMESIZE := 50;
    float_sub_class := f32_sub_class
  |}.
End X86.

(** ** Notions on the reference collaborators *)

(** [page_kept w w']: from [w] to [w'] nothing changed, or one page of
    data was replaced by one with the same next-page link. *)
Definition page_kept (w w' : Ref.World) : Prop :=
  w' = w
  \/ exists f k d dk dk',
       Ref.files w !! f = Some d
       /\ Ref.frames d !! k = Some (Ref.DataFrame dk)
       /\ Ref.nextPage dk' = Ref.nextPage dk
       /\ w' = Ref.mkWorld
                 (<[f := Ref.mkFile (Ref.firstPageNo d) (Ref.numPages d)
                           (<[k := Ref.DataFrame dk']> (Ref.frames d))]> (Ref.files w))
                 (Ref.pins w) (Ref.numBufs w).

(** [scanning f fr nb B t s]: scan [t] of file [f] holds its current page
    through the handle of page [curPageNo], the files are [fr], the pool
    has [nb] frames, and the pins are those of [B] plus the scan's pin of
    its current page. *)
Definition scanning `{PF : Platform} (f : string) (fr : gmap string Ref.DbFile)
    (nb : nat) (B : gmap (string * Z) positive)
    (t : @HeapFileScan Ref.collab) (s : @Sys Ref.collab) : Prop :=
  filePtr (base t) = f
  /\ curPage (base t) = Some (f, curPageNo (base t))
  /\ Ref.files (world s) = fr
  /\ Ref.numBufs (world s) = nb
  /\ Ref.pins (world s) = Ref.pin (f, curPageNo (base t)) B.

(** ** The life of one heap file

    States reached from the creation of file [name] by opening it as scans
    and as insert scans, any number of them at a time, calling the open
    objects in any order, and closing them. *)
Section Lifecycle.
Context `{PF : Platform}.
#[local] Existing Instance Ref.collab.

(** An open object. *)
Inductive Obj : Type :=
| ScanObj (t : HeapFileScan)
| InsObj (t : HeapFile).

Definition base_of (o : Obj) : HeapFile :=
  match o with
  | ScanObj t => base t
  | InsObj t => t
  end.

(** The collaborators and the objects that are open on the file. *)
Record Cfg : Type := mkCfg { sys : Sys; objs : list Obj }.

(** [headerPage] points into the frame of the header page, and the objects
    open on a file share that frame: what an object reads through
    [headerPage] during a call is what the frame holds when the call
    starts, whichever object wrote it. *)
Definition sees (this : HeapFile) (s : Sys) : HeapFile :=
  set_hdr this (hdr_load (headerPage this) (world s)).
Definition sees_scan (this : HeapFileScan) (s : Sys) : HeapFileScan :=
  set_base this (sees (base this) s).

(** insertRecord is called in order: the current page of the insert scan is
    a page of data, not the header page; and if it reports NOSPACE, it is
    the page the header names as last, and it is pinned. *)
Definition inserts_in_order (rec : Rec.t) (t : HeapFile) (s : Sys) : Prop :=
  forall page,
    curPage t = Some page ->
    (exists dk, Ref.frame_at (world s) page = Some (Ref.DataFrame dk))
    /\ ((Page_insertRecord page rec s).1.1 = NOSPACE ->
        curPageNo t = lastPage (hdr t)
        /\ is_Some (Ref.pins (world s) !! page)).

(** A call of a member function on an open scan that returns. *)
Inductive scan_call : HeapFileScan -> Sys -> HeapFileScan -> Sys -> Prop :=
| call_startScan t s offset_ length_ type_ filter_ op_ st t' :
    HeapFileScan_startScan offset_ length_ type_ filter_ op_ t = (st, t') ->
    scan_call t s t' s
| call_scanNext t s fuel st rid t' s' :
    HeapFileScan_scanNext fuel t s = Ret (st, rid, t', s') ->
    scan_call t s t' s'
| call_getRecord t s st rec s' :
    HeapFileScan_getRecord t s = Ret (st, rec, s') ->
    scan_call t s t s'
| call_getRecord_rid t s rid st rec b' s' :
    HeapFile_getRecord rid (base t) s = Ret (st, rec, b', s') ->
    scan_call t s (set_base t b') s'
| call_markScan t s :
    scan_call t s (HeapFileScan_markScan t).2 s
| call_resetScan t s st t' s' :
    HeapFileScan_resetScan t s = (st, t', s') ->
    scan_call t s t' s'
| call_deleteRecord t s st t' s' :
    HeapFileScan_deleteRecord t s = Ret (st, t', s') ->
    scan_call t s t' s'
| call_markDirty t s :
    scan_call t s (HeapFileScan_markDirty t).2 s
| call_endScan t s st t' s' :
    HeapFileScan_endScan t s = (st, t', s') ->
    scan_call t s t' s'.

(** A call of a member function on an open insert scan that returns. *)
Inductive insert_call : HeapFile -> Sys -> HeapFile -> Sys -> Prop :=
| call_insertRecord t s rec st rid t' s' :
    inserts_in_order rec t s ->
    InsertFileScan_insertRecord rec t s = Ret (st, rid, t', s') ->
    insert_call t s t' s'
| call_insert_getRecord t s rid st rec t' s' :
    HeapFile_getRecord rid t s = Ret (st, rec, t', s') ->
    insert_call t s t' s'.

Inductive step (name : string) : Cfg -> Cfg -> Prop :=
| step_create s os st s' :
    createHeapFile name s = Ret (st, s') ->
    step name (mkCfg s os) (mkCfg s' os)
| step_open_scan s os junk t s' :
    HeapFileScan_new name junk s = Ret (OK, Some t, s') ->
    step name (mkCfg s os) (mkCfg s' (os ++ [ScanObj t]))
| step_open_insert s os t s' :
    InsertFileScan_new name s = Ret (OK, Some t, s') ->
    step name (mkCfg s os) (mkCfg s' (os ++ [InsObj t]))
| step_open_fails s os st s' :
    HeapFile_new name s = Ret (st, None, s') ->
    step name (mkCfg s os) (mkCfg s' os)
| step_scan s os i t t' s' :
    os !! i = Some (ScanObj t) ->
    scan_call (sees_scan t s) s t' s' ->
    step name (mkCfg s os) (mkCfg s' (<[i := ScanObj t']> os))
| step_insert s os i t t' s' :
    os !! i = Some (InsObj t) ->
    insert_call (sees t s) s t' s' ->
    step name (mkCfg s os) (mkCfg s' (<[i := InsObj t']> os))
| step_close_scan s os i t :
    os !! i = Some (ScanObj t) ->
    step name (mkCfg s os) (mkCfg (HeapFileScan_delete t s) (delete i os))
| step_close_insert s os i t :
    os !! i = Some (InsObj t) ->
    step name (mkCfg s os) (mkCfg (InsertFileScan_delete t s) (delete i os)).

Inductive reachable (name : string) : Cfg -> Prop :=
| reach_created s s' :
    Ref.files (world s) !! name = None ->
    createHeapFile name s = Ret (OK, s') ->
    reachable name (mkCfg s' [])
| reach_step c c' :
    reachable name c -> step name c c' -> reachable name c'.

(** The file as the header describes it: the header page is the first page
    of the file; the data pages [l] are chained from the header's firstPage
    to its lastPage; the header's pageCnt is their number plus one, as an
    int; the pages in use have numbers from 0 to below [numPages]; every
    page of data of the file is in the chain. *)
Definition described (d : Ref.DbFile) (h : FileHdrPage) (l : list Z) : Prop :=
  Ref.frames d !! Ref.firstPageNo d = Some (Ref.HdrFrame h)
  /\ Ref.chain (Ref.frames d) (firstPage h) l
  /\ last l = Some (lastPage h)
  /\ (Ref.firstPageNo d ∉ l)
  /\ pageCnt h = int_wrap (Z.of_nat (List.length l) + 1)
  /\ (forall n, is_Some (Ref.frames d !! n) -> 0 <= n < Ref.numPages d)
  /\ (forall k dk, Ref.frames d !! k = Some (Ref.DataFrame dk) -> k ∈ l).

(** An open object works on that file through the frame of its header page;
    the page handle of an insert scan is that of page [curPageNo]. *)
Definition attached (name : string) (d : Ref.DbFile) (o : Obj) : Prop :=
  filePtr (base_of o) = name
  /\ headerPage (base_of o) = (name, Ref.firstPageNo d)
  /\ match o with
     | ScanObj _ => True
     | InsObj t => forall p, curPage t = Some p -> p = (name, curPageNo t)
     end.

Definition consistent (name : string) (c : Cfg) : Prop :=
  exists d h l,
    Ref.files (world (sys c)) !! name = Some d
    /\ described d h l
    /\ Forall (attached name d) (objs c).

End Lifecycle.

(** ** Notions used to state further properties *)

Section CallNotions.
Context `{CO : Collab}.

(** The calls by which a constructor takes hold of a file: opening it,
    asking for its first page, reading and pinning a page. *)
Definition acquires (e : Event) : Prop :=
  match e with
  | EvOpenFile _ | EvGetFirstPage _ | EvReadPage _ _ => True
  | _ => False
  end.
End CallNotions.

(** What a scan is to return, on the reference collaborators. *)
Section ScanResults.
Context `{PF : Platform}.
#[local] Existing Instance Ref.collab.

(** The RIDs a scan is to return from the slots [sl] of a page whose own
    number is [own]: those of the used slots at index [from] or after whose
    record the filter of [t] accepts, in slot order.  [i] is the index of
    the head of [sl]. *)
Fixpoint page_matches (t : HeapFileScan) (own : Z) (sl : list (option Rec.t))
    (i from : nat) : list RID :=
  match sl with
  | [] => []
  | o :: sl' =>
      match o with
      | Some r =>
          if (from <=? i)%nat && HeapFileScan_matchRec t r
          then [mkRID own (Z.of_nat i)] else []
      | None => []
      end ++ page_matches t own sl' (S i) from
  end.

(** The same for the data pages [l], page after page; on the first page
    from slot [from] on. *)
Fixpoint file_matches (t : HeapFileScan) (fr : gmap Z Ref.Frame) (l : list Z)
    (from : nat) : list RID :=
  match l with
  | [] => []
  | k :: l' =>
      match fr !! k with
      | Some (Ref.DataFrame d) => page_matches t (Ref.curPage d) (Ref.slots d) 0 from
      | _ => []
      end ++ file_matches t fr l' 0
  end.

(** [scan_run t s rids t' s']: calls of scanNext from scan [t] in system
    [s] return OK with the RIDs [rids], one after the other, and then
    NOMORERECS, which leaves scan [t'] and system [s']. *)
Inductive scan_run : HeapFileScan -> Sys -> list RID -> HeapFileScan -> Sys -> Prop :=
| run_end t s fuel t' s' :
    HeapFileScan_scanNext fuel t s = Ret (NOMORERECS, None, t', s') ->
    scan_run t s [] t' s'
| run_more t s fuel rid t1 s1 rids t' s' :
    HeapFileScan_scanNext fuel t s = Ret (OK, Some rid, t1, s1) ->
    scan_run t1 s1 rids t' s' ->
    scan_run t s (rid :: rids) t' s'.

(** The scan stands before slot [j] of its page: nothing fetched yet and
    [j = 0], or the last fetch was slot [j - 1]. *)
Definition at_slot (j : nat) (r : RID) : Prop :=
  (j = 0%nat /\ r = NULLRID) \/ ((0 < j)%nat /\ slotNo r = Z.of_nat j - 1).

(** [scan_at f D nb B t s l j]: scan [t] of file [f], whose content is [D],
    holds its current page pinned besides the pins [B], in a pool of [nb]
    frames; the data pages from the current page on are [l]; the scan
    stands before slot [j] of the current page. *)
Definition scan_at (f : string) (D : Ref.DbFile) (nb : nat)
    (B : gmap (string * Z) positive) (t : HeapFileScan) (s : Sys)
    (l : list Z) (j : nat) : Prop :=
  filePtr (base t) = f
  /\ curPage (base t) = Some (f, curPageNo (base t))
  /\ Ref.files (world s) !! f = Some D
  /\ Ref.numBufs (world s) = nb
  /\ Ref.pins (world s) = Ref.pin (f, curPageNo (base t)) B
  /\ Ref.chain (Ref.frames D) (curPageNo (base t)) l
  /\ at_slot j (curRec (base t)).

End ScanResults.

(** ** Inputs used to run the code *)
Module Ex.
#[local] Existing Instance X86.platform.
#[local] Existing Instance Ref.collab.

  (** An empty database over a pool of [n] frames. *)
Definition fresh (n : nat) : Sys := mkSys (Ref.mkWorld ∅ ∅ n) [].

  (** A scan object over file "t1" (header page 1, first data page 2) with
      the given scan members. *)
Definition scan_with (m : Scan.members) : HeapFileScan :=
    mkScan (mkHeapFile "t1" ("t1", 1) (mkHdr "t1" 2 2 2 0) 1 false
              (Some ("t1", 2)) 2 false NULLRID) m.

  (** The predicate [attribute < 1] on the int at offset 0. *)
Definition less_than_one : Scan.members :=
    Scan.mk 0 4 INTEGER (Some [x01; x00; x00; x00]) LT 0 NULLRID.

  (** A four-byte record holding INT_MIN. *)
Definition rec_int_min : Rec.t := Rec.mk [x00; x00; x00; x80] 4.

  (** A record longer than a page can hold. *)
Definition rec_oversized : Rec.t := Rec.mk (repeat x00 2000) 2000.

  (** A record that fills a page to the last byte, and a small one. *)
Definition rec_full : Rec.t := Rec.mk (repeat x41 1004) 1004.
Definition rec_five : Rec.t := Rec.mk [x05; x00; x00; x00] 4.

  (** File "t1" after [rec_full] and [rec_five] were inserted: header page 1,
      data pages 2 and 3, one record on each. *)
Definition two_pages : gmap string Ref.DbFile :=
  {[ "t1" :=
       Ref.mkFile 1 4
         {[ 1 := Ref.HdrFrame (mkHdr "t1" 2 3 3 2);
            2 := Ref.DataFrame (Ref.mkPage 3 2 [Some rec_full]);
            3 := Ref.DataFrame (Ref.mkPage (-1) 3 [Some rec_five]) ]} ]}.

  (** The file open, as HeapFile::HeapFile leaves it: header page and first
      data page pinned, in a pool of [n] frames. *)
Definition two_pages_open (n : nat) : Sys :=
  mkSys (Ref.mkWorld two_pages {[ ("t1", 1) := 1%positive; ("t1", 2) := 1%positive ]} n)
    [].
Definition opened : HeapFile :=
  mkHeapFile "t1" ("t1", 1) (mkHdr "t1" 2 3 3 2) 1 false (Some ("t1", 2)) 2 false
    NULLRID.

  (** Scan members without a filter. *)
Definition no_filter : Scan.members := Scan.mk 0 0 STRING None EQ 0 NULLRID.

  (** A scan of that file that has not fetched anything yet, and one that
      has returned the only record of page 2. *)
Definition scan_start : HeapFileScan := mkScan opened no_filter.
Definition scan_on_page_2 : HeapFileScan :=
  mkScan (set_curRec opened (mkRID 2 0)) no_filter.

  (** File "t1" after [rec_full] alone was inserted: its one data page has
      no free byte left.  Then the file open in a pool of [n] frames. *)
Definition full_page : gmap string Ref.DbFile :=
  {[ "t1" :=
       Ref.mkFile 1 3
         {[ 1 := Ref.HdrFrame (mkHdr "t1" 2 2 2 1);
            2 := Ref.DataFrame (Ref.mkPage (-1) 2 [Some rec_full]) ]} ]}.
Definition full_page_open (n : nat) : Sys :=
  mkSys (Ref.mkWorld full_page {[ ("t1", 1) := 1%positive; ("t1", 2) := 1%positive ]} n)
    [].
Definition inserting : HeapFile :=
  mkHeapFile "t1" ("t1", 1) (mkHdr "t1" 2 2 2 1) 1 false (Some ("t1", 2)) 2 false
    NULLRID.

  (** The states of one run on a pool of three frames: file "t1" created;
      opened for insertion; after [rec_full] went on page 2; after
      [rec_five] found page 2 full and went on the new page 3.  Each comes
      with the collaborator calls made up to it. *)
Definition both_pinned : gmap (string * Z) positive :=
  {[ ("t1", 1) := 1%positive; ("t1", 2) := 1%positive ]}.
Definition one_page : gmap string Ref.DbFile :=
  {[ "t1" :=
       Ref.mkFile 1 3
         {[ 1 := Ref.HdrFrame (mkHdr "t1" 2 2 2 0);
            2 := Ref.DataFrame (Ref.mkPage (-1) 2 []) ]} ]}.
Definition create_calls : list Event :=
  [EvOpenFile "t1"; EvCreateFile "t1"; EvOpenFile "t1";
   EvAllocPage "t1"; EvAllocPage "t1"; EvInit ("t1", 2) 2;
   EvUnPinPage "t1" 1 true; EvUnPinPage "t1" 2 true].
Definition open_calls : list Event :=
  create_calls ++ [EvOpenFile "t1"; EvGetFirstPage "t1"; EvReadPage "t1" 1;
   EvReadPage "t1" 2].
Definition created : Sys := mkSys (Ref.mkWorld one_page ∅ 3) create_calls.
Definition created_open : Sys := mkSys (Ref.mkWorld one_page both_pinned 3) open_calls.
Definition empty_open : HeapFile :=
  mkHeapFile "t1" ("t1", 1) (mkHdr "t1" 2 2 2 0) 1 false (Some ("t1", 2)) 2 false
    NULLRID.
Definition full_open : Sys :=
  mkSys (Ref.mkWorld full_page both_pinned 3)
    (open_calls ++ [EvInsertRecord ("t1", 2) rec_full]).
Definition full_obj : HeapFile :=
  mkHeapFile "t1" ("t1", 1) (mkHdr "t1" 2 2 2 1) 1 true (Some ("t1", 2)) 2 true
    NULLRID.
Definition grown_open : Sys :=
  mkSys (Ref.mkWorld two_pages {[ ("t1", 1) := 1%positive; ("t1", 3) := 1%positive ]} 3)
    (open_calls ++ [EvInsertRecord ("t1", 2) rec_full;
       EvInsertRecord ("t1", 2) rec_five;
       EvAllocPage "t1"; EvInit ("t1", 3) 3; EvSetNextPage ("t1", 2) 3;
       EvUnPinPage "t1" 2 true; EvInsertRecord ("t1", 3) rec_five]).
Definition grown_obj : HeapFile :=
  mkHeapFile "t1" ("t1", 1) (mkHdr "t1" 2 3 3 2) 1 true (Some ("t1", 3)) 3 true
    NULLRID.

(** A filter on the four characters at offset 0, a record those characters
    agree with up to their NUL, and the members of a scan marked at the
    only record of page 3. *)
Definition starts_ab : Scan.members :=
  Scan.mk 0 4 STRING (Some [x61; x62; x00; x7a]) EQ 0 NULLRID.
Definition rec_ab : Rec.t := Rec.mk [x61; x62; x00; x71] 4.
Definition marked_on_page_3 : Scan.members :=
  Scan.mk 0 0 STRING None EQ 3 (mkRID 3 0).
Definition header_pinned : gmap (string * Z) positive := {[ ("t1", 1) := 1%positive ]}.
Definition full_file : Ref.DbFile :=
  Ref.mkFile 1 3
    {[ 1 := Ref.HdrFrame (mkHdr "t1" 2 2 2 1);
       2 := Ref.DataFrame (Ref.mkPage (-1) 2 [Some rec_full]) ]}.
Definition two_page_file : Ref.DbFile :=
  Ref.mkFile 1 4
    {[ 1 := Ref.HdrFrame (mkHdr "t1" 2 3 3 2);
       2 := Ref.DataFrame (Ref.mkPage 3 2 [Some rec_full]);
       3 := Ref.DataFrame (Ref.mkPage (-1) 3 [Some rec_five]) ]}.

(** The run above, continued: the insert scan closed and the file opened
    for insertion anew, which makes the full page 2 the current page; then
    [rec_five] inserted, which links a new page 4 after page 2. *)
Definition grown_calls : list Event :=
  open_calls ++ [EvInsertRecord ("t1", 2) rec_full;
     EvInsertRecord ("t1", 2) rec_five;
     EvAllocPage "t1"; EvInit ("t1", 3) 3; EvSetNextPage ("t1", 2) 3;
     EvUnPinPage "t1" 2 true; EvInsertRecord ("t1", 3) rec_five].
Definition reopened_calls : list Event :=
  grown_calls ++ [EvUnPinPage "t1" 3 true; EvUnPinPage "t1" 1 true; EvCloseFile "t1";
     EvOpenFile "t1"; EvGetFirstPage "t1"; EvReadPage "t1" 1; EvReadPage "t1" 2].
Definition reopened : Sys := mkSys (Ref.mkWorld two_pages both_pinned 3) reopened_calls.
Definition page_3_cut_off : gmap string Ref.DbFile :=
  {[ "t1" :=
       Ref.mkFile 1 5
         {[ 1 := Ref.HdrFrame (mkHdr "t1" 2 4 4 3);
            2 := Ref.DataFrame (Ref.mkPage 4 2 [Some rec_full]);
            3 := Ref.DataFrame (Ref.mkPage (-1) 3 [Some rec_five]);
            4 := Ref.DataFrame (Ref.mkPage (-1) 4 [Some rec_five]) ]} ]}.
Definition regrown : Sys :=
  mkSys (Ref.mkWorld page_3_cut_off
           {[ ("t1", 1) := 1%positive; ("t1", 4) := 1%positive ]} 3)
    (reopened_calls ++ [EvInsertRecord ("t1", 2) rec_five;
       EvAllocPage "t1"; EvInit ("t1", 4) 4; EvSetNextPage ("t1", 2) 4;
       EvUnPinPage "t1" 2 true; EvInsertRecord ("t1", 4) rec_five]).
Definition regrown_obj : HeapFile :=
  mkHeapFile "t1" ("t1", 1) (mkHdr "t1" 2 4 4 3) 1 true (Some ("t1", 4)) 4 true
    NULLRID.

(** A run with two objects open together on a pool of three frames: file
    "t1" created; opened for insertion; opened as a scan; [rec_full]
    inserted on page 2; [rec_five] inserted, on the new page 3; the scan
    moved to the record of page 2; that record deleted through the scan. *)
Definition shared_pins : gmap (string * Z) positive :=
  {[ ("t1", 1) := 2%positive; ("t1", 2) := 2%positive ]}.
Definition shared_calls : list Event :=
  open_calls ++ [EvOpenFile "t1"; EvGetFirstPage "t1"; EvReadPage "t1" 1;
     EvReadPage "t1" 2].
Definition shared_open : Sys := mkSys (Ref.mkWorld one_page shared_pins 3) shared_calls.
Definition shared_scan : HeapFileScan := mkScan empty_open no_filter.
Definition shared_full : Sys :=
  mkSys (Ref.mkWorld full_page shared_pins 3)
    (shared_calls ++ [EvInsertRecord ("t1", 2) rec_full]).
Definition shared_grown_pins : gmap (string * Z) positive :=
  {[ ("t1", 1) := 2%positive; ("t1", 2) := 1%positive; ("t1", 3) := 1%positive ]}.
Definition shared_grown_calls : list Event :=
  shared_calls ++ [EvInsertRecord ("t1", 2) rec_full;
     EvInsertRecord ("t1", 2) rec_five;
     EvAllocPage "t1"; EvInit ("t1", 3) 3; EvSetNextPage ("t1", 2) 3;
     EvUnPinPage "t1" 2 true; EvInsertRecord ("t1", 3) rec_five].
Definition shared_grown : Sys :=
  mkSys (Ref.mkWorld two_pages shared_grown_pins 3) shared_grown_calls.
Definition shared_scanned : Sys :=
  mkSys (Ref.mkWorld two_pages shared_grown_pins 3)
    (shared_grown_calls ++ [EvFirstRecord ("t1", 2); EvGetRecord ("t1", 2) (mkRID 2 0)]).
Definition one_deleted : gmap string Ref.DbFile :=
  {[ "t1" :=
       Ref.mkFile 1 4
         {[ 1 := Ref.HdrFrame (mkHdr "t1" 2 3 3 1);
            2 := Ref.DataFrame (Ref.mkPage 3 2 [None]);
            3 := Ref.DataFrame (Ref.mkPage (-1) 3 [Some rec_five]) ]} ]}.
Definition shared_deleted : Sys :=
  mkSys (Ref.mkWorld one_deleted shared_grown_pins 3)
    (shared_grown_calls ++ [EvFirstRecord ("t1", 2); EvGetRecord ("t1", 2) (mkRID 2 0);
       EvDeleteRecord ("t1", 2) (mkRID 2 0)]).
Definition scan_deleted : HeapFileScan :=
  mkScan (mkHeapFile "t1" ("t1", 1) (mkHdr "t1" 2 3 3 1) 1 true (Some ("t1", 2)) 2 true
            (mkRID 2 0)) no_filter.

(** Another continuation of the run, from the state in which page 2 is full:
    getRecord for a page that does not exist unpins page 2 and fails to read;
    then [rec_five] inserted, which links a new page 3 and fails to unpin
    page 2. *)
Definition full_unpinned : Sys :=
  mkSys (Ref.mkWorld full_page header_pinned 3)
    (open_calls ++ [EvInsertRecord ("t1", 2) rec_full;
       EvUnPinPage "t1" 2 true; EvReadPage "t1" 9]).
Definition page_3_not_counted : gmap string Ref.DbFile :=
  {[ "t1" :=
       Ref.mkFile 1 4
         {[ 1 := Ref.HdrFrame (mkHdr "t1" 2 2 2 1);
            2 := Ref.DataFrame (Ref.mkPage 3 2 [Some rec_full]);
            3 := Ref.DataFrame (Ref.mkPage (-1) 3 []) ]} ]}.
Definition linked_not_counted : Sys :=
  mkSys (Ref.mkWorld page_3_not_counted
           {[ ("t1", 1) := 1%positive; ("t1", 3) := 1%positive ]} 3)
    (open_calls ++ [EvInsertRecord ("t1", 2) rec_full;
       EvUnPinPage "t1" 2 true; EvReadPage "t1" 9;
       EvInsertRecord ("t1", 2) rec_five;
       EvAllocPage "t1"; EvInit ("t1", 3) 3; EvSetNextPage ("t1", 2) 3;
       EvUnPinPage "t1" 2 true]).
End Ex.

(** * Properties *)

Section IntegerFacts.
Context `{PF : Platform}.

Lemma int_bits_pos : 0 < sizeof_int -> 0 < int_bits.
Proof. unfold int_bits. lia. Qed.

Lemma uint_wrap_small z : 0 <= z < 2 ^ int_bits -> uint_wrap z = z.
Proof. intros Hz. unfold uint_wrap. apply Z.mod_small. exact Hz. Qed.

Lemma INT_MAX_lt_modulus : 0 <= INT_MAX -> INT_MAX < 2 ^ int_bits.
Proof.
    unfold INT_MAX. intros Hmax.
    destruct (Z.le_gt_cases 1 int_bits) as [Hb | Hb].
    - replace int_bits with (Z.succ (int_bits - 1)) at 2 by lia.
      rewrite Z.pow_succ_r by lia.
      assert (0 < 2 ^ (int_bits - 1)) by (apply Z.pow_pos_nonneg; lia). lia.
    - rewrite Z.pow_neg_r in Hmax by lia. lia.
Qed.

Lemma int_wrap_small z : 0 < sizeof_int -> INT_MIN <= z <= INT_MAX -> int_wrap z = z.
Proof.
    intros Hs. unfold INT_MIN, INT_MAX, int_wrap. intros Hz.
    pose proof (int_bits_pos Hs) as Hb.
    assert (Hp : 2 ^ int_bits = 2 * 2 ^ (int_bits - 1)).
    { replace int_bits with (Z.succ (int_bits - 1)) at 1 by lia.
      apply Z.pow_succ_r. lia. }
    rewrite Z.mod_small; lia.
Qed.

  (** Wrap-around never leaves a number in place when 1 is added or taken. *)
Lemma int_wrap_pred_ne z : 0 < sizeof_int -> int_wrap (z - 1) <> z.
Proof.
    intros Hs Heq. unfold int_wrap in Heq.
    pose proof (int_bits_pos Hs) as Hb.
    assert (Hm : 2 <= 2 ^ int_bits).
    { change 2 with (2 ^ 1) at 1. apply Z.pow_le_mono_r; lia. }
    set (h := 2 ^ (int_bits - 1)) in *. set (m := 2 ^ int_bits) in *.
    assert (Hmod : (z - 1 + h) mod m = z + h) by lia.
    pose proof (Z.mod_pos_bound (z - 1 + h) m ltac:(lia)) as Hb1.
    assert (Hz : (z + h) mod m = z + h) by (apply Z.mod_small; lia).
    assert (Hd : ((z + h) - (z - 1 + h)) mod m = 0).
    { rewrite Zminus_mod, Hz, Hmod, Z.sub_diag. apply Z.mod_0_l. lia. }
    replace (z + h - (z - 1 + h)) with 1 in Hd by lia.
    rewrite Z.mod_small in Hd; lia.
Qed.
End IntegerFacts.

Section Generic.
Context `{PF : Platform} `{CO : Collab}.

  (** *** startScan *)

Lemma bad_scan_parm_iff offset_ length_ type_ op_ :
    bad_scan_parm offset_ length_ type_ op_ = true <->
    (offset_ < 0 \/ length_ < 1
     \/ (type_ <> STRING /\ type_ <> INTEGER /\ type_ <> FLOAT)
     \/ (type_ = INTEGER /\ length_ <> sizeof_int)
     \/ (type_ = FLOAT /\ length_ <> sizeof_float)
     \/ (op_ <> LT /\ op_ <> LTE /\ op_ <> EQ /\ op_ <> GTE /\ op_ <> GT /\ op_ <> NE)).
Proof.
    unfold bad_scan_parm.
    rewrite !orb_true_iff, !andb_true_iff, !negb_true_iff, !bool_decide_eq_true,
      !Z.ltb_lt, !Z.eqb_neq.
    tauto.
Qed.

  (** C5.  startScan with a filter returns BADSCANPARM exactly when the offset
      is negative, or the length is below 1, or the type is none of STRING,
      INTEGER, FLOAT, or the type is INTEGER and the length is not
      sizeof(int), or the type is FLOAT and the length is not sizeof(float),
      or the operator is none of LT, LTE, EQ, GTE, GT, NE; in that case the
      object is left as it was, and otherwise the five fields are stored and
      OK is returned.  With a null filter the call clears the filter and
      returns OK, after which matchRec accepts every record. *)
Theorem startScan_validates offset_ length_ type_ op_ (this : HeapFileScan) :
    (forall f : list byte,
       let bad :=
         offset_ < 0 \/ length_ < 1
         \/ (type_ <> STRING /\ type_ <> INTEGER /\ type_ <> FLOAT)
         \/ (type_ = INTEGER /\ length_ <> sizeof_int)
         \/ (type_ = FLOAT /\ length_ <> sizeof_float)
         \/ (op_ <> LT /\ op_ <> LTE /\ op_ <> EQ /\ op_ <> GTE /\ op_ <> GT
             /\ op_ <> NE) in
       let r := HeapFileScan_startScan offset_ length_ type_ (Some f) op_ this in
       (r.1 = BADSCANPARM <-> bad)
       /\ ((bad /\ r = (BADSCANPARM, this))
           \/ (~ bad
               /\ r = (OK, mkScan (base this)
                             (Scan.mk offset_ length_ type_ (Some f) op_
                                (Scan.markedPageNo (scan this))
                                (Scan.markedRec (scan this)))))))
    /\ (let r := HeapFileScan_startScan offset_ length_ type_ None op_ this in
        r = (OK, mkScan (base this)
                   (Scan.mk (Scan.offset (scan this)) (Scan.length (scan this))
                      (Scan.type (scan this)) None (Scan.op (scan this))
                      (Scan.markedPageNo (scan this)) (Scan.markedRec (scan this))))
        /\ forall rec, HeapFileScan_matchRec r.2 rec = true).
Proof.
    split.
    - intros f bad r. subst r. unfold HeapFileScan_startScan.
      pose proof (bad_scan_parm_iff offset_ length_ type_ op_) as Hiff.
      fold bad in Hiff.
      destruct (bad_scan_parm offset_ length_ type_ op_) eqn:Hb; simpl.
      + assert (Hbad : bad) by (apply Hiff; reflexivity).
        split; [tauto | left; split; [exact Hbad | reflexivity]].
      + assert (Hok : ~ bad) by (intros Hbad; apply Hiff in Hbad; discriminate).
        split; [split; [discriminate | tauto] | right; split; [exact Hok | reflexivity]].
    - simpl. split; [reflexivity | intros rec; reflexivity].
Qed.

  (** *** insertRecord: a record that is too long *)

  (** C7.  A record whose length exceeds PAGESIZE - DPFIXED, the most a page
      can hold, makes insertRecord return INVALIDRECLEN at once: no
      collaborator is called (the trace and the world are the ones given) and
      the object, header counts included, is unchanged. *)
Theorem insertRecord_oversized (rec : Rec.t) (this : HeapFile) (s : Sys) :
    0 <= PAGESIZE - DPFIXED ->
    PAGESIZE - DPFIXED < Rec.length rec ->
    Rec.length rec <= INT_MAX ->
    InsertFileScan_insertRecord rec this s = Ret (INVALIDRECLEN, None, this, s).
Proof.
    intros Hpay Hlen Hmax. unfold InsertFileScan_insertRecord.
    assert (Hm : INT_MAX < 2 ^ int_bits) by (apply INT_MAX_lt_modulus; lia).
    rewrite !uint_wrap_small by lia.
    destruct (Rec.length rec >? PAGESIZE - DPFIXED) eqn:Hcmp; [reflexivity |].
    rewrite Z.gtb_ltb, Z.ltb_ge in Hcmp. lia.
Qed.

(** *** Every logged call adds its event to the trace *)

Ltac logged :=
  let H := fresh in
  intros H;
  repeat match type of H with
         | context [let '(_, _) := ?c in _] => destruct c
         end;
  inversion H; subst; reflexivity.

Lemma DB_openFile_trace {name s st f s'} :
  DB_openFile name s = (st, f, s') -> trace s' = trace s ++ [EvOpenFile name].
Proof. unfold DB_openFile. logged. Qed.

Lemma DB_createFile_trace {name s st s'} :
  DB_createFile name s = (st, s') -> trace s' = trace s ++ [EvCreateFile name].
Proof. unfold DB_createFile. logged. Qed.

Lemma BufMgr_allocPage_trace {f s st n p s'} :
  BufMgr_allocPage f s = (st, n, p, s') -> trace s' = trace s ++ [EvAllocPage f].
Proof. unfold BufMgr_allocPage. logged. Qed.

Lemma BufMgr_readPage_trace {f n s st p s'} :
  BufMgr_readPage f n s = (st, p, s') -> trace s' = trace s ++ [EvReadPage f n].
Proof. unfold BufMgr_readPage. logged. Qed.

Lemma BufMgr_unPinPage_trace {f n d s st s'} :
  BufMgr_unPinPage f n d s = (st, s') -> trace s' = trace s ++ [EvUnPinPage f n d].
Proof. unfold BufMgr_unPinPage. logged. Qed.

Lemma Page_getRecord_trace {p rid s st r s'} :
  Page_getRecord p rid s = (st, r, s') -> trace s' = trace s ++ [EvGetRecord p rid].
Proof. unfold Page_getRecord. logged. Qed.

Lemma Page_insertRecord_trace {p rec s st r s'} :
  Page_insertRecord p rec s = (st, r, s') ->
  trace s' = trace s ++ [EvInsertRecord p rec].
Proof. unfold Page_insertRecord. logged. Qed.

Lemma Page_deleteRecord_trace {p rid s st s'} :
  Page_deleteRecord p rid s = (st, s') -> trace s' = trace s ++ [EvDeleteRecord p rid].
Proof. unfold Page_deleteRecord. logged. Qed.

Lemma Page_firstRecord_trace {p s st r s'} :
  Page_firstRecord p s = (st, r, s') -> trace s' = trace s ++ [EvFirstRecord p].
Proof. unfold Page_firstRecord. logged. Qed.

Lemma Page_nextRecord_trace {p rid s st r s'} :
  Page_nextRecord p rid s = (st, r, s') -> trace s' = trace s ++ [EvNextRecord p rid].
Proof. unfold Page_nextRecord. logged. Qed.

Lemma Page_getNextPage_trace {p s st n s'} :
  Page_getNextPage p s = (st, n, s') -> trace s' = trace s ++ [EvGetNextPage p].
Proof. unfold Page_getNextPage. logged. Qed.

Lemma Page_setNextPage_trace {p n s st s'} :
  Page_setNextPage p n s = (st, s') -> trace s' = trace s ++ [EvSetNextPage p n].
Proof. unfold Page_setNextPage. logged. Qed.

Lemma status_ne_OK_true {st} : st <> OK -> status_ne st OK = true.
Proof.
  intros Hne. unfold status_ne. rewrite bool_decide_eq_false_2; [reflexivity | exact Hne].
Qed.

Lemma status_ne_OK_false : status_ne OK OK = false.
Proof. reflexivity. Qed.

(** *** HeapFile::getRecord when the read fails after a page switch *)

(** C1, amended.  The current page differs from rid.pageNo, the old page is
    unpinned, the page rid.pageNo is pinned and made current, and the
    page-level read fails with [st].  getRecord returns [st], and the read
    is the last call it makes: the page it pinned has become the current
    page (curPageNo is rid.pageNo, the dirty flag is false), and the guard
    [curPageNo != rid.pageNo] keeps the current page from being unpinned.
    The page stays pinned, as the current page of the object. *)
Theorem getRecord_read_failure_keeps_pin
    (rid : RID) (this : HeapFile) (s s1 s2 s3 : Sys) (p0 p : PagePtr)
    (st : Status) (rec : option Rec.t) :
  curPage this = Some p0 ->
  curPageNo this <> pageNo rid ->
  BufMgr_unPinPage (filePtr this) (curPageNo this) (curDirtyFlag this) s = (OK, s1) ->
  BufMgr_readPage (filePtr this) (pageNo rid) s1 = (OK, Some p, s2) ->
  Page_getRecord p rid s2 = (st, rec, s3) ->
  st <> OK ->
  HeapFile_getRecord rid this s
  = Ret (st, rec,
         set_curDirtyFlag (set_curPageNo (set_curPage this (Some p)) (pageNo rid)) false,
         s3)
  /\ trace s3
     = trace s ++ [EvUnPinPage (filePtr this) (curPageNo this) (curDirtyFlag this);
                   EvReadPage (filePtr this) (pageNo rid);
                   EvGetRecord p rid].
Proof.
  intros Hcur Hne Hunpin Hread Hget Hst. split.
  - unfold HeapFile_getRecord.
    apply Z.eqb_neq in Hne. rewrite Hne, andb_false_r, Hcur, Hunpin.
    rewrite status_ne_OK_false, Hread, status_ne_OK_false.
    unfold HeapFile_getRecord_read. simpl. rewrite Hget.
    rewrite (status_ne_OK_true Hst), Z.eqb_refl. reflexivity.
  - rewrite (Page_getRecord_trace Hget), (BufMgr_readPage_trace Hread),
      (BufMgr_unPinPage_trace Hunpin), <- !app_assoc. reflexivity.
Qed.

(** *** scanNext: the order of unpin and next-page read *)

Lemma fetch_trace (this : HeapFileScan) page s st rid s' :
  (if (pageNo (curRec (base this)) =? -1) && (slotNo (curRec (base this)) =? -1)
   then Page_firstRecord page s
   else Page_nextRecord page (curRec (base this)) s) = (st, rid, s') ->
  trace s' = trace s ++ [fetch_event this page].
Proof.
  unfold fetch_event.
  destruct ((pageNo (curRec (base this)) =? -1) && (slotNo (curRec (base this)) =? -1)).
  - apply Page_firstRecord_trace.
  - apply Page_nextRecord_trace.
Qed.

Lemma scanNext_loop_trace fuel :
  forall nextRid rec this s st o this' s',
    scanNext_loop fuel nextRid rec this s = Ret (st, o, this', s') ->
    exists rest, trace s' = trace s ++ rest.
Proof.
  induction fuel as [| fuel IH]; intros nextRid rec this s st o this' s' Hrun;
    [discriminate |].
  simpl in Hrun. unfold need in Hrun.
  destruct (curPage (base this)) as [page |]; [| discriminate].
  match type of Hrun with
  | context [let '(_, _) := ?c in _] => destruct c as [[st0 rid0] s0] eqn:Hfetch
  end.
  apply fetch_trace in Hfetch.
  destruct (bool_decide (st0 = NORECORDS) || bool_decide (st0 = ENDOFPAGE)).
  - destruct (BufMgr_unPinPage _ _ _ s0) as [st1 s1] eqn:Hunpin.
    apply BufMgr_unPinPage_trace in Hunpin.
    destruct (status_ne st1 OK).
    { inversion Hrun; subst. rewrite Hunpin, Hfetch, <- app_assoc. eauto. }
    destruct (Page_getNextPage page s1) as [[st2 npn] s2] eqn:Hnext.
    apply Page_getNextPage_trace in Hnext.
    destruct (status_ne st2 OK).
    { inversion Hrun; subst. rewrite Hnext, Hunpin, Hfetch, <- !app_assoc. eauto. }
    destruct npn as [npn |]; [| discriminate].
    destruct (npn =? -1).
    { inversion Hrun; subst. rewrite Hnext, Hunpin, Hfetch, <- !app_assoc. eauto. }
    destruct (BufMgr_readPage _ npn s2) as [[st3 pg] s3] eqn:Hread.
    apply BufMgr_readPage_trace in Hread.
    destruct (status_ne st3 OK).
    { inversion Hrun; subst. rewrite Hread, Hnext, Hunpin, Hfetch, <- !app_assoc. eauto. }
    apply IH in Hrun as [rest Hrest].
    rewrite Hrest, Hread, Hnext, Hunpin, Hfetch, <- !app_assoc. eauto.
  - destruct (status_ne st0 OK).
    { inversion Hrun; subst. eauto. }
    destruct (stored rid0 nextRid) as [rid |]; [| discriminate].
    destruct (Page_getRecord page rid s0) as [[st1 rec1] s1] eqn:Hget.
    apply Page_getRecord_trace in Hget.
    destruct (status_ne st1 OK).
    { inversion Hrun; subst. rewrite Hget, Hfetch, <- !app_assoc. eauto. }
    match type of Hrun with
    | context [match ?c with Some _ => _ | None => Undef end] => destruct c as [[|] |]
    end; [| | discriminate].
    + inversion Hrun; subst. rewrite Hget, Hfetch, <- !app_assoc. eauto.
    + apply IH in Hrun as [rest Hrest].
      rewrite Hrest, Hget, Hfetch, <- !app_assoc. eauto.
Qed.

(** C3, what the code does.  When the fetch at the top of the loop reports
    NORECORDS or ENDOFPAGE and the unpin of the current page succeeds, the
    next call of scanNext is getNextPage through the handle of the page it
    has just unpinned: in the trace of every result, the read of the link
    comes right after the unpin. *)
Theorem scanNext_reads_link_after_unpin
    (fuel : nat) (nextRid : option RID) (rec : option Rec.t) (this : HeapFileScan)
    (s s0 s1 : Sys) (page : PagePtr) (st0 : Status) (rid0 : option RID) :
  curPage (base this) = Some page ->
  (if (pageNo (curRec (base this)) =? -1) && (slotNo (curRec (base this)) =? -1)
   then Page_firstRecord page s
   else Page_nextRecord page (curRec (base this)) s) = (st0, rid0, s0) ->
  st0 = NORECORDS \/ st0 = ENDOFPAGE ->
  BufMgr_unPinPage (filePtr (base this)) (curPageNo (base this))
    (curDirtyFlag (base this)) s0 = (OK, s1) ->
  forall st o this' s',
    scanNext_loop (S fuel) nextRid rec this s = Ret (st, o, this', s') ->
    exists rest,
      trace s'
      = trace s ++ [fetch_event this page;
                    EvUnPinPage (filePtr (base this)) (curPageNo (base this))
                      (curDirtyFlag (base this));
                    EvGetNextPage page] ++ rest.
Proof.
  intros Hcur Hfetch Hst Hunpin st o this' s' Hrun.
  simpl in Hrun. rewrite Hcur in Hrun. simpl in Hrun. rewrite Hfetch in Hrun.
  assert (Hexh : bool_decide (st0 = NORECORDS) || bool_decide (st0 = ENDOFPAGE) = true).
  { destruct Hst as [-> | ->]; reflexivity. }
  rewrite Hexh, Hunpin, status_ne_OK_false in Hrun.
  apply fetch_trace in Hfetch. apply BufMgr_unPinPage_trace in Hunpin.
  destruct (Page_getNextPage page s1) as [[st2 npn] s2] eqn:Hnext.
  apply Page_getNextPage_trace in Hnext.
  assert (Hs2 : trace s2
                = trace s ++ [fetch_event this page;
                              EvUnPinPage (filePtr (base this)) (curPageNo (base this))
                                (curDirtyFlag (base this));
                              EvGetNextPage page]).
  { rewrite Hnext, Hunpin, Hfetch, <- !app_assoc. reflexivity. }
  destruct (status_ne st2 OK).
  { inversion Hrun; subst. exists []. rewrite Hs2. reflexivity. }
  unfold need in Hrun. destruct npn as [npn |]; [| discriminate].
  destruct (npn =? -1).
  { inversion Hrun; subst. exists []. rewrite Hs2. reflexivity. }
  destruct (BufMgr_readPage _ npn s2) as [[st3 pg] s3] eqn:Hread.
  apply BufMgr_readPage_trace in Hread.
  destruct (status_ne st3 OK).
  { inversion Hrun; subst. exists [EvReadPage (filePtr (base this)) npn].
    rewrite Hread, Hs2, <- !app_assoc. reflexivity. }
  apply scanNext_loop_trace in Hrun as [rest Hrest].
  exists (EvReadPage (filePtr (base this)) npn :: rest).
  rewrite Hrest, Hread, Hs2, <- !app_assoc. reflexivity.
Qed.

(** *** deleteRecord *)

(** C10.  Whatever status [st] the page-level deleteRecord returns,
    HeapFileScan::deleteRecord returns that status, with the header's record
    count decremented (as an int) and stored in the header frame, and with
    both dirty flags set.  So when [st] is a failure, which leaves the records
    of the file as they were, a header count that was equal to the number
    [live] of live records is no longer equal to it. *)
Theorem deleteRecord_unconditional
    (this : HeapFileScan) (s s1 : Sys) (page : PagePtr) (st : Status) :
  0 < sizeof_int ->
  curPage (base this) = Some page ->
  Page_deleteRecord page (curRec (base this)) s = (st, s1) ->
  exists this' s',
    HeapFileScan_deleteRecord this s = Ret (st, this', s')
    /\ recCnt (hdr (base this')) = int_wrap (recCnt (hdr (base this)) - 1)
    /\ curDirtyFlag (base this') = true
    /\ hdrDirtyFlag (base this') = true
    /\ world s' = hdr_store (headerPage (base this)) (hdr (base this')) (world s1)
    /\ trace s' = trace s ++ [EvDeleteRecord page (curRec (base this))]
    /\ (forall live : Z,
          st <> OK -> recCnt (hdr (base this)) = live ->
          recCnt (hdr (base this')) <> live).
Proof.
  intros Hint Hcur Hdel. unfold HeapFileScan_deleteRecord.
  rewrite Hcur. simpl. rewrite Hdel. simpl.
  eexists _, _. split; [reflexivity |]. simpl.
  repeat split.
  - apply (Page_deleteRecord_trace Hdel).
  - intros live _ <-. apply int_wrap_pred_ne. exact Hint.
Qed.

(** *** insertRecord when the current page is full *)

(** C4, amended.  The record is not oversized, the current page reports
    NOSPACE, and the calls that follow succeed: allocPage, setNextPage on the
    old current page, the unpin of the old current page, and the insert on
    the new page.  Then insertRecord returns OK with the RID of that second
    insert; allocPage was called exactly once; the new page was linked after
    the old current page; the header's pageCnt is one more than before and
    its lastPage is the new page, which is now the current page. *)
Theorem insertRecord_grows_file
    (rec : Rec.t) (this : HeapFile) (s s1 s2 s3 s4 s5 : Sys) (page q : PagePtr)
    (rid0 : option RID) (n : Z) (rid : RID) :
  0 < sizeof_int ->
  INT_MIN <= pageCnt (hdr this) < INT_MAX ->
  uint_wrap (Rec.length rec) <= uint_wrap (PAGESIZE - DPFIXED) ->
  curPage this = Some page ->
  Page_insertRecord page rec s = (NOSPACE, rid0, s1) ->
  BufMgr_allocPage (filePtr this) s1 = (OK, Some n, Some q, s2) ->
  Page_setNextPage page n (Page_init q n s2) = (OK, s3) ->
  BufMgr_unPinPage (filePtr this) (curPageNo this) true s3 = (OK, s4) ->
  Page_insertRecord q rec
    (mkSys (hdr_store (headerPage this)
              (set_pageCnt (set_lastPage (hdr this) n)
                 (int_wrap (pageCnt (hdr this) + 1)))
              (hdr_store (headerPage this) (set_lastPage (hdr this) n) (world s4)))
       (trace s4))
  = (OK, Some rid, s5) ->
  exists this' s',
    InsertFileScan_insertRecord rec this s = Ret (OK, Some rid, this', s')
    /\ pageCnt (hdr this') = pageCnt (hdr this) + 1
    /\ lastPage (hdr this') = n
    /\ recCnt (hdr this') = int_wrap (recCnt (hdr this) + 1)
    /\ curPage this' = Some q
    /\ curPageNo this' = n
    /\ world s' = hdr_store (headerPage this) (hdr this') (world s5)
    /\ trace s'
       = trace s ++ [EvInsertRecord page rec;
                     EvAllocPage (filePtr this);
                     EvInit q n;
                     EvSetNextPage page n;
                     EvUnPinPage (filePtr this) (curPageNo this) true;
                     EvInsertRecord q rec].
Proof.
  intros Hint Hcnt Hsize Hcur Hfull Halloc Hlink Hunpin Hretry.
  unfold InsertFileScan_insertRecord.
  destruct (uint_wrap (Rec.length rec) >? uint_wrap (PAGESIZE - DPFIXED)) eqn:Hbig.
  { rewrite Z.gtb_ltb, Z.ltb_lt in Hbig. lia. }
  rewrite Hcur. simpl. rewrite Hfull. simpl. rewrite Halloc. simpl.
  rewrite Hlink. simpl. rewrite Hunpin. simpl.
  rewrite Hretry. simpl.
  eexists _, _. split; [reflexivity |]. simpl.
  repeat split.
  - apply int_wrap_small; [exact Hint | lia].
  - rewrite (Page_insertRecord_trace Hretry). simpl.
    rewrite (BufMgr_unPinPage_trace Hunpin), (Page_setNextPage_trace Hlink). simpl.
    rewrite (BufMgr_allocPage_trace Halloc), (Page_insertRecord_trace Hfull).
    rewrite <- !app_assoc. reflexivity.
Qed.

(** *** createHeapFile *)

(** C9, amended.  When the file can be opened, createHeapFile returns
    FILEEXISTS having made no other call.  When it cannot, and createFile,
    the second openFile, the two allocPage and the two unPinPage succeed,
    createHeapFile returns OK; the header written to the first allocated page
    has the name cut to MAXNAMESIZE - 1 characters, pageCnt 2, recCnt 0 and
    firstPage = lastPage = the number of the second allocated page, the one
    data page, which was initialised empty; both pages were unpinned dirty. *)
Theorem createHeapFile_creates
    (name : string) (s s1 : Sys) (st1 : Status) (f0 : option File) :
  DB_openFile name s = (st1, f0, s1) ->
  (st1 = OK ->
   createHeapFile name s = Ret (FILEEXISTS, s1)
   /\ trace s1 = trace s ++ [EvOpenFile name])
  /\ (forall (s2 s3 s4 s5 s6 s7 : Sys) (f1 : option File) (f : File)
        (hdrPageNo n : Z) (hdrPage q : PagePtr) (q' : option PagePtr),
        st1 <> OK ->
        DB_createFile name s1 = (OK, s2) ->
        DB_openFile name s2 = (OK, f1, s3) ->
        stored f1 f0 = Some f ->
        BufMgr_allocPage f s3 = (OK, Some hdrPageNo, Some hdrPage, s4) ->
        let name' := String.substring 0 (MAXNAMESIZE - 1) name in
        let h0 := hdr_load hdrPage (world s4) in
        BufMgr_allocPage f
          (mkSys (hdr_store hdrPage (mkHdr name' (firstPage h0) (lastPage h0) 2 0)
                    (world s4)) (trace s4))
        = (OK, Some n, q', s5) ->
        stored q' (Some hdrPage) = Some q ->
        BufMgr_unPinPage f hdrPageNo true
          (mkSys (hdr_store hdrPage (mkHdr name' n n 2 0)
                    (world (Page_init q n s5))) (trace (Page_init q n s5)))
        = (OK, s6) ->
        BufMgr_unPinPage f n true s6 = (OK, s7) ->
        createHeapFile name s = Ret (OK, s7)
        /\ trace s7
           = trace s ++ [EvOpenFile name; EvCreateFile name; EvOpenFile name;
                         EvAllocPage f; EvAllocPage f; EvInit q n;
                         EvUnPinPage f hdrPageNo true; EvUnPinPage f n true]).
Proof.
  intros Hopen. split.
  - intros ->. unfold createHeapFile. rewrite Hopen. simpl.
    split; [reflexivity | apply (DB_openFile_trace Hopen)].
  - intros s2 s3 s4 s5 s6 s7 f1 f hdrPageNo n hdrPage q q' Hst Hcreate Hopen2 Hf
      Halloc1 name' h0 Halloc2 Hq Hunpin1 Hunpin2.
    unfold createHeapFile. rewrite Hopen, (status_ne_OK_true Hst), Hcreate.
    rewrite status_ne_OK_false, Hopen2, Hf. simpl.
    rewrite Halloc1. simpl. fold name' h0.
    unfold set_recCnt, set_pageCnt, set_fileName. simpl.
    rewrite Halloc2, Hq. simpl.
    unfold set_lastPage, set_firstPage. simpl. simpl in Hunpin1.
    rewrite Hunpin1. simpl. rewrite Hunpin2. simpl.
    split; [reflexivity |].
    rewrite (BufMgr_unPinPage_trace Hunpin2), (BufMgr_unPinPage_trace Hunpin1). simpl.
    rewrite (BufMgr_allocPage_trace Halloc2). simpl.
    rewrite (BufMgr_allocPage_trace Halloc1), (DB_openFile_trace Hopen2),
      (DB_createFile_trace Hcreate), (DB_openFile_trace Hopen).
    rewrite <- !app_assoc. reflexivity.
Qed.

(** *** What scanNext depends on *)

Lemma scan_sim_refl x : scan_sim x x.
Proof. unfold scan_sim. repeat split. Qed.

Lemma same_next_refl x : same_next x x.
Proof.
  destruct x as [[[[st o] t] s] | |]; simpl; auto using scan_sim_refl.
Qed.

Ltac raw_call Hdirty :=
  match goal with
  | |- context [page_firstRecord ?p ?w] => destruct (page_firstRecord p w) as [[? ?] ?]
  | |- context [page_nextRecord ?p ?r ?w] => destruct (page_nextRecord p r w) as [[? ?] ?]
  | |- context [page_getNextPage ?p ?w] => destruct (page_getNextPage p w) as [[? ?] ?]
  | |- context [page_getRecord ?p ?r ?w] => destruct (page_getRecord p r w) as [[? ?] ?]
  | |- context [buf_readPage ?f ?n ?w] => destruct (buf_readPage f n w) as [[? ?] ?]
  | |- context [buf_unPinPage ?f ?n true ?w] => rewrite (Hdirty f n true false w)
  | |- context [buf_unPinPage ?f ?n false ?w] => destruct (buf_unPinPage f n false w) as [? ?]
  end.

Ltac branch :=
  match goal with
  | |- same_next (if ?c then _ else _) _ => destruct c
  | |- same_next (need ?o _) _ => destruct o as [? |]
  | |- same_next (match ?o with Some _ => _ | None => _ end) _ => destruct o as [? |]
  end.

Lemma scanNext_loop_sim
    (Hdirty : forall f n d d' w, buf_unPinPage f n d w = buf_unPinPage f n d' w)
    fuel :
  forall nextRid rec t1 s1 t2 s2,
    scan_sim (t1, s1) (t2, s2) ->
    same_next (scanNext_loop fuel nextRid rec t1 s1)
      (scanNext_loop fuel nextRid rec t2 s2).
Proof.
  induction fuel as [| fuel IH]; intros nextRid rec t1 s1 t2 s2 Hsim; [exact I |].
  destruct t1 as [[f1 hp1 h1 hn1 hd1 cp1 cn1 cd1 cr1] [o1 l1 ty1 fl1 op1 mp1 mr1]].
  destruct t2 as [[f2 hp2 h2 hn2 hd2 cp2 cn2 cd2 cr2] [o2 l2 ty2 fl2 op2 mp2 mr2]].
  destruct s1 as [w1 tr1], s2 as [w2 tr2].
  unfold scan_sim in Hsim; simpl in Hsim.
  destruct Hsim as (-> & -> & -> & -> & -> & -> & -> & -> & -> & ->).
  destruct cd1, cd2.
  all: cbn [scanNext_loop]; simpl base; simpl scan;
    cbn [curPage curPageNo curRec filePtr curDirtyFlag];
    (destruct cp2 as [page |]; [| exact I]); cbn [need];
    unfold Page_firstRecord, Page_nextRecord, BufMgr_unPinPage, Page_getNextPage,
      BufMgr_readPage, Page_getRecord, HeapFileScan_matchRec; cbn [world trace];
    destruct ((pageNo cr2 =? -1) && (slotNo cr2 =? -1)).
  all: repeat (first [ raw_call Hdirty | branch ];
               cbn [world trace log need stored set_base set_curPage set_curPageNo
                      set_curRec set_curDirtyFlag base scan filePtr curPage curPageNo
                      curRec curDirtyFlag fmap option_fmap option_map
                      Scan.filter Scan.offset Scan.length Scan.type Scan.op]).
  all: try exact I.
  all: try (cbn [same_next]; unfold scan_sim; simpl; repeat split; fail).
  all: try (apply IH; unfold scan_sim; simpl; repeat split; fail).
Qed.
End Generic.

(** ** Properties on the reference collaborators *)

Section RefFacts.
Context `{PF : Platform}.
#[local] Existing Instance Ref.collab.

Lemma pin_is_Some (k : string * Z) (P : gmap (string * Z) positive) : is_Some (Ref.pin k P !! k).
Proof.
  unfold Ref.pin. destruct (P !! k); rewrite lookup_insert_eq; eauto.
Qed.

Lemma unpin_pin (k : string * Z) (P : gmap (string * Z) positive) : Ref.unpin k (Ref.pin k P) = P.
Proof.
  unfold Ref.unpin, Ref.pin. destruct (P !! k) as [c |] eqn:Hk.
  - rewrite lookup_insert_eq.
    destruct (Pos.eqb_spec (Pos.succ c) 1) as [H1 | H1]; [lia |].
    rewrite insert_insert_eq, Pos.pred_succ. apply insert_id. exact Hk.
  - rewrite lookup_insert_eq. simpl. rewrite delete_insert_eq.
    apply delete_id. exact Hk.
Qed.

Lemma pin_unpin (k : string * Z) (P : gmap (string * Z) positive) :
  is_Some (P !! k) -> Ref.pin k (Ref.unpin k P) = P.
Proof.
  intros [c Hk]. unfold Ref.unpin, Ref.pin. rewrite Hk.
  destruct (Pos.eqb_spec c 1) as [-> | Hc].
  - rewrite lookup_delete_eq, insert_delete_eq. apply insert_id. exact Hk.
  - rewrite lookup_insert_eq, insert_insert_eq, Pos.succ_pred by exact Hc.
    apply insert_id. exact Hk.
Qed.

Lemma size_pin_fresh (k : string * Z) (P : gmap (string * Z) positive) :
  P !! k = None -> size (Ref.pin k P) = S (size P).
Proof.
  intros Hk. unfold Ref.pin. rewrite Hk. apply map_size_insert_None. exact Hk.
Qed.

Lemma ref_unPinPage_run (f : string) n d (s : Sys) st s' :
  BufMgr_unPinPage f n d s = (st, s') ->
  (st = OK /\ is_Some (Ref.pins (world s) !! (f, n))
   /\ world s' = Ref.set_pins (world s) (Ref.unpin (f, n) (Ref.pins (world s))))
  \/ (st <> OK /\ Ref.pins (world s) !! (f, n) = None /\ world s' = world s).
Proof.
  unfold BufMgr_unPinPage. simpl. unfold Ref.unPinPage.
  destruct (Ref.pins (world s) !! (f, n)) eqn:Hk; simpl; intros [= <- <-]; simpl.
  - left. split; [reflexivity | split; [eexists; reflexivity | reflexivity]].
  - right. repeat split. discriminate.
Qed.

Lemma ref_readPage_run (f : string) n (s : Sys) st p s' :
  BufMgr_readPage f n s = (st, p, s') ->
  (st = OK /\ p = Some (f, n)
   /\ (is_Some (Ref.pins (world s) !! (f, n))
       \/ (size (Ref.pins (world s)) < Ref.numBufs (world s))%nat)
   /\ world s' = Ref.set_pins (world s) (Ref.pin (f, n) (Ref.pins (world s))))
  \/ (st <> OK /\ p = None /\ world s' = world s).
Proof.
  unfold BufMgr_readPage. simpl. unfold Ref.readPage, Ref.has_free_frame.
  destruct (Ref.pins (world s) !! (f, n)) eqn:Hk.
  - simpl. intros [= <- <- <-]. left. simpl.
    split; [reflexivity | split; [reflexivity | split; [| reflexivity]]].
    left. eexists; reflexivity.
  - case_bool_decide.
    + destruct (Ref.frame_at (world s) (f, n)); simpl; intros [= <- <- <-]; simpl.
      * left. split; [reflexivity | split; [reflexivity | split; [| reflexivity]]].
        right. assumption.
      * right. repeat split. discriminate.
    + simpl. intros [= <- <- <-]. right. repeat split. discriminate.
Qed.

Lemma ref_firstRecord_run (p : string * Z) (s : Sys) st r s' :
  Page_firstRecord p s = (st, r, s') -> world s' = world s.
Proof.
  unfold Page_firstRecord. simpl. unfold Ref.firstRecord.
  destruct (Ref.frame_at (world s) p); [destruct (Ref.find_live _ _ _) |]; simpl;
    intros H; inversion H; subst; reflexivity.
Qed.

Lemma ref_nextRecord_run (p : string * Z) rid (s : Sys) st r s' :
  Page_nextRecord p rid s = (st, r, s') -> world s' = world s.
Proof.
  unfold Page_nextRecord. simpl. unfold Ref.nextRecord.
  destruct (Ref.frame_at (world s) p); [destruct (Ref.find_live _ _ _) |]; simpl;
    intros H; inversion H; subst; reflexivity.
Qed.

Lemma ref_getRecord_run (p : string * Z) rid (s : Sys) st r s' :
  Page_getRecord p rid s = (st, r, s') -> world s' = world s.
Proof.
  unfold Page_getRecord. simpl. unfold Ref.getRecord.
  destruct (Ref.frame_at (world s) p); [destruct (Ref.live_slot _ _) |]; simpl;
    intros H; inversion H; subst; reflexivity.
Qed.

Lemma ref_getNextPage_run (p : string * Z) (s : Sys) st r s' :
  Page_getNextPage p s = (st, r, s') -> world s' = world s.
Proof.
  unfold Page_getNextPage. simpl. unfold Ref.getNextPage.
  destruct (Ref.frame_at (world s) p); simpl;
    intros H; inversion H; subst; reflexivity.
Qed.

Lemma scanNext_loop_scanning f fr nb B fuel :
  forall nextRid rec t s rid t' s',
    scanning f fr nb B t s ->
    scanNext_loop fuel nextRid rec t s = Ret (OK, rid, t', s') ->
    scanning f fr nb B t' s' /\ scan t' = scan t.
Proof.
  induction fuel as [| fuel IH]; intros nextRid rec t s rid t' s' Hinv Hrun;
    [discriminate |].
  destruct Hinv as (Hf & Hcur & Hfr & Hnb & Hpins). subst f.
  simpl in Hrun. rewrite Hcur in Hrun. simpl in Hrun.
  match type of Hrun with
  | context [let '(_, _) := ?c in _] => destruct c as [[st0 rid0] s0] eqn:Hfetch
  end.
  assert (Hw0 : world s0 = world s).
  { destruct ((pageNo (curRec (base t)) =? -1) && (slotNo (curRec (base t)) =? -1)).
    - apply (ref_firstRecord_run _ _ _ _ _ Hfetch).
    - apply (ref_nextRecord_run _ _ _ _ _ _ Hfetch). }
  clear Hfetch.
  destruct (bool_decide (st0 = NORECORDS) || bool_decide (st0 = ENDOFPAGE)).
  - destruct (BufMgr_unPinPage _ _ _ s0) as [st1 s1] eqn:Hunpin.
    apply ref_unPinPage_run in Hunpin as [(-> & _ & Hw1) | (Hne & _ & _)].
    2:{ rewrite (status_ne_OK_true Hne) in Hrun. inversion Hrun; subst. congruence. }
    rewrite status_ne_OK_false in Hrun.
    destruct (Page_getNextPage _ s1) as [[st2 npn] s2] eqn:Hnext.
    apply ref_getNextPage_run in Hnext.
    destruct (status_ne st2 OK) eqn:Hst2.
    { inversion Hrun; subst. discriminate. }
    destruct npn as [npn |]; [| discriminate]. simpl in Hrun.
    destruct (npn =? -1). { discriminate. }
    destruct (BufMgr_readPage _ npn s2) as [[st3 pg] s3] eqn:Hread.
    apply ref_readPage_run in Hread as [(-> & -> & _ & Hw3) | (Hne & _ & _)].
    2:{ rewrite (status_ne_OK_true Hne) in Hrun. inversion Hrun; subst. congruence. }
    rewrite status_ne_OK_false in Hrun.
    apply IH in Hrun.
    + destruct Hrun as [Hinv' Hscan]. split; [exact Hinv' | exact Hscan].
    + unfold scanning. simpl. rewrite Hw3, Hnext, Hw1, Hw0. simpl.
      rewrite Hpins, unpin_pin. repeat split; assumption.
  - destruct (status_ne st0 OK) eqn:Hst0. { inversion Hrun; subst. discriminate. }
    destruct (stored rid0 nextRid) as [rid1 |]; [| discriminate]. simpl in Hrun.
    destruct (Page_getRecord _ rid1 s0) as [[st1 rec1] s1] eqn:Hget.
    apply ref_getRecord_run in Hget.
    destruct (status_ne st1 OK) eqn:Hst1. { inversion Hrun; subst. discriminate. }
    unfold need in Hrun.
    match type of Hrun with
    | context [match ?c with Some _ => _ | None => Undef end] => destruct c as [[|] |]
    end; [| | discriminate]; simpl in Hrun.
    + inversion Hrun; subst. split; [| reflexivity].
      unfold scanning. simpl. rewrite Hget, Hw0. repeat split; assumption.
    + apply IH in Hrun.
      * destruct Hrun as [Hinv' Hscan]. split; [exact Hinv' | exact Hscan].
      * unfold scanning. simpl. rewrite Hget, Hw0. repeat split; assumption.
Qed.

Lemma ref_unPinPage_ok (f : string) n d (s : Sys) :
  is_Some (Ref.pins (world s) !! (f, n)) ->
  BufMgr_unPinPage f n d s
  = (OK, mkSys (Ref.set_pins (world s) (Ref.unpin (f, n) (Ref.pins (world s))))
           (trace s ++ [EvUnPinPage f n d])).
Proof.
  intros [c Hk]. unfold BufMgr_unPinPage. simpl. unfold Ref.unPinPage.
  rewrite Hk. reflexivity.
Qed.

Lemma ref_readPage_ok (f : string) n (s : Sys) :
  is_Some (Ref.pins (world s) !! (f, n))
  \/ ((size (Ref.pins (world s)) < Ref.numBufs (world s))%nat
      /\ is_Some (Ref.frame_at (world s) (f, n))) ->
  BufMgr_readPage f n s
  = (OK, Some (f, n),
     mkSys (Ref.set_pins (world s) (Ref.pin (f, n) (Ref.pins (world s))))
       (trace s ++ [EvReadPage f n])).
Proof.
  intros Hok. unfold BufMgr_readPage. simpl. unfold Ref.readPage, Ref.has_free_frame.
  destruct (Ref.pins (world s) !! (f, n)) as [c |] eqn:Hk; [reflexivity |].
  destruct Hok as [[c Hc] | [Hfree [fr Hfr]]]; [discriminate |].
  rewrite bool_decide_eq_true_2 by exact Hfree. rewrite Hfr. reflexivity.
Qed.

Lemma nexts_scanning f fr nb B (t s t2 s2 : _) :
  scanning f fr nb B t s -> nexts t s t2 s2 ->
  scanning f fr nb B t2 s2 /\ scan t2 = scan t.
Proof.
  intros Hinv Hn. induction Hn as [t s | t s fuel rid t1 s1 t2 s2 Hrun Hn IH].
  - split; [exact Hinv | reflexivity].
  - apply (scanNext_loop_scanning f fr nb B fuel None None t s rid t1 s1 Hinv) in Hrun.
    destruct Hrun as [Hinv1 Hscan1]. destruct (IH Hinv1) as [Hinv2 Hscan2].
    split; [exact Hinv2 | congruence].
Qed.

Lemma ref_world_eq (w1 w2 : Ref.World) :
  Ref.files w1 = Ref.files w2 -> Ref.pins w1 = Ref.pins w2 ->
  Ref.numBufs w1 = Ref.numBufs w2 -> w1 = w2.
Proof. destruct w1, w2. simpl. intros -> -> ->. reflexivity. Qed.

Lemma ref_unPinPage_dirty f n d d' w :
  buf_unPinPage f n d w = buf_unPinPage f n d' w.
Proof. reflexivity. Qed.

(** C8.  A scan is in progress: it holds the handle of its current page,
    that page is pinned and is a page of the file, and the pool holds no more
    pins than it has frames.  After markScan and any number of calls of
    scanNext that return OK, resetScan returns OK, and the next scanNext
    comes to the same as a scanNext made right after the mark: same status
    and same RID (whatever the number of loop iterations allowed).  When the
    marked page is the current page, resetScan only restores curRec: the
    object is otherwise unchanged, its dirty flag included, and no
    collaborator is called. *)
Theorem mark_reset_round_trip (this t2 : HeapFileScan) (s s2 : Sys) :
  curPage (base this) = Some (filePtr (base this), curPageNo (base this)) ->
  is_Some (Ref.pins (world s) !! (filePtr (base this), curPageNo (base this))) ->
  is_Some (Ref.frame_at (world s) (filePtr (base this), curPageNo (base this))) ->
  (size (Ref.pins (world s)) <= Ref.numBufs (world s))%nat ->
  nexts (HeapFileScan_markScan this).2 s t2 s2 ->
  exists t3 s3,
    HeapFileScan_resetScan t2 s2 = (OK, t3, s3)
    /\ (forall fuel,
          same_next (HeapFileScan_scanNext fuel t3 s3)
            (HeapFileScan_scanNext fuel (HeapFileScan_markScan this).2 s))
    /\ (Scan.markedPageNo (scan t2) = curPageNo (base t2) ->
        t3 = set_base t2 (set_curRec (base t2) (curRec (base this))) /\ s3 = s2).
Proof.
  destruct this as [[f hp h hn hd cp p0 cd r0] m]. simpl.
  intros Hcur Hpinned Hframe Hroom Hn. subst cp.
  set (B := Ref.unpin (f, p0) (Ref.pins (world s))).
  set (marked := Scan.mk (Scan.offset m) (Scan.length m) (Scan.type m) (Scan.filter m)
                   (Scan.op m) p0 r0) in *.
  set (b := mkHeapFile f hp h hn hd (Some (f, p0)) p0 cd r0) in *.
  assert (Hinv : scanning f (Ref.files (world s)) (Ref.numBufs (world s)) B
                   (mkScan b marked) s).
  { unfold scanning. simpl. repeat split.
    unfold B. symmetry. apply pin_unpin. exact Hpinned. }
  destruct (nexts_scanning _ _ _ _ _ _ _ _ Hinv Hn)
    as [(Hf2 & Hcur2 & Hfr2 & Hnb2 & Hpins2) Hscan2].
  simpl in Hscan2.
  assert (Hsim : forall t3 s3,
             filePtr (base t3) = f -> curPage (base t3) = Some (f, p0) ->
             curPageNo (base t3) = p0 -> curRec (base t3) = r0 ->
             scan t3 = marked -> world s3 = world s ->
             forall fuel,
               same_next (HeapFileScan_scanNext fuel t3 s3)
                 (HeapFileScan_scanNext fuel (mkScan b marked) s)).
  { intros t3 s3 H1 H2 H3 H4 H5 H6 fuel. unfold HeapFileScan_scanNext.
    apply scanNext_loop_sim; [exact ref_unPinPage_dirty |].
    unfold scan_sim. simpl. rewrite H1, H2, H3, H4, H5, H6. simpl.
    repeat split. }
  unfold HeapFileScan_resetScan. rewrite Hscan2. simpl.
  destruct (Z.eqb_spec p0 (curPageNo (base t2))) as [Heq | Hne]; simpl.
  - eexists _, _. split; [reflexivity |]. split.
    + apply Hsim; simpl; try assumption; try reflexivity.
      * rewrite Hcur2, Heq. reflexivity.
      * symmetry. exact Heq.
      * apply ref_world_eq; [assumption | | assumption].
        rewrite Hpins2, <- Heq. unfold B. apply pin_unpin. exact Hpinned.
    + intros _. split; reflexivity.
  - rewrite Hcur2, Hf2.
    rewrite ref_unPinPage_ok by (rewrite Hpins2; apply pin_is_Some).
    rewrite status_ne_OK_false. simpl. rewrite Hpins2, unpin_pin.
    rewrite ref_readPage_ok.
    2:{ simpl. destruct (B !! (f, p0)) as [c |] eqn:HB; [left; eauto |].
        right. split.
        - pose proof (size_pin_fresh _ _ HB) as Hsz.
          unfold B in Hsz at 1. rewrite pin_unpin in Hsz by exact Hpinned.
          rewrite Hnb2. lia.
        - unfold Ref.frame_at in *. simpl. rewrite Hfr2. exact Hframe. }
    rewrite status_ne_OK_false. simpl.
    eexists _, _. split; [reflexivity |]. split.
    + apply Hsim; simpl; try reflexivity; try assumption.
      apply ref_world_eq; simpl; [assumption | | assumption].
      unfold B. apply pin_unpin. exact Hpinned.
    + intros Hmk. contradiction.
Qed.
End RefFacts.

(** ** The page chain and the life of a file *)

Section ChainFacts.

Lemma chain_head (fr : gmap Z Ref.Frame) n l : Ref.chain fr n l -> exists l', l = n :: l'.
Proof. intros Hc. destruct Hc; eauto. Qed.

Lemma chain_data (fr : gmap Z Ref.Frame) n l k :
  Ref.chain fr n l -> k ∈ l -> exists d, fr !! k = Some (Ref.DataFrame d).
Proof.
  intros Hc. induction Hc as [n d Hn Hd | n d l Hn Hd Hnl Hc IH]; intros Hk.
  - apply list_elem_of_singleton in Hk as ->. eauto.
  - apply elem_of_cons in Hk as [-> | Hk]; eauto.
Qed.

Lemma chain_update_other (fr : gmap Z Ref.Frame) n l k x :
  Ref.chain fr n l -> k ∉ l -> Ref.chain (<[k := x]> fr) n l.
Proof.
  intros Hc. induction Hc as [n d Hn Hd | n d l Hn Hd Hnl Hc IH]; intros Hk.
  - apply Ref.chain_last with d; [| exact Hd].
    rewrite lookup_insert_ne; [exact Hn |]. intros ->. apply Hk. constructor.
  - apply not_elem_of_cons in Hk as [Hkn Hkl].
    apply Ref.chain_next with d; auto.
    rewrite lookup_insert_ne; [exact Hn | congruence].
Qed.

Lemma chain_update_data (fr : gmap Z Ref.Frame) n l k d d' :
  Ref.chain fr n l -> fr !! k = Some (Ref.DataFrame d) ->
  Ref.nextPage d' = Ref.nextPage d ->
  Ref.chain (<[k := Ref.DataFrame d']> fr) n l.
Proof.
  intros Hc Hk Hnext.
  induction Hc as [n d0 Hn Hd | n d0 l Hn Hd Hnl Hc IH].
  - destruct (decide (k = n)) as [-> | Hne].
    + apply Ref.chain_last with d'; [apply lookup_insert_eq |]. congruence.
    + apply Ref.chain_last with d0; [| exact Hd]. rewrite lookup_insert_ne; auto.
  - destruct (decide (k = n)) as [-> | Hne].
    + apply Ref.chain_next with d'; [apply lookup_insert_eq | congruence | exact Hnl |].
      replace (Ref.nextPage d') with (Ref.nextPage d0) by congruence. exact IH.
    + apply Ref.chain_next with d0; auto. rewrite lookup_insert_ne; auto.
Qed.

(** Linking a fresh end page after the last page of the chain. *)
Lemma chain_snoc (fr : gmap Z Ref.Frame) n l c dc m dm :
  Ref.chain fr n l -> last l = Some c ->
  fr !! c = Some (Ref.DataFrame dc) ->
  fr !! m = Some (Ref.DataFrame dm) -> Ref.nextPage dm = -1 ->
  m ∉ l -> m <> -1 ->
  Ref.chain (<[c := Ref.DataFrame (Ref.mkPage m (Ref.curPage dc) (Ref.slots dc))]> fr)
    n (l ++ [m]).
Proof.
  intros Hc. induction Hc as [n d Hn Hd | n d l Hn Hd Hnl Hc IH];
    intros Hlast Hcf Hm Hdm Hml Hm1.
  - simpl in Hlast. injection Hlast as <-.
    assert (Hnm : n <> m) by (intros ->; apply Hml; constructor).
    simpl. eapply Ref.chain_next;
      [apply lookup_insert_eq | exact Hm1
      | intros Hin; apply list_elem_of_singleton in Hin; contradiction |].
    simpl. apply Ref.chain_last with dm; [| exact Hdm].
    rewrite lookup_insert_ne; [exact Hm |]. intros ->. apply Hml. constructor.
  - apply not_elem_of_cons in Hml as [Hmn Hml].
    assert (Hlast' : last l = Some c).
    { destruct (chain_head _ _ _ Hc) as [l' ->]. exact Hlast. }
    assert (Hcl : c ∈ l).
    { apply list_elem_of_lookup. rewrite last_lookup in Hlast'. eauto. }
    assert (Hcn : c <> n) by (intros ->; contradiction).
    rewrite <- app_comm_cons. apply Ref.chain_next with d.
    + rewrite lookup_insert_ne; [exact Hn | exact Hcn].
    + exact Hd.
    + intros Hin. apply elem_of_app in Hin as [Hin | Hin]; [contradiction |].
      apply list_elem_of_singleton in Hin. congruence.
    + apply IH; auto.
Qed.

Lemma chain_from_complete (fr : gmap Z Ref.Frame) n l :
  Ref.chain fr n l -> Ref.chain_from (List.length l) fr n = Some l.
Proof.
  intros Hc. induction Hc as [n d Hn Hd | n d l Hn Hd Hnl Hc IH]; simpl.
  - rewrite Hn. apply Z.eqb_eq in Hd. rewrite Hd. reflexivity.
  - rewrite Hn. apply Z.eqb_neq in Hd. rewrite Hd, IH. reflexivity.
Qed.

Lemma chain_unique (fr : gmap Z Ref.Frame) n l l' :
  Ref.chain fr n l -> Ref.chain fr n l' -> l = l'.
Proof.
  intros Hc. revert l'.
  induction Hc as [n d Hn Hd | n d l Hn Hd Hnl Hc IH]; intros l' Hc';
    destruct Hc' as [n d' Hn' Hd' | n d' l' Hn' Hd' Hnl' Hc']; try congruence.
  f_equal. apply IH. congruence.
Qed.

End ChainFacts.

Section LifecycleFacts.
Context `{PF : Platform}.
#[local] Existing Instance Ref.collab.
Implicit Types name : string.

Lemma set_frame_hit (w : Ref.World) (f : string) (k : Z) d fr :
  Ref.files w !! f = Some d -> is_Some (Ref.frames d !! k) ->
  Ref.set_frame w (f, k) fr
  = Ref.mkWorld
      (<[f := Ref.mkFile (Ref.firstPageNo d) (Ref.numPages d) (<[k := fr]> (Ref.frames d))]>
         (Ref.files w))
      (Ref.pins w) (Ref.numBufs w).
Proof.
  intros Hf [x Hk]. unfold Ref.set_frame. simpl. rewrite Hf, Hk. reflexivity.
Qed.

Lemma frame_at_hit (w : Ref.World) (f : string) (k : Z) d :
  Ref.files w !! f = Some d -> Ref.frame_at w (f, k) = Ref.frames d !! k.
Proof. intros Hf. unfold Ref.frame_at. simpl. rewrite Hf. reflexivity. Qed.

Lemma frame_at_Some (w : Ref.World) (p : string * Z) fr :
  Ref.frame_at w p = Some fr ->
  exists d, Ref.files w !! p.1 = Some d /\ Ref.frames d !! p.2 = Some fr.
Proof.
  unfold Ref.frame_at. destruct (Ref.files w !! p.1) as [d |]; simpl; [eauto | discriminate].
Qed.

Lemma live_slot_zero n : Ref.live_slot Ref.zero_page n = None.
Proof. unfold Ref.live_slot. destruct (n <? 0); reflexivity. Qed.

Lemma ref_deleteRecord_kept (p : string * Z) rid (s : Sys) st s' :
  Page_deleteRecord p rid s = (st, s') -> page_kept (world s) (world s').
Proof.
  unfold Page_deleteRecord. simpl. unfold Ref.deleteRecord.
  destruct (Ref.frame_at (world s) p) as [fr |] eqn:Hfr; simpl.
  2:{ intros H; inversion H; subst. left. reflexivity. }
  destruct (Ref.live_slot (Ref.as_page fr) (slotNo rid)) as [r |] eqn:Hlive; simpl;
    intros H; inversion H; subst; simpl; [| left; reflexivity].
  destruct fr as [h | dk]; [simpl in Hlive; rewrite live_slot_zero in Hlive; discriminate |].
  apply frame_at_Some in Hfr as (d & Hf & Hk). destruct p as [f k]. simpl in *.
  right. exists f, k, d, dk. eexists. split; [exact Hf |]. split; [exact Hk |].
  split; [| apply set_frame_hit; eauto]. reflexivity.
Qed.

Lemma ref_insertRecord_data (f : string) (k : Z) rec (s : Sys) st rid s' d dk :
  Ref.files (world s) !! f = Some d ->
  Ref.frames d !! k = Some (Ref.DataFrame dk) ->
  Page_insertRecord (f, k) rec s = (st, rid, s') ->
  (st <> OK /\ world s' = world s)
  \/ (st = OK
      /\ exists dk',
          Ref.nextPage dk' = Ref.nextPage dk
          /\ world s'
             = Ref.mkWorld
                 (<[f := Ref.mkFile (Ref.firstPageNo d) (Ref.numPages d)
                           (<[k := Ref.DataFrame dk']> (Ref.frames d))]>
                    (Ref.files (world s)))
                 (Ref.pins (world s)) (Ref.numBufs (world s))).
Proof.
  intros Hf Hk. unfold Page_insertRecord. simpl. unfold Ref.insertRecord.
  rewrite (frame_at_hit _ _ _ _ Hf), Hk. simpl.
  destruct (Rec.length rec + Ref.slot_bytes >? Ref.free_space dk); simpl.
  { intros H; inversion H; subst. left. split; [discriminate | reflexivity]. }
  destruct (Ref.find_unused (Ref.slots dk) 0); simpl; intros H; inversion H; subst;
    right; (split; [reflexivity |]); eexists; (split; [| apply set_frame_hit; eauto]);
    reflexivity.
Qed.

Lemma ref_allocPage_run (f : string) (s : Sys) st n p s' :
  BufMgr_allocPage f s = (st, n, p, s') ->
  (st <> OK /\ world s' = world s)
  \/ (st = OK
      /\ exists d,
          Ref.files (world s) !! f = Some d
          /\ n = Some (Ref.numPages d) /\ p = Some (f, Ref.numPages d)
          /\ world s'
             = Ref.mkWorld
                 (<[f := Ref.mkFile
                           (if Ref.firstPageNo d =? -1 then Ref.numPages d
                            else Ref.firstPageNo d)
                           (Ref.numPages d + 1)
                           (<[Ref.numPages d := Ref.HdrFrame Ref.zero_hdr]> (Ref.frames d))]>
                    (Ref.files (world s)))
                 (Ref.pin (f, Ref.numPages d) (Ref.pins (world s)))
                 (Ref.numBufs (world s))).
Proof.
  unfold BufMgr_allocPage. simpl. unfold Ref.allocPage.
  destruct (Ref.files (world s) !! f) as [d |] eqn:Hf; simpl.
  2:{ intros H; inversion H; subst. left. split; [discriminate | reflexivity]. }
  destruct (Ref.has_free_frame (world s)); simpl; intros H; inversion H; subst.
  - right. split; [reflexivity |]. exists d. repeat split.
  - left. split; [discriminate | reflexivity].
Qed.

Lemma ref_setNextPage_data (f : string) (k : Z) n (s : Sys) d dk :
  Ref.files (world s) !! f = Some d ->
  Ref.frames d !! k = Some (Ref.DataFrame dk) ->
  Page_setNextPage (f, k) n s
  = (OK, mkSys (Ref.mkWorld
                  (<[f := Ref.mkFile (Ref.firstPageNo d) (Ref.numPages d)
                            (<[k := Ref.DataFrame (Ref.mkPage n (Ref.curPage dk) (Ref.slots dk))]>
                               (Ref.frames d))]> (Ref.files (world s)))
                  (Ref.pins (world s)) (Ref.numBufs (world s)))
           (trace s ++ [EvSetNextPage (f, k) n])).
Proof.
  intros Hf Hk. unfold Page_setNextPage. simpl. unfold Ref.setNextPage.
  rewrite (frame_at_hit _ _ _ _ Hf), Hk. simpl.
  rewrite (set_frame_hit _ _ _ _ _ Hf) by eauto. reflexivity.
Qed.

Lemma scanNext_loop_frame fuel :
  forall nextRid rec (t : HeapFileScan) (s : Sys) st rid t' s',
    scanNext_loop fuel nextRid rec t s = Ret (st, rid, t', s') ->
    Ref.files (world s') = Ref.files (world s)
    /\ filePtr (base t') = filePtr (base t)
    /\ headerPage (base t') = headerPage (base t)
    /\ hdr (base t') = hdr (base t).
Proof.
  induction fuel as [| fuel IH]; intros nextRid rec t s st rid t' s' Hrun;
    [discriminate |].
  simpl in Hrun. unfold need in Hrun.
  destruct (curPage (base t)) as [page |]; [| discriminate].
  match type of Hrun with
  | context [let '(_, _) := ?c in _] => destruct c as [[st0 rid0] s0] eqn:Hfetch
  end.
  assert (Hw0 : world s0 = world s).
  { destruct ((pageNo (curRec (base t)) =? -1) && (slotNo (curRec (base t)) =? -1)).
    - apply (ref_firstRecord_run _ _ _ _ _ Hfetch).
    - apply (ref_nextRecord_run _ _ _ _ _ _ Hfetch). }
  clear Hfetch.
  destruct (bool_decide (st0 = NORECORDS) || bool_decide (st0 = ENDOFPAGE)).
  - destruct (BufMgr_unPinPage _ _ _ s0) as [st1 s1] eqn:Hunpin.
    assert (Hw1 : Ref.files (world s1) = Ref.files (world s)).
    { apply ref_unPinPage_run in Hunpin as [(_ & _ & ->) | (_ & _ & ->)];
        rewrite ?Hw0; reflexivity. }
    clear Hunpin.
    destruct (status_ne st1 OK). { inversion Hrun; subst. auto. }
    destruct (Page_getNextPage _ s1) as [[st2 npn] s2] eqn:Hnext.
    apply ref_getNextPage_run in Hnext. rewrite <- Hnext in Hw1. clear Hnext.
    destruct (status_ne st2 OK). { inversion Hrun; subst. auto. }
    destruct npn as [npn |]; [| discriminate].
    destruct (npn =? -1). { inversion Hrun; subst. auto. }
    destruct (BufMgr_readPage _ npn s2) as [[st3 pg] s3] eqn:Hread.
    assert (Hw3 : Ref.files (world s3) = Ref.files (world s)).
    { apply ref_readPage_run in Hread as [(_ & _ & _ & ->) | (_ & _ & ->)];
        rewrite <- Hw1; reflexivity. }
    clear Hread.
    destruct (status_ne st3 OK). { inversion Hrun; subst. auto. }
    apply IH in Hrun. simpl in Hrun. destruct Hrun as (-> & -> & -> & ->). auto.
  - destruct (status_ne st0 OK). { inversion Hrun; subst. rewrite Hw0. auto. }
    destruct (stored rid0 nextRid) as [rid1 |]; [| discriminate].
    destruct (Page_getRecord _ rid1 s0) as [[st1 rec1] s1] eqn:Hget.
    apply ref_getRecord_run in Hget. rewrite <- Hw0, <- Hget.
    destruct (status_ne st1 OK). { inversion Hrun; subst. auto. }
    match type of Hrun with
    | context [match ?c with Some _ => _ | None => Undef end] => destruct c as [[|] |]
    end; [| | discriminate].
    + inversion Hrun; subst. auto.
    + apply IH in Hrun. simpl in Hrun. destruct Hrun as (-> & -> & -> & ->). auto.
Qed.

Lemma resetScan_frame (t : HeapFileScan) (s : Sys) st t' s' :
  HeapFileScan_resetScan t s = (st, t', s') ->
  Ref.files (world s') = Ref.files (world s)
  /\ filePtr (base t') = filePtr (base t)
  /\ headerPage (base t') = headerPage (base t)
  /\ hdr (base t') = hdr (base t).
Proof.
  unfold HeapFileScan_resetScan.
  destruct (negb (Scan.markedPageNo (scan t) =? curPageNo (base t))).
  2:{ intros H; inversion H; subst. auto. }
  match goal with
  | |- context [let '(_, _) := ?c in _] => destruct c as [st1 s1] eqn:Hunpin
  end.
  assert (Hw1 : Ref.files (world s1) = Ref.files (world s)).
  { destruct (curPage (base t)).
    - apply ref_unPinPage_run in Hunpin as [(_ & _ & ->) | (_ & _ & ->)]; reflexivity.
    - inversion Hunpin; subst. reflexivity. }
  clear Hunpin.
  destruct (status_ne st1 OK). { intros H; inversion H; subst. auto. }
  destruct (BufMgr_readPage _ _ s1) as [[st3 pg] s3] eqn:Hread.
  assert (Hw3 : Ref.files (world s3) = Ref.files (world s)).
  { apply ref_readPage_run in Hread as [(_ & _ & _ & ->) | (_ & _ & ->)];
      rewrite <- Hw1; reflexivity. }
  clear Hread.
  destruct (status_ne st3 OK); intros H; inversion H; subst; auto.
Qed.

Lemma endScan_frame (t : HeapFileScan) (s : Sys) st t' s' :
  HeapFileScan_endScan t s = (st, t', s') ->
  Ref.files (world s') = Ref.files (world s)
  /\ filePtr (base t') = filePtr (base t)
  /\ headerPage (base t') = headerPage (base t)
  /\ hdr (base t') = hdr (base t).
Proof.
  unfold HeapFileScan_endScan. destruct (curPage (base t)).
  2:{ intros H; inversion H; subst. auto. }
  destruct (BufMgr_unPinPage _ _ _ s) as [st1 s1] eqn:Hunpin.
  intros H; inversion H; subst. simpl.
  apply ref_unPinPage_run in Hunpin as [(_ & _ & ->) | (_ & _ & ->)]; auto.
Qed.

Lemma ref_unPinPage_files (f : File) n d (s : Sys) :
  Ref.files (world (BufMgr_unPinPage f n d s).2) = Ref.files (world s).
Proof.
  destruct (BufMgr_unPinPage f n d s) as [st s'] eqn:Hunpin. simpl.
  apply ref_unPinPage_run in Hunpin as [(_ & _ & ->) | (_ & _ & ->)]; reflexivity.
Qed.

Lemma HeapFile_delete_files (t : HeapFile) (s : Sys) :
  Ref.files (world (HeapFile_delete t s)) = Ref.files (world s).
Proof.
  unfold HeapFile_delete. unfold DB_closeFile. simpl.
  rewrite ref_unPinPage_files. destruct (curPage t); [apply ref_unPinPage_files | reflexivity].
Qed.


Lemma int_wrap_add_idem a b : int_wrap (int_wrap a + b) = int_wrap (a + b).
Proof.
  unfold int_wrap.
  replace ((a + 2 ^ (int_bits - 1)) mod 2 ^ int_bits - 2 ^ (int_bits - 1) + b
           + 2 ^ (int_bits - 1))
    with ((a + 2 ^ (int_bits - 1)) mod 2 ^ int_bits + b) by lia.
  rewrite Zplus_mod_idemp_l. f_equal. f_equal. lia.
Qed.

Lemma keys_insert (fr : gmap Z Ref.Frame) k x N N' :
  (forall n, is_Some (fr !! n) -> 0 <= n < N) -> 0 <= k < N' -> N <= N' ->
  forall n, is_Some (<[k := x]> fr !! n) -> 0 <= n < N'.
Proof.
  intros Hb Hk HN n Hn. apply lookup_insert_is_Some in Hn as [<- | [_ Hn]]; [exact Hk |].
  apply Hb in Hn. lia.
Qed.

Lemma described_hdr_ne d h l k dk :
  described d h l -> Ref.frames d !! k = Some (Ref.DataFrame dk) ->
  k <> Ref.firstPageNo d.
Proof. unfold described. intros (Hh & _) Hk Heq. subst k. congruence. Qed.

Lemma described_kept d h l k dk dk' :
  described d h l -> Ref.frames d !! k = Some (Ref.DataFrame dk) ->
  Ref.nextPage dk' = Ref.nextPage dk ->
  described (Ref.mkFile (Ref.firstPageNo d) (Ref.numPages d)
               (<[k := Ref.DataFrame dk']> (Ref.frames d))) h l.
Proof.
  intros Hd Hk Hnext. pose proof (described_hdr_ne _ _ _ _ _ Hd Hk) as Hne.
  destruct Hd as (Hh & Hc & Hlast & Hnl & Hcnt & Hb & Hall).
  unfold described. simpl.
  split; [rewrite lookup_insert_ne; [exact Hh | exact Hne] |].
  split; [eapply chain_update_data; eauto |].
  repeat (split; [assumption |]).
  split.
  - apply keys_insert with (N := Ref.numPages d); [exact Hb | apply Hb; eauto | lia].
  - intros k' dk0 Hk'. destruct (decide (k' = k)) as [-> | Hkk].
    + exact (Hall _ _ Hk).
    + rewrite lookup_insert_ne in Hk' by congruence. exact (Hall _ _ Hk').
Qed.

Lemma described_hdr d h l h' :
  described d h l -> firstPage h' = firstPage h -> lastPage h' = lastPage h ->
  pageCnt h' = pageCnt h ->
  described (Ref.mkFile (Ref.firstPageNo d) (Ref.numPages d)
               (<[Ref.firstPageNo d := Ref.HdrFrame h']> (Ref.frames d))) h' l.
Proof.
  unfold described at 1.
  intros (Hh & Hc & Hlast & Hnl & Hcnt & Hb & Hall) Hf Hl Hp.
  unfold described. simpl. rewrite Hf, Hl, Hp.
  split; [apply lookup_insert_eq |].
  split; [apply chain_update_other; assumption |].
  repeat (split; [assumption |]).
  split.
  - apply keys_insert with (N := Ref.numPages d); [exact Hb | apply Hb; eauto | lia].
  - intros k' dk0 Hk'. destruct (decide (k' = Ref.firstPageNo d)) as [-> | Hkk].
    + rewrite lookup_insert_eq in Hk'. discriminate.
    + rewrite lookup_insert_ne in Hk' by congruence. exact (Hall _ _ Hk').
Qed.

Lemma described_grow d h l dc h' :
  described d h l ->
  Ref.frames d !! lastPage h = Some (Ref.DataFrame dc) ->
  firstPage h' = firstPage h -> lastPage h' = Ref.numPages d ->
  pageCnt h' = int_wrap (pageCnt h + 1) ->
  described
    (Ref.mkFile (Ref.firstPageNo d) (Ref.numPages d + 1)
       (<[Ref.firstPageNo d := Ref.HdrFrame h']>
          (<[lastPage h := Ref.DataFrame (Ref.mkPage (Ref.numPages d) (Ref.curPage dc)
                                             (Ref.slots dc))]>
             (<[Ref.numPages d := Ref.DataFrame (Ref.mkPage (-1) (Ref.numPages d) [])]>
                (Ref.frames d)))))
    h' (l ++ [Ref.numPages d]).
Proof.
  unfold described at 1.
  intros (Hh & Hc & Hlast & Hnl & Hcnt & Hb & Hall) Hdc Hf Hl Hp.
  assert (Hfresh : Ref.frames d !! Ref.numPages d = None).
  { destruct (Ref.frames d !! Ref.numPages d) eqn:E; [| reflexivity].
    assert (0 <= Ref.numPages d < Ref.numPages d) by (apply Hb; eauto). lia. }
  assert (Hfirst : 0 <= Ref.firstPageNo d < Ref.numPages d) by (apply Hb; eauto).
  assert (Hnew : Ref.numPages d ∉ l).
  { intros Hin. destruct (chain_data _ _ _ _ Hc Hin) as [x Hx]. congruence. }
  assert (Hlp : 0 <= lastPage h < Ref.numPages d) by (apply Hb; eauto).
  unfold described. simpl.
  split; [apply lookup_insert_eq |].
  split.
  { rewrite Hf. apply chain_update_other.
    + eapply chain_snoc with (dm := Ref.mkPage (-1) (Ref.numPages d) []).
      * apply chain_update_other; [exact Hc | exact Hnew].
      * exact Hlast.
      * rewrite lookup_insert_ne; [exact Hdc | lia].
      * apply lookup_insert_eq.
      * reflexivity.
      * exact Hnew.
      * lia.
    + intros Hin. apply elem_of_app in Hin as [Hin | Hin]; [contradiction |].
      apply list_elem_of_singleton in Hin. lia. }
  split; [rewrite last_snoc, Hl; reflexivity |].
  split.
  { intros Hin. apply elem_of_app in Hin as [Hin | Hin]; [contradiction |].
    apply list_elem_of_singleton in Hin. lia. }
  split.
  { rewrite Hp, Hcnt, int_wrap_add_idem, length_app. simpl. f_equal. lia. }
  split.
  { apply keys_insert with (N := Ref.numPages d + 1); [| lia | lia].
    apply keys_insert with (N := Ref.numPages d + 1); [| lia | lia].
    apply keys_insert with (N := Ref.numPages d); [exact Hb | lia | lia]. }
  intros k' dk0 Hk'. apply elem_of_app.
  destruct (decide (k' = Ref.firstPageNo d)) as [-> | Hk1].
  { rewrite lookup_insert_eq in Hk'. discriminate. }
  rewrite lookup_insert_ne in Hk' by congruence.
  destruct (decide (k' = lastPage h)) as [-> | Hk2].
  { left. exact (Hall _ _ Hdc). }
  rewrite lookup_insert_ne in Hk' by congruence.
  destruct (decide (k' = Ref.numPages d)) as [-> | Hk3].
  { right. constructor. }
  rewrite lookup_insert_ne in Hk' by congruence.
  left. exact (Hall _ _ Hk').
Qed.


Lemma described_page_kept name (w w' : Ref.World) d h l :
  Ref.files w !! name = Some d -> described d h l -> page_kept w w' ->
  exists d',
    Ref.files w' !! name = Some d' /\ described d' h l
    /\ Ref.firstPageNo d' = Ref.firstPageNo d /\ Ref.pins w' = Ref.pins w.
Proof.
  intros Hf Hd [-> | (f & k & d0 & dk & dk' & Hf0 & Hk & Hnext & ->)].
  - exists d. auto.
  - simpl. destruct (decide (f = name)) as [-> | Hne].
    + rewrite lookup_insert_eq. rewrite Hf in Hf0. injection Hf0 as <-.
      eexists. split; [reflexivity |]. split; [| auto].
      eapply described_kept; eauto.
    + rewrite lookup_insert_ne by exact Hne. exists d. auto.
Qed.

Lemma described_store name (w : Ref.World) d h l h' :
  Ref.files w !! name = Some d -> described d h l ->
  firstPage h' = firstPage h -> lastPage h' = lastPage h -> pageCnt h' = pageCnt h ->
  exists d',
    Ref.files (Ref.store (name, Ref.firstPageNo d) h' w) !! name = Some d'
    /\ described d' h' l
    /\ Ref.firstPageNo d' = Ref.firstPageNo d
    /\ Ref.pins (Ref.store (name, Ref.firstPageNo d) h' w) = Ref.pins w.
Proof.
  intros Hf Hd H1 H2 H3. unfold Ref.store.
  assert (Hh : is_Some (Ref.frames d !! Ref.firstPageNo d)).
  { destruct Hd as (Hh & _). eauto. }
  rewrite (set_frame_hit _ _ _ _ _ Hf Hh). simpl. rewrite lookup_insert_eq.
  eexists. split; [reflexivity |]. split; [| auto].
  apply described_hdr with (h := h); assumption.
Qed.

Lemma attached_file name d d' o :
  Ref.firstPageNo d' = Ref.firstPageNo d -> attached name d o -> attached name d' o.
Proof. unfold attached. intros ->. auto. Qed.

(** What an object reads through [headerPage] is the header of the file. *)
Lemma sees_hdr name (s : Sys) d h l (b : HeapFile) :
  Ref.files (world s) !! name = Some d -> described d h l ->
  headerPage b = (name, Ref.firstPageNo d) ->
  hdr (sees b s) = h.
Proof.
  intros Hf (Hh & _) Hhp. unfold sees. simpl. rewrite Hhp.
  unfold Ref.load. rewrite (frame_at_hit _ _ _ _ Hf), Hh. reflexivity.
Qed.


Lemma ref_openFile_hit name (s : Sys) d :
  Ref.files (world s) !! name = Some d ->
  DB_openFile name s = (OK, Some name, mkSys (world s) (trace s ++ [EvOpenFile name])).
Proof.
  intros Hf. unfold DB_openFile. simpl. unfold Ref.openFile. rewrite Hf. reflexivity.
Qed.

Lemma ref_getFirstPage_hit (name : string) (s : Sys) d :
  Ref.files (world s) !! name = Some d ->
  File_getFirstPage name s
  = (OK, Some (Ref.firstPageNo d), mkSys (world s) (trace s ++ [EvGetFirstPage name])).
Proof.
  intros Hf. unfold File_getFirstPage. simpl. unfold Ref.getFirstPage. rewrite Hf.
  reflexivity.
Qed.

Lemma createHeapFile_exists name (s : Sys) d :
  Ref.files (world s) !! name = Some d ->
  createHeapFile name s
  = Ret (FILEEXISTS, mkSys (world s) (trace s ++ [EvOpenFile name])).
Proof.
  intros Hf. unfold createHeapFile. rewrite (ref_openFile_hit _ _ _ Hf). reflexivity.
Qed.

(** What the constructor leaves when it returns. *)
Lemma HeapFile_new_consistent name (s : Sys) st o s' d h l :
  Ref.files (world s) !! name = Some d -> described d h l ->
  HeapFile_new name s = Ret (st, o, s') ->
  Ref.files (world s') = Ref.files (world s)
  /\ forall t,
       o = Some t ->
       filePtr t = name /\ headerPage t = (name, Ref.firstPageNo d) /\ hdr t = h
       /\ curPage t = Some (name, curPageNo t) /\ curPageNo t ∈ l
       /\ is_Some (Ref.pins (world s') !! (name, curPageNo t)).
Proof.
  intros Hf Hd Hrun. unfold HeapFile_new in Hrun.
  rewrite (ref_openFile_hit _ _ _ Hf) in Hrun. simpl in Hrun.
  rewrite ref_getFirstPage_hit with (d := d) in Hrun by exact Hf. simpl in Hrun.
  match type of Hrun with
  | context [let '(_, _) := ?c in _] => destruct c as [[st1 pg1] s1] eqn:Hread1
  end.
  apply ref_readPage_run in Hread1 as [(-> & -> & _ & Hw1) | (Hne & _ & Hw1)];
    simpl in Hw1.
  2:{ rewrite (status_ne_OK_true Hne) in Hrun. injection Hrun as <- <- <-.
      rewrite Hw1. split; [reflexivity | discriminate]. }
  rewrite status_ne_OK_false in Hrun. simpl in Hrun.
  assert (Hload : Ref.load (name, Ref.firstPageNo d) (world s1) = h).
  { unfold Ref.load. rewrite Hw1.
    unfold Ref.frame_at. simpl. rewrite Hf. simpl.
    destruct Hd as (-> & _). reflexivity. }
  rewrite Hload in Hrun.
  match type of Hrun with
  | context [let '(_, _) := ?c in _] => destruct c as [[st2 pg2] s2] eqn:Hread2
  end.
  apply ref_readPage_run in Hread2 as [(-> & -> & _ & Hw2) | (Hne & _ & Hw2)].
  2:{ rewrite (status_ne_OK_true Hne) in Hrun. injection Hrun as <- <- <-.
      rewrite Hw2, Hw1. split; [reflexivity | discriminate]. }
  rewrite status_ne_OK_false in Hrun. simpl in Hrun. injection Hrun as <- <- <-.
  rewrite Hw2, Hw1. simpl. split; [reflexivity |].
  intros t [= <-]. simpl. repeat split.
  - destruct Hd as (_ & Hc & _). destruct (chain_head _ _ _ Hc) as [l' ->]. constructor.
  - apply pin_is_Some.
Qed.


Lemma pin_lookup_ne (k k' : string * Z) (P : gmap (string * Z) positive) :
  k <> k' -> Ref.pin k P !! k' = P !! k'.
Proof.
  intros Hne. unfold Ref.pin. destruct (P !! k); apply lookup_insert_ne; exact Hne.
Qed.

Lemma unpin_lookup_ne (k k' : string * Z) (P : gmap (string * Z) positive) :
  k <> k' -> Ref.unpin k P !! k' = P !! k'.
Proof.
  intros Hne. unfold Ref.unpin. destruct (P !! k) as [c |]; [| reflexivity].
  destruct (c =? 1)%positive; [apply lookup_delete_ne | apply lookup_insert_ne]; exact Hne.
Qed.

Lemma set_frame_file name (w : Ref.World) k fr D :
  Ref.files w !! name = Some D -> is_Some (Ref.frames D !! k) ->
  Ref.files (Ref.set_frame w (name, k) fr) !! name
  = Some (Ref.mkFile (Ref.firstPageNo D) (Ref.numPages D) (<[k := fr]> (Ref.frames D)))
  /\ Ref.pins (Ref.set_frame w (name, k) fr) = Ref.pins w.
Proof.
  intros Hf Hk. rewrite (set_frame_hit _ _ _ _ _ Hf Hk). simpl.
  rewrite lookup_insert_eq. auto.
Qed.

Lemma init_file name k m (s : Sys) D :
  Ref.files (world s) !! name = Some D -> is_Some (Ref.frames D !! k) ->
  Ref.files (world (Page_init (name, k) m s)) !! name
  = Some (Ref.mkFile (Ref.firstPageNo D) (Ref.numPages D)
            (<[k := Ref.DataFrame (Ref.mkPage (-1) m [])]> (Ref.frames D)))
  /\ Ref.pins (world (Page_init (name, k) m s)) = Ref.pins (world s).
Proof. intros Hf Hk. apply set_frame_file; assumption. Qed.

Lemma setNextPage_file name k n (s : Sys) st s' D dk :
  Ref.files (world s) !! name = Some D ->
  Ref.frames D !! k = Some (Ref.DataFrame dk) ->
  Page_setNextPage (name, k) n s = (st, s') ->
  st = OK
  /\ Ref.files (world s') !! name
     = Some (Ref.mkFile (Ref.firstPageNo D) (Ref.numPages D)
               (<[k := Ref.DataFrame (Ref.mkPage n (Ref.curPage dk) (Ref.slots dk))]>
                  (Ref.frames D)))
  /\ Ref.pins (world s') = Ref.pins (world s).
Proof.
  intros Hf Hk Hrun. rewrite (ref_setNextPage_data _ _ _ _ _ _ Hf Hk) in Hrun.
  injection Hrun as <- <-. simpl. rewrite lookup_insert_eq. auto.
Qed.

Lemma insertRecord_file name k rec (s : Sys) st rid s' D dk :
  Ref.files (world s) !! name = Some D ->
  Ref.frames D !! k = Some (Ref.DataFrame dk) ->
  Page_insertRecord (name, k) rec s = (st, rid, s') ->
  (st <> OK /\ world s' = world s)
  \/ (st = OK
      /\ exists dk',
          Ref.nextPage dk' = Ref.nextPage dk
          /\ Ref.files (world s') !! name
             = Some (Ref.mkFile (Ref.firstPageNo D) (Ref.numPages D)
                       (<[k := Ref.DataFrame dk']> (Ref.frames D)))
          /\ Ref.pins (world s') = Ref.pins (world s)).
Proof.
  intros Hf Hk Hrun.
  apply (ref_insertRecord_data _ _ _ _ _ _ _ _ _ Hf Hk) in Hrun
    as [Hfail | (-> & dk' & Hnext & ->)]; [left; exact Hfail |].
  right. split; [reflexivity |]. exists dk'. simpl. rewrite lookup_insert_eq. auto.
Qed.

Lemma allocPage_file name (s : Sys) st n p s' D :
  Ref.files (world s) !! name = Some D ->
  BufMgr_allocPage name s = (st, n, p, s') ->
  (st <> OK /\ world s' = world s)
  \/ (st = OK /\ n = Some (Ref.numPages D) /\ p = Some (name, Ref.numPages D)
      /\ Ref.files (world s') !! name
         = Some (Ref.mkFile
                   (if Ref.firstPageNo D =? -1 then Ref.numPages D else Ref.firstPageNo D)
                   (Ref.numPages D + 1)
                   (<[Ref.numPages D := Ref.HdrFrame Ref.zero_hdr]> (Ref.frames D)))
      /\ Ref.pins (world s') = Ref.pin (name, Ref.numPages D) (Ref.pins (world s))).
Proof.
  intros Hf Hrun.
  apply ref_allocPage_run in Hrun as [Hfail | (-> & d0 & Hf0 & -> & -> & ->)];
    [left; exact Hfail |].
  assert (d0 = D) by congruence. subst d0.
  right. simpl. rewrite lookup_insert_eq. auto 10.
Qed.

Lemma unPinPage_file (name : string) k dirty (s : Sys) st s' :
  is_Some (Ref.pins (world s) !! (name, k)) ->
  BufMgr_unPinPage name k dirty s = (st, s') ->
  st = OK /\ Ref.files (world s') = Ref.files (world s)
  /\ Ref.pins (world s') = Ref.unpin (name, k) (Ref.pins (world s)).
Proof.
  intros Hpin Hrun. rewrite (ref_unPinPage_ok _ _ _ _ Hpin) in Hrun.
  injection Hrun as <- <-. auto.
Qed.

Lemma unPinPage_files_eq (f : string) k dirty (s : Sys) st s' :
  BufMgr_unPinPage f k dirty s = (st, s') -> Ref.files (world s') = Ref.files (world s).
Proof.
  intros Hrun. apply ref_unPinPage_run in Hrun as [(_ & _ & ->) | (_ & _ & ->)];
    reflexivity.
Qed.

(** HeapFile::getRecord changes no page; it leaves the handle of the current
    page that of page [curPageNo] if it was. *)
Lemma HeapFile_getRecord_frame rid (t : HeapFile) (s : Sys) st rec t' s' :
  HeapFile_getRecord rid t s = Ret (st, rec, t', s') ->
  Ref.files (world s') = Ref.files (world s)
  /\ filePtr t' = filePtr t
  /\ headerPage t' = headerPage t
  /\ ((forall p, curPage t = Some p -> p = (filePtr t, curPageNo t)) ->
      forall p, curPage t' = Some p -> p = (filePtr t', curPageNo t')).
Proof.
  intros Hrun.
  assert (Hread : forall page (b : HeapFile) (s0 : Sys),
             HeapFile_getRecord_read page rid b s0 = Ret (st, rec, t', s') ->
             Ref.files (world s') = Ref.files (world s0)
             /\ filePtr t' = filePtr b /\ headerPage t' = headerPage b
             /\ curPage t' = curPage b /\ curPageNo t' = curPageNo b).
  { clear Hrun. intros page b s0 H. unfold HeapFile_getRecord_read, need in H.
    destruct page as [page |]; [| discriminate].
    destruct (Page_getRecord page rid s0) as [[st0 rec0] s1] eqn:Hget.
    apply ref_getRecord_run in Hget.
    destruct (status_ne st0 OK).
    - destruct (negb (curPageNo b =? pageNo rid)).
      + destruct (BufMgr_unPinPage _ _ _ s1) as [st1 s2] eqn:Hunpin.
        apply unPinPage_files_eq in Hunpin. injection H as <- <- <- <-.
        rewrite Hunpin, Hget. auto.
      + injection H as <- <- <- <-. rewrite Hget. auto.
    - injection H as <- <- <- <-. rewrite Hget. simpl. auto. }
  unfold HeapFile_getRecord in Hrun.
  destruct (bool_decide (curPage t <> None) && (curPageNo t =? pageNo rid)).
  - apply Hread in Hrun as (H0 & H1 & H2 & H3 & H4).
    split; [exact H0 |]. split; [exact H1 |]. split; [exact H2 |].
    intros Hshape p Hp. rewrite H1, H4. apply Hshape. rewrite <- H3. exact Hp.
  - match type of Hrun with
    | context [let '(_, _) := ?c in _] => destruct c as [st0 s0] eqn:Hunpin
    end.
    assert (Hw0 : Ref.files (world s0) = Ref.files (world s)).
    { destruct (curPage t).
      - exact (unPinPage_files_eq _ _ _ _ _ _ Hunpin).
      - injection Hunpin as _ <-. reflexivity. }
    clear Hunpin.
    destruct (status_ne st0 OK). { injection Hrun as <- <- <- <-. auto. }
    destruct (BufMgr_readPage _ _ s0) as [[st1 page] s1] eqn:Hread1.
    apply ref_readPage_run in Hread1 as [(-> & -> & _ & Hw1) | (Hne & _ & Hw1)].
    + rewrite status_ne_OK_false in Hrun.
      apply Hread in Hrun as (H0 & H1 & H2 & H3 & H4). simpl in H1, H2, H3, H4.
      rewrite H0, Hw1. simpl.
      split; [exact Hw0 |]. split; [exact H1 |]. split; [exact H2 |].
      intros _ p Hp. rewrite H3 in Hp. injection Hp as <-. rewrite H1, H4. reflexivity.
    + rewrite (status_ne_OK_true Hne) in Hrun. injection Hrun as <- <- <- <-.
      rewrite Hw1. auto.
Qed.

(** A call on an open scan keeps the file as its header describes it. *)
Lemma scan_call_frame name (s : Sys) d h l (t t' : HeapFileScan) (s' : Sys) :
  Ref.files (world s) !! name = Some d -> described d h l ->
  headerPage (base t) = (name, Ref.firstPageNo d) -> hdr (base t) = h ->
  scan_call t s t' s' ->
  (exists d' h',
     Ref.files (world s') !! name = Some d' /\ described d' h' l
     /\ Ref.firstPageNo d' = Ref.firstPageNo d)
  /\ filePtr (base t') = filePtr (base t)
  /\ headerPage (base t') = headerPage (base t).
Proof.
  intros Hf Hd Hhp Hh Hcall.
  assert (Hsame : forall s0 : Sys,
             Ref.files (world s0) = Ref.files (world s) ->
             exists d' h',
               Ref.files (world s0) !! name = Some d' /\ described d' h' l
               /\ Ref.firstPageNo d' = Ref.firstPageNo d).
  { intros s0 Hw. exists d, h. rewrite Hw. auto. }
  destruct Hcall as
    [ t s offset_ length_ type_ filter_ op_ st t' Hrun
    | t s fuel st rid t' s' Hrun | t s st rec s' Hrun | t s rid st rec b' s' Hrun
    | t s | t s st t' s' Hrun | t s st t' s' Hrun | t s | t s st t' s' Hrun ].
  - split; [apply Hsame; reflexivity |].
    unfold HeapFileScan_startScan in Hrun.
    destruct filter_; [destruct (bad_scan_parm _ _ _ _) |];
      injection Hrun as <- <-; auto.
  - destruct (scanNext_loop_frame _ _ _ _ _ _ _ _ _ Hrun) as (H0 & H1 & H2 & _).
    split; [apply Hsame; exact H0 | auto].
  - split; [apply Hsame | auto].
    unfold HeapFileScan_getRecord in Hrun.
    destruct (curPage (base t)) as [page |]; [| discriminate]. simpl in Hrun.
    destruct (Page_getRecord page (curRec (base t)) s) as [[st1 rec1] s1] eqn:Hget.
    injection Hrun as <- <- <-. rewrite (ref_getRecord_run _ _ _ _ _ _ Hget). reflexivity.
  - destruct (HeapFile_getRecord_frame _ _ _ _ _ _ _ Hrun) as (H0 & H1 & H2 & _).
    split; [apply Hsame; exact H0 | auto].
  - split; [apply Hsame; reflexivity | auto].
  - destruct (resetScan_frame _ _ _ _ _ Hrun) as (H0 & H1 & H2 & _).
    split; [apply Hsame; exact H0 | auto].
  - clear Hsame. subst h. unfold HeapFileScan_deleteRecord in Hrun.
    destruct (curPage (base t)) as [page |]; [| discriminate]. simpl in Hrun.
    destruct (Page_deleteRecord page (curRec (base t)) s) as [st1 s1] eqn:Hdel.
    apply ref_deleteRecord_kept in Hdel.
    destruct (described_page_kept name _ _ d _ l Hf Hd Hdel)
      as (d1 & Hf1 & Hd1 & Hfirst & _).
    simpl in Hrun. injection Hrun as <- <- <-. simpl.
    split; [| auto]. rewrite Hhp, <- Hfirst.
    destruct (described_store name (world s1) d1 (hdr (base t)) l
                (set_recCnt (hdr (base t)) (int_wrap (recCnt (hdr (base t)) - 1)))
                Hf1 Hd1 eq_refl eq_refl eq_refl) as (d2 & Hf2 & Hd2 & Hfirst2 & _).
    exists d2. eexists. split; [exact Hf2 |]. split; [exact Hd2 |].
    rewrite Hfirst2. reflexivity.
  - split; [apply Hsame; reflexivity | auto].
  - destruct (endScan_frame _ _ _ _ _ Hrun) as (H0 & H1 & H2 & _).
    split; [apply Hsame; exact H0 | auto].
Qed.

(** insertRecord, called in order, keeps the file as its header describes
    it: the chain is as it was, or has the new page at its end. *)
Lemma insertRecord_frame name (s : Sys) d h l (t : HeapFile) rec st rid t' s' :
  Ref.files (world s) !! name = Some d -> described d h l ->
  filePtr t = name -> headerPage t = (name, Ref.firstPageNo d) -> hdr t = h ->
  (forall p, curPage t = Some p -> p = (name, curPageNo t)) ->
  inserts_in_order rec t s ->
  InsertFileScan_insertRecord rec t s = Ret (st, rid, t', s') ->
  (exists d' h' l',
     Ref.files (world s') !! name = Some d' /\ described d' h' l'
     /\ Ref.firstPageNo d' = Ref.firstPageNo d)
  /\ filePtr t' = name
  /\ headerPage t' = headerPage t
  /\ (forall p, curPage t' = Some p -> p = (name, curPageNo t')).
Proof.
  intros Hf Hd Hfp Hhp Hh Hshape Horder Hrun. subst h.
  unfold InsertFileScan_insertRecord in Hrun.
  assert (Hsame : forall (s0 : Sys),
             world s0 = world s ->
             (exists d' h' l',
                Ref.files (world s0) !! name = Some d' /\ described d' h' l'
                /\ Ref.firstPageNo d' = Ref.firstPageNo d)
             /\ filePtr t = name
             /\ headerPage t = headerPage t
             /\ (forall p, curPage t = Some p -> p = (name, curPageNo t))).
  { intros s0 Hw. split; [exists d, (hdr t), l; rewrite Hw; auto | auto]. }
  destruct (uint_wrap (Rec.length rec) >? uint_wrap (PAGESIZE - DPFIXED)).
  { injection Hrun as <- <- <- <-. apply Hsame. reflexivity. }
  destruct (curPage t) as [page |] eqn:Hcp; [| discriminate].
  pose proof (Hshape _ eq_refl) as Hpage. subst page.
  destruct (Horder _ Hcp) as [[dcp Hdcp] Hgrow].
  rewrite (frame_at_hit _ _ _ _ Hf) in Hdcp.
  rewrite Hfp in Hrun. simpl in Hrun.
  match type of Hrun with
  | context [let '(_, _) := ?c in _] => destruct c as [[st1 rid1] s1] eqn:Hins
  end.
  simpl in Hgrow.
  apply (ref_insertRecord_data name _ rec s st1 rid1 s1 d dcp Hf Hdcp) in Hins
    as [(Hne & Hw1) | (-> & dk' & Hnext & Hw1)].
  2:{ (* the record went on the current page *)
    simpl in Hrun. unfold insertRecord_done in Hrun.
    destruct rid1 as [rid1 |]; [| discriminate]. simpl in Hrun.
    injection Hrun as <- <- <- <-. simpl.
    assert (Hf1 : Ref.files (world s1) !! name
                  = Some (Ref.mkFile (Ref.firstPageNo d) (Ref.numPages d)
                            (<[curPageNo t := Ref.DataFrame dk']> (Ref.frames d)))).
    { rewrite Hw1. simpl. apply lookup_insert_eq. }
    pose proof (described_kept _ _ _ _ _ _ Hd Hdcp Hnext) as Hd1.
    rewrite Hhp.
    destruct (described_store name (world s1) _ (hdr t) l
                (set_recCnt (hdr t) (int_wrap (recCnt (hdr t) + 1)))
                Hf1 Hd1 eq_refl eq_refl eq_refl) as (d2 & Hf2 & Hd2 & Hfirst2 & Hpins2).
    simpl in Hf2, Hpins2, Hfirst2.
    split; [| rewrite Hcp; auto].
    exists d2. eexists. exists l. split; [exact Hf2 |]. split; [exact Hd2 |].
    exact Hfirst2. }
  (* the current page took nothing *)
  rewrite (bool_decide_eq_false_2 _ Hne) in Hrun.
  destruct (bool_decide (st1 = NOSPACE)) eqn:Hsp.
  2:{ injection Hrun as <- <- <- <-. rewrite Hcp. apply Hsame. exact Hw1. }
  apply bool_decide_eq_true in Hsp. destruct (Hgrow Hsp) as [Hg Hpin].
  assert (Hf1 : Ref.files (world s1) !! name = Some d) by (rewrite Hw1; exact Hf).
  match type of Hrun with
  | context [let '(_, _) := ?c in _] => destruct c as [[[st2 n2] p2] s2] eqn:Halloc
  end.
  apply (allocPage_file _ _ _ _ _ _ _ Hf1) in Halloc
    as [(Hne2 & Hw2) | (-> & -> & -> & Hf2 & Hp2)].
  { rewrite (status_ne_OK_true Hne2) in Hrun. injection Hrun as <- <- <- <-.
    rewrite Hcp. apply Hsame. congruence. }
  rewrite status_ne_OK_false in Hrun. simpl in Hrun.
  pose proof Hd as (Hh & Hc & Hlast & Hnl & Hcnt & Hb & Hall).
  assert (Hfirst : 0 <= Ref.firstPageNo d < Ref.numPages d) by (apply Hb; eauto).
  assert (Hcpb : 0 <= curPageNo t < Ref.numPages d) by (apply Hb; eauto).
  pose proof (described_hdr_ne _ _ _ _ _ Hd Hdcp) as Hcpf.
  replace (Ref.firstPageNo d =? -1) with false in Hf2 by (symmetry; apply Z.eqb_neq; lia).
  set (n := Ref.numPages d) in *.
  (* init *)
  destruct (init_file name n n s2 _ Hf2)
    as [Hf3 Hp3]; [simpl; rewrite lookup_insert_eq; eauto |].
  cbn [Ref.frames Ref.firstPageNo Ref.numPages] in Hf3. rewrite insert_insert_eq in Hf3.
  (* setNextPage *)
  match type of Hrun with
  | context [let '(_, _) := ?c in _] => destruct c as [st4 s4] eqn:Hlink
  end.
  apply (setNextPage_file name _ _ _ _ _ _ dcp Hf3) in Hlink as (-> & Hf4 & Hp4);
    [| cbn [Ref.frames]; rewrite lookup_insert_ne by lia; exact Hdcp].
  cbn [Ref.frames Ref.firstPageNo Ref.numPages] in Hf4.
  rewrite status_ne_OK_false in Hrun.
  (* unpin of the old current page *)
  match type of Hrun with
  | context [let '(_, _) := ?c in _] => destruct c as [st5 s5] eqn:Hunpin
  end.
  apply unPinPage_file in Hunpin as (-> & Hf5 & Hp5).
  2:{ rewrite Hp4, Hp3, Hp2, pin_lookup_ne, Hw1; [exact Hpin |].
      intros [= Heq]. lia. }
  rewrite status_ne_OK_false in Hrun.
  rewrite <- Hf5 in Hf4. clear Hf5. rename Hf4 into Hf5.
  (* the two header writes *)
  rewrite Hhp in Hrun.
  match type of Hrun with
  | context [Ref.store ?p ?h1 (world s5)] =>
      destruct (set_frame_file name (world s5) (Ref.firstPageNo d) (Ref.HdrFrame h1) _ Hf5)
        as [Hf6 Hp6]; [simpl; rewrite !lookup_insert_ne by lia; eauto |]
  end.
  simpl in Hf6.
  match type of Hrun with
  | context [Ref.store ?p ?h2 (Ref.store ?p ?h1 (world s5))] =>
      destruct (set_frame_file name (Ref.store p h1 (world s5)) (Ref.firstPageNo d)
                  (Ref.HdrFrame h2) _ Hf6)
        as [Hf7 Hp7]; [simpl; rewrite lookup_insert_eq; eauto |]
  end.
  simpl in Hf7. rewrite insert_insert_eq in Hf7.
  pose proof (described_grow d (hdr t) l dcp
                (set_pageCnt (set_lastPage (hdr t) n) (int_wrap (pageCnt (hdr t) + 1)))
                Hd ltac:(rewrite <- Hg; exact Hdcp) eq_refl eq_refl eq_refl) as Hd7.
  rewrite <- Hg in Hd7. fold n in Hd7.
  (* the insert on the new page *)
  match type of Hrun with
  | context [let '(_, _) := ?c in _] => destruct c as [[st8 rid8] s8] eqn:Hretry
  end.
  match type of Hretry with
  | Page_insertRecord _ _ ?s0 = _ =>
      apply (insertRecord_file name n rec s0 _ _ _ _ (Ref.mkPage (-1) n []) Hf7) in Hretry
        as [(Hne8 & Hw8) | (-> & dk' & Hnext8 & Hf8 & Hp8)]
  end.
  3:{ simpl. rewrite lookup_insert_ne by lia. rewrite lookup_insert_ne by lia.
      apply lookup_insert_eq. }
  - rewrite (status_ne_OK_true Hne8) in Hrun. injection Hrun as <- <- <- <-.
    simpl. split; [| repeat split; [exact Hfp | intros p [= <-]; reflexivity]].
    eexists. exists (set_pageCnt (set_lastPage (hdr t) n) (int_wrap (pageCnt (hdr t) + 1))).
    exists (l ++ [n]). rewrite Hw8. simpl.
    split; [exact Hf7 |]. split; [exact Hd7 |]. reflexivity.
  - rewrite status_ne_OK_false in Hrun. unfold insertRecord_done in Hrun.
    destruct (stored rid8 rid1) as [rid9 |]; [| discriminate]. simpl in Hrun.
    injection Hrun as <- <- <- <-. simpl. rewrite Hhp.
    assert (Hk8 : Ref.frames
                    (Ref.mkFile (Ref.firstPageNo d) (n + 1)
                       (<[Ref.firstPageNo d :=
                            Ref.HdrFrame
                              (set_pageCnt (set_lastPage (hdr t) n)
                                 (int_wrap (pageCnt (hdr t) + 1)))]>
                          (<[curPageNo t :=
                               Ref.DataFrame (Ref.mkPage n (Ref.curPage dcp) (Ref.slots dcp))]>
                             (<[n := Ref.DataFrame (Ref.mkPage (-1) n [])]> (Ref.frames d)))))
                  !! n = Some (Ref.DataFrame (Ref.mkPage (-1) n []))).
    { simpl. rewrite lookup_insert_ne by lia. rewrite lookup_insert_ne by lia.
      apply lookup_insert_eq. }
    pose proof (described_kept _ _ _ _ _ _ Hd7 Hk8 Hnext8) as Hd8. simpl in Hd8.
    match goal with
    | |- context [Ref.store _ ?h9 (world s8)] =>
        destruct (described_store name (world s8) _ _ _ h9 Hf8 Hd8 eq_refl eq_refl eq_refl)
          as (d9 & Hf9 & Hd9 & Hfirst9 & Hp9)
    end.
    simpl in Hf9, Hfirst9, Hp9.
    split; [| repeat split; [exact Hfp | intros p [= <-]; reflexivity]].
    exists d9. eexists. exists (l ++ [n]).
    split; [exact Hf9 |]. split; [exact Hd9 |]. exact Hfirst9.
Qed.

(** A call on an open insert scan keeps the file as its header describes
    it. *)
Lemma insert_call_frame name (s : Sys) d h l (t t' : HeapFile) (s' : Sys) :
  Ref.files (world s) !! name = Some d -> described d h l ->
  filePtr t = name -> headerPage t = (name, Ref.firstPageNo d) -> hdr t = h ->
  (forall p, curPage t = Some p -> p = (name, curPageNo t)) ->
  insert_call t s t' s' ->
  (exists d' h' l',
     Ref.files (world s') !! name = Some d' /\ described d' h' l'
     /\ Ref.firstPageNo d' = Ref.firstPageNo d)
  /\ filePtr t' = name
  /\ headerPage t' = headerPage t
  /\ (forall p, curPage t' = Some p -> p = (name, curPageNo t')).
Proof.
  intros Hf Hd Hfp Hhp Hh Hshape Hcall.
  destruct Hcall as [t s rec st rid t' s' Horder Hrun | t s rid st rec t' s' Hrun].
  - eapply insertRecord_frame; eauto.
  - destruct (HeapFile_getRecord_frame _ _ _ _ _ _ _ Hrun) as (H0 & H1 & H2 & H3).
    split; [exists d, h, l; rewrite H0; auto |].
    split; [congruence |]. split; [exact H2 |].
    intros p Hp. rewrite <- Hfp, <- H1. apply H3; [| exact Hp].
    intros q Hq. rewrite Hfp. apply Hshape. exact Hq.
Qed.

Lemma consistent_files name (s s' : Sys) os os' :
  consistent name (mkCfg s os) ->
  Ref.files (world s') = Ref.files (world s) ->
  (forall d, Forall (attached name d) os -> Forall (attached name d) os') ->
  consistent name (mkCfg s' os').
Proof.
  intros (d & h & l & Hf & Hd & Ha) Hfiles Hos. simpl in *.
  exists d, h, l. simpl. rewrite Hfiles. auto.
Qed.

Lemma InsertFileScan_delete_files (t : HeapFile) (s : Sys) :
  Ref.files (world (InsertFileScan_delete t s)) = Ref.files (world s).
Proof.
  unfold InsertFileScan_delete. destruct (curPage t).
  - destruct (BufMgr_unPinPage _ _ _ s) as [st s1] eqn:Hunpin.
    rewrite HeapFile_delete_files.
    apply ref_unPinPage_run in Hunpin as [(_ & _ & ->) | (_ & _ & ->)]; reflexivity.
  - apply HeapFile_delete_files.
Qed.

Lemma HeapFileScan_delete_files (t : HeapFileScan) (s : Sys) :
  Ref.files (world (HeapFileScan_delete t s)) = Ref.files (world s).
Proof.
  unfold HeapFileScan_delete.
  destruct (HeapFileScan_endScan t s) as [[st t1] s1] eqn:Hend.
  rewrite HeapFile_delete_files. apply (endScan_frame _ _ _ _ _ Hend).
Qed.

Lemma step_consistent name c c' :
  consistent name c -> step name c c' -> consistent name c'.
Proof.
  intros Hc Hstep.
  destruct Hstep as
    [ s os st s' Hrun | s os junk t s' Hrun | s os t s' Hrun | s os st s' Hrun
    | s os i t t' s' Hi Hcall | s os i t t' s' Hi Hcall | s os i t Hi | s os i t Hi ].
  - pose proof Hc as (d & h & l & Hf & _). simpl in Hf.
    rewrite (createHeapFile_exists _ _ _ Hf) in Hrun. injection Hrun as <- <-.
    eapply consistent_files; [exact Hc | reflexivity | auto].
  - destruct Hc as (d & h & l & Hf & Hd & Hatt). simpl in Hf, Hatt.
    unfold HeapFileScan_new in Hrun.
    destruct (HeapFile_new name s) as [[[st1 [t1 |]] s1] | |] eqn:Hnew;
      try discriminate.
    injection Hrun as -> <- <-.
    destruct (HeapFile_new_consistent _ _ _ _ _ _ _ _ Hf Hd Hnew) as [Hfiles Ht].
    destruct (Ht t1 eq_refl) as (H1 & H2 & _).
    exists d, h, l. simpl. rewrite Hfiles.
    split; [exact Hf |]. split; [exact Hd |].
    apply Forall_app. split; [exact Hatt |].
    constructor; [| constructor]. unfold attached. simpl. auto.
  - destruct Hc as (d & h & l & Hf & Hd & Hatt). simpl in Hf, Hatt.
    unfold InsertFileScan_new in Hrun.
    destruct (HeapFile_new_consistent _ _ _ _ _ _ _ _ Hf Hd Hrun) as [Hfiles Ht].
    destruct (Ht t eq_refl) as (H1 & H2 & _ & H4 & _).
    exists d, h, l. simpl. rewrite Hfiles.
    split; [exact Hf |]. split; [exact Hd |].
    apply Forall_app. split; [exact Hatt |].
    constructor; [| constructor]. unfold attached. simpl.
    split; [exact H1 |]. split; [exact H2 |].
    intros p Hp. rewrite H4 in Hp. injection Hp as <-. reflexivity.
  - pose proof Hc as (d & h & l & Hf & Hd & _). simpl in Hf.
    destruct (HeapFile_new_consistent _ _ _ _ _ _ _ _ Hf Hd Hrun) as [Hfiles _].
    eapply consistent_files; [exact Hc | exact Hfiles | auto].
  - destruct Hc as (d & h & l & Hf & Hd & Hatt). simpl in Hf, Hatt.
    destruct (Forall_lookup_1 _ _ _ _ Hatt Hi) as (Hfp & Hhp & _). simpl in Hfp, Hhp.
    destruct (scan_call_frame name s d h l (sees_scan t s) t' s' Hf Hd)
      as ((d' & h' & Hf' & Hd' & Hfirst) & Hfp' & Hhp');
      [exact Hhp | exact (sees_hdr _ _ _ _ _ _ Hf Hd Hhp) | exact Hcall |].
    simpl in Hfp', Hhp'.
    exists d', h', l. simpl. split; [exact Hf' |]. split; [exact Hd' |].
    apply Forall_insert.
    + eapply Forall_impl; [exact Hatt |]. intros o. apply attached_file. exact Hfirst.
    + unfold attached. simpl. rewrite Hfp', Hhp', Hfirst. auto.
  - destruct Hc as (d & h & l & Hf & Hd & Hatt). simpl in Hf, Hatt.
    destruct (Forall_lookup_1 _ _ _ _ Hatt Hi) as (Hfp & Hhp & Hshape).
    simpl in Hfp, Hhp, Hshape.
    destruct (insert_call_frame name s d h l (sees t s) t' s' Hf Hd)
      as ((d' & h' & l' & Hf' & Hd' & Hfirst) & Hfp' & Hhp' & Hshape');
      [exact Hfp | exact Hhp | exact (sees_hdr _ _ _ _ _ _ Hf Hd Hhp) | exact Hshape
      | exact Hcall |].
    simpl in Hhp'.
    exists d', h', l'. simpl. split; [exact Hf' |]. split; [exact Hd' |].
    apply Forall_insert.
    + eapply Forall_impl; [exact Hatt |]. intros o. apply attached_file. exact Hfirst.
    + unfold attached. simpl. rewrite Hfp', Hhp', Hfirst. auto.
  - eapply consistent_files; [exact Hc | apply HeapFileScan_delete_files |].
    intros d. apply Forall_delete.
  - eapply consistent_files; [exact Hc | apply InsertFileScan_delete_files |].
    intros d. apply Forall_delete.
Qed.

Lemma int_wrap_2 : 0 < sizeof_int -> int_wrap 2 = 2.
Proof.
  intros Hs. apply int_wrap_small; [exact Hs |].
  unfold INT_MIN, INT_MAX, int_bits.
  assert (2 ^ 7 <= 2 ^ (8 * sizeof_int - 1)) by (apply Z.pow_le_mono_r; lia).
  change (2 ^ 7) with 128 in *. lia.
Qed.

Lemma ref_openFile_miss name (s : Sys) :
  Ref.files (world s) !! name = None ->
  DB_openFile name s = (UNIXERR, None, mkSys (world s) (trace s ++ [EvOpenFile name])).
Proof.
  intros Hf. unfold DB_openFile. simpl. unfold Ref.openFile. rewrite Hf. reflexivity.
Qed.

Lemma ref_createFile_miss name (s : Sys) :
  Ref.files (world s) !! name = None ->
  DB_createFile name s
  = (OK, mkSys (Ref.set_files (world s) (<[name := Ref.mkFile (-1) 1 ∅]> (Ref.files (world s))))
           (trace s ++ [EvCreateFile name])).
Proof.
  intros Hf. unfold DB_createFile. simpl. unfold Ref.createFile. rewrite Hf. reflexivity.
Qed.

Lemma store_file name (s : Sys) k h D :
  Ref.files (world s) !! name = Some D -> is_Some (Ref.frames D !! k) ->
  Ref.files (world (mkSys (hdr_store (name, k) h (world s)) (trace s))) !! name
  = Some (Ref.mkFile (Ref.firstPageNo D) (Ref.numPages D)
            (<[k := Ref.HdrFrame h]> (Ref.frames D)))
  /\ Ref.pins (world (mkSys (hdr_store (name, k) h (world s)) (trace s)))
     = Ref.pins (world s).
Proof. intros Hf Hk. apply set_frame_file; assumption. Qed.

(** createHeapFile on a name that is free: when it returns OK, the file has
    its header on page 1 and one empty data page, page 2. *)
Lemma createHeapFile_fresh name (s s' : Sys) :
  0 < sizeof_int ->
  Ref.files (world s) !! name = None ->
  createHeapFile name s = Ret (OK, s') ->
  exists d h,
    Ref.files (world s') !! name = Some d
    /\ described d h [2] /\ pageCnt h = 2.
Proof.
  intros Hint Hnone Hrun. unfold createHeapFile in Hrun.
  rewrite (ref_openFile_miss _ _ Hnone) in Hrun. simpl in Hrun.
  rewrite ref_createFile_miss in Hrun by exact Hnone. simpl in Hrun.
  erewrite ref_openFile_hit in Hrun by (simpl; apply lookup_insert_eq). simpl in Hrun.
  match type of Hrun with
  | context [let '(_, _) := ?c in _] => destruct c as [[[st1 n1] p1] s1] eqn:Halloc1
  end.
  eapply allocPage_file in Halloc1; [| simpl; apply lookup_insert_eq].
  destruct Halloc1 as [(Hne & _) | (-> & -> & -> & Hf1 & Hp1)].
  { rewrite (status_ne_OK_true Hne) in Hrun. injection Hrun as -> _. contradiction. }
  rewrite status_ne_OK_false in Hrun. cbn [need] in Hrun.
  cbn [Ref.firstPageNo Ref.numPages Ref.frames] in Hf1, Hp1, Hrun.
  change (-1 =? -1) with true in Hf1. cbn iota in Hf1. change (1 + 1) with 2 in Hf1.
  assert (Hload : Ref.load (name, 1) (world s1) = Ref.zero_hdr).
  { unfold Ref.load, Ref.frame_at. simpl. rewrite Hf1. simpl.
    rewrite lookup_insert_eq. reflexivity. }
  rewrite Hload in Hrun. cbn [set_fileName set_pageCnt set_recCnt fileName firstPage
                              lastPage pageCnt recCnt Ref.zero_hdr] in Hrun.
  match type of Hrun with
  | context [Ref.store (name, 1) ?h1 (world s1)] =>
      destruct (set_frame_file name (world s1) 1 (Ref.HdrFrame h1) _ Hf1) as [Hf2 Hp2];
        [simpl; rewrite lookup_insert_eq; eauto |]
  end.
  cbn [Ref.firstPageNo Ref.numPages Ref.frames] in Hf2.
  rewrite insert_insert_eq in Hf2.
  match type of Hrun with
  | context [let '(_, _) := ?c in _] => destruct c as [[[st3 n3] p3] s3] eqn:Halloc2
  end.
  match type of Halloc2 with
  | BufMgr_allocPage _ ?s0 = _ =>
      apply (allocPage_file name s0 _ _ _ _ _ Hf2) in Halloc2
        as [(Hne & _) | (-> & -> & -> & Hf3 & Hp3)]
  end.
  { rewrite (status_ne_OK_true Hne) in Hrun. injection Hrun as -> _. contradiction. }
  rewrite status_ne_OK_false in Hrun. cbn [need stored] in Hrun.
  cbn [Ref.firstPageNo Ref.numPages Ref.frames] in Hf3, Hp3, Hrun.
  change (1 =? -1) with false in Hf3. cbn iota in Hf3. change (2 + 1) with 3 in Hf3.
  destruct (set_frame_file name (world s3) 2 (Ref.DataFrame (Ref.mkPage (-1) 2 [])) _ Hf3)
    as [Hf4 Hp4]; [simpl; rewrite lookup_insert_eq; eauto |].
  cbn [Ref.firstPageNo Ref.numPages Ref.frames] in Hf4.
  rewrite insert_insert_eq in Hf4.
  cbn [set_firstPage set_lastPage fileName firstPage lastPage pageCnt recCnt] in Hrun.
  match type of Hrun with
  | context [Ref.store (name, 1) ?h2 (Ref.init (name, 2) 2 (world s3))] =>
      destruct (set_frame_file name (Ref.init (name, 2) 2 (world s3)) 1 (Ref.HdrFrame h2)
                  _ Hf4) as [Hf5 Hp5];
        [simpl; rewrite lookup_insert_ne by lia; rewrite lookup_insert_eq; eauto |]
  end.
  cbn [Ref.firstPageNo Ref.numPages Ref.frames] in Hf5.
  match type of Hrun with
  | context [let '(_, _) := ?c in _] => destruct c as [st6 s6] eqn:Hunpin1
  end.
  pose proof (eq_trans
                (f_equal (fun m : gmap string Ref.DbFile => m !! name)
                   (unPinPage_files_eq _ _ _ _ _ _ Hunpin1)) Hf5) as Hf6.
  cbn beta in Hf6. clear Hunpin1.
  destruct (status_ne st6 OK) eqn:Hst6.
  { injection Hrun as -> _. discriminate. }
  match type of Hrun with
  | context [let '(_, _) := ?c in _] => destruct c as [st7 s7] eqn:Hunpin2
  end.
  pose proof (unPinPage_files_eq _ _ _ _ _ _ Hunpin2) as Hf7.
  destruct (status_ne st7 OK) eqn:Hst7.
  { injection Hrun as -> _. discriminate. }
  injection Hrun as <-.
  rewrite Hf7, Hf6. eexists.
  exists (mkHdr (String.substring 0 (MAXNAMESIZE - 1) name) 2 2 2 0).
  split; [reflexivity |]. split; [| reflexivity].
  unfold described. simpl.
  split; [apply lookup_insert_eq |].
  split.
  { apply Ref.chain_last with (d := Ref.mkPage (-1) 2 []); [| reflexivity].
    rewrite lookup_insert_ne by lia. apply lookup_insert_eq. }
  split; [reflexivity |].
  split; [intros Hin; apply list_elem_of_singleton in Hin; lia |].
  split; [symmetry; apply int_wrap_2; exact Hint |].
  split.
  { apply keys_insert with (N := 3); [| lia | lia].
    apply keys_insert with (N := 3); [| lia | lia].
    apply keys_insert with (N := 0); [| lia | lia].
    intros n [x Hx]. rewrite lookup_empty in Hx. discriminate. }
  intros k dk Hk. apply list_elem_of_singleton.
  destruct (decide (k = 1)) as [-> | Hk1].
  { rewrite lookup_insert_eq in Hk. discriminate. }
  rewrite lookup_insert_ne in Hk by congruence.
  destruct (decide (k = 2)) as [-> | Hk2]; [reflexivity |].
  rewrite lookup_insert_ne in Hk by congruence.
  rewrite lookup_insert_ne in Hk by congruence.
  rewrite lookup_empty in Hk. discriminate.
Qed.

(** C2, amended.  The header's pageCnt counts the header page too.  When
    createHeapFile returns OK for a name that was free, the chain has one
    data page and pageCnt is 2, not 1.  In every state reached from there by
    opening the file as scans and as insert scans, with success or not, any
    number of them open at a time, by the calls of a scan that return
    (startScan, scanNext, both getRecord, markScan, resetScan, deleteRecord,
    markDirty, endScan), by those of an insert scan (getRecord and
    insertRecord), by closing, and by createHeapFile on the name again,
    pageCnt is the number of data pages in the chain plus one (as an int),
    provided insertRecord is called in order: the current page of the insert
    scan is a page of data, and if it has no room for the record it is the
    page the header names as last and it is pinned. *)
Theorem pageCnt_counts_header_page name :
  0 < sizeof_int ->
  (forall s s' : Sys,
     Ref.files (world s) !! name = None ->
     createHeapFile name s = Ret (OK, s') ->
     exists d h n,
       Ref.files (world s') !! name = Some d
       /\ Ref.frames d !! Ref.firstPageNo d = Some (Ref.HdrFrame h)
       /\ Ref.chain (Ref.frames d) (firstPage h) [n]
       /\ pageCnt h = 2)
  /\ (forall c,
        reachable name c ->
        exists d h l,
          Ref.files (world (sys c)) !! name = Some d
          /\ Ref.frames d !! Ref.firstPageNo d = Some (Ref.HdrFrame h)
          /\ Ref.chain (Ref.frames d) (firstPage h) l
          /\ pageCnt h = int_wrap (Z.of_nat (List.length l) + 1)
          /\ (Z.of_nat (List.length l) < INT_MAX ->
              pageCnt h = Z.of_nat (List.length l) + 1)).
Proof.
  intros Hint. split.
  - intros s s' Hnone Hrun.
    destruct (createHeapFile_fresh name s s' Hint Hnone Hrun)
      as (d & h & Hf & (Hh & Hc & _) & Hcnt).
    exists d, h, 2. auto.
  - intros c Hreach.
    assert (Hc : consistent name c).
    { induction Hreach as [s s' Hnone Hrun | c c' Hreach IH Hstep].
      - destruct (createHeapFile_fresh name s s' Hint Hnone Hrun)
          as (d & h & Hf & Hd & _).
        exists d, h, [2]. simpl. auto using Forall_nil_2.
      - eapply step_consistent; eauto. }
    destruct Hc as (d & h & l & Hf & (Hh & Hc & _ & _ & Hcnt & _) & _).
    exists d, h, l. repeat split; try assumption.
    intros Hlen. rewrite Hcnt. apply int_wrap_small; [exact Hint |].
    unfold INT_MIN, INT_MAX in *.
    assert (0 <= 2 ^ (int_bits - 1)) by (apply Z.pow_nonneg; lia). lia.
Qed.

End LifecycleFacts.

(** * Further properties of heapfile.C *)

Section GenericMore.
Context `{PF : Platform} `{CO : Collab}.

Ltac logged_call :=
  let H := fresh in
  intros H;
  repeat match type of H with
         | context [let '(_, _) := ?c in _] => destruct c
         end;
  inversion H; subst; reflexivity.

Lemma File_getFirstPage_trace {f s st n s'} :
  File_getFirstPage f s = (st, n, s') -> trace s' = trace s ++ [EvGetFirstPage f].
Proof. unfold File_getFirstPage. logged_call. Qed.

Lemma DB_closeFile_trace {f s st s'} :
  DB_closeFile f s = (st, s') -> trace s' = trace s ++ [EvCloseFile f].
Proof. unfold DB_closeFile. logged_call. Qed.

Lemma status_ne_OK_inv st : status_ne st OK = false -> st = OK.
Proof.
  unfold status_ne. intros H. apply negb_false_iff in H.
  apply bool_decide_eq_true in H. exact H.
Qed.

Lemma status_ne_OK_spec st : status_ne st OK = true -> st <> OK.
Proof.
  unfold status_ne. intros H. apply negb_true_iff in H.
  apply bool_decide_eq_false in H. exact H.
Qed.

(** What HeapFile::getRecord does to the object. *)
Lemma HeapFile_getRecord_effect
    (rid : RID) (this this' : HeapFile) (s s' : Sys) (st : Status)
    (rec : option Rec.t) :
  HeapFile_getRecord rid this s = Ret (st, rec, this', s') ->
  (st = OK ->
   curRec this' = rid /\ curPageNo this' = pageNo rid /\ curPage this' <> None)
  /\ (st <> OK -> curRec this' = curRec this)
  /\ filePtr this' = filePtr this
  /\ headerPage this' = headerPage this
  /\ hdr this' = hdr this
  /\ headerPageNo this' = headerPageNo this
  /\ hdrDirtyFlag this' = hdrDirtyFlag this.
Proof.
  assert (Hread : forall page (t : HeapFile) s0,
             (page <> None -> curPage t = page /\ curPageNo t = pageNo rid) ->
             HeapFile_getRecord_read page rid t s0 = Ret (st, rec, this', s') ->
             (st = OK ->
              curRec this' = rid /\ curPageNo this' = pageNo rid /\ curPage this' <> None)
             /\ (st <> OK -> curRec this' = curRec t)
             /\ filePtr this' = filePtr t
             /\ headerPage this' = headerPage t
             /\ hdr this' = hdr t
             /\ headerPageNo this' = headerPageNo t
             /\ hdrDirtyFlag this' = hdrDirtyFlag t).
  { intros page t s0 Hpos Hrun. unfold HeapFile_getRecord_read, need in Hrun.
    destruct page as [page |]; [| discriminate].
    destruct (Hpos ltac:(discriminate)) as [Hcp Hcn].
    destruct (Page_getRecord page rid s0) as [[st0 rec0] s1].
    destruct (status_ne st0 OK) eqn:Hst0.
    - apply status_ne_OK_spec in Hst0.
      assert (Hres : st = st0 /\ this' = t).
      { destruct (negb (curPageNo t =? pageNo rid));
          [destruct (BufMgr_unPinPage _ _ _ s1) |]; inversion Hrun; subst; auto. }
      destruct Hres as [-> ->]. repeat split; intros; try reflexivity; contradiction.
    - apply status_ne_OK_inv in Hst0. inversion Hrun; subst. simpl.
      repeat split; intros; try reflexivity; try assumption; try contradiction.
      rewrite Hcp. discriminate. }
  intros Hrun. unfold HeapFile_getRecord in Hrun.
  destruct (bool_decide (curPage this <> None) && (curPageNo this =? pageNo rid)) eqn:Hg.
  - apply andb_true_iff in Hg as [_ Hn]. apply Z.eqb_eq in Hn.
    apply (Hread _ _ _ (fun _ => conj eq_refl Hn) Hrun).
  - clear Hg.
    match type of Hrun with
    | context [let '(_, _) := ?c in _] => destruct c as [st0 s0]
    end.
    destruct (status_ne st0 OK) eqn:Hst0.
    { apply status_ne_OK_spec in Hst0. inversion Hrun; subst.
      repeat split; intros; try reflexivity; contradiction. }
    destruct (BufMgr_readPage _ _ s0) as [[st1 page] s1].
    destruct (status_ne st1 OK) eqn:Hst1.
    { apply status_ne_OK_spec in Hst1. inversion Hrun; subst.
      repeat split; intros; try reflexivity; contradiction. }
    apply Hread in Hrun; [exact Hrun |]. intros _. split; reflexivity.
Qed.

(** X1.  HeapFile::getRecord, on every path that returns.  When it returns OK
    the cursor is on the record asked for: curRec is [rid], curPageNo is
    rid.pageNo and there is a current page.  When it returns a failure
    curRec is as it was.  The file pointer and the header side of the object
    are never changed. *)
Theorem getRecord_postcondition
    (rid : RID) (this this' : HeapFile) (s s' : Sys) (st : Status)
    (rec : option Rec.t) :
  HeapFile_getRecord rid this s = Ret (st, rec, this', s') ->
  (st = OK ->
   curRec this' = rid /\ curPageNo this' = pageNo rid /\ curPage this' <> None)
  /\ (st <> OK -> curRec this' = curRec this)
  /\ filePtr this' = filePtr this
  /\ headerPage this' = headerPage this
  /\ hdr this' = hdr this
  /\ headerPageNo this' = headerPageNo this
  /\ hdrDirtyFlag this' = hdrDirtyFlag this.
Proof. exact (HeapFile_getRecord_effect rid this this' s s' st rec). Qed.


(** X2.  After a getRecord that returned OK, a getRecord for a RID of the
    same page makes one call, the page-level getRecord on the current page:
    no page is unpinned or read.  It returns the status and the record of
    that call, and moves curRec only when the status is OK. *)
Theorem getRecord_same_page
    (rid rid2 : RID) (this this' : HeapFile) (s s' s2 : Sys)
    (rec rec2 : option Rec.t) (st2 : Status) (page : PagePtr) :
  HeapFile_getRecord rid this s = Ret (OK, rec, this', s') ->
  pageNo rid2 = pageNo rid ->
  curPage this' = Some page ->
  Page_getRecord page rid2 s' = (st2, rec2, s2) ->
  HeapFile_getRecord rid2 this' s'
  = Ret (st2, rec2, if bool_decide (st2 = OK) then set_curRec this' rid2 else this', s2)
  /\ trace s2 = trace s' ++ [EvGetRecord page rid2].
Proof.
  intros Hrun Hsame Hpage Hget.
  destruct (HeapFile_getRecord_effect _ _ _ _ _ _ _ Hrun) as (Hok & _).
  destruct (Hok eq_refl) as (_ & Hno & _).
  split; [| exact (Page_getRecord_trace Hget)].
  unfold HeapFile_getRecord. rewrite Hpage, Hno, Hsame, Z.eqb_refl. simpl.
  rewrite Hget. unfold status_ne.
  destruct (bool_decide (st2 = OK)) eqn:Hst; simpl.
  - apply bool_decide_eq_true in Hst. subst st2. reflexivity.
  - rewrite Hno, Hsame, Z.eqb_refl. reflexivity.
Qed.

(** X3.  HeapFile::HeapFile.  The members are set exactly when the status
    is OK; then both dirty flags are false, curRec is NULLRID, the current
    page is the page the header names as first, and the calls made were
    openFile, getFirstPage and the two readPage.  On every path the
    constructor only opens and pins: it never unpins a page and never closes
    the file, so a failure after openFile leaves the file open, and a
    failure of the second readPage leaves the header page pinned. *)
Theorem HeapFile_new_postcondition
    (name : string) (s s' : Sys) (st : Status) (o : option HeapFile) :
  HeapFile_new name s = Ret (st, o, s') ->
  (st = OK <-> is_Some o)
  /\ (forall t, o = Some t ->
        hdrDirtyFlag t = false /\ curDirtyFlag t = false /\ curRec t = NULLRID
        /\ curPageNo t = firstPage (hdr t)
        /\ is_Some (curPage t)
        /\ trace s' = trace s ++ [EvOpenFile name; EvGetFirstPage (filePtr t);
                                  EvReadPage (filePtr t) (headerPageNo t);
                                  EvReadPage (filePtr t) (curPageNo t)])
  /\ exists l, trace s' = trace s ++ l /\ Forall acquires l.
Proof.
  intros Hrun. unfold HeapFile_new, need in Hrun.
  destruct (DB_openFile name s) as [[st0 f] s0] eqn:Hopen.
  apply DB_openFile_trace in Hopen.
  destruct (bool_decide (st0 = OK)) eqn:Hst0.
  2:{ apply bool_decide_eq_false in Hst0. inversion Hrun; subst.
      split; [split; [intros; contradiction | intros [? ?]; discriminate] |].
      split; [intros ? ?; discriminate |].
      eexists. split; [exact Hopen |]. repeat constructor. }
  destruct f as [f |]; [| discriminate].
  destruct (File_getFirstPage f s0) as [[st1 hno] s1] eqn:Hfirst.
  apply File_getFirstPage_trace in Hfirst.
  destruct (status_ne st1 OK) eqn:Hst1.
  { apply status_ne_OK_spec in Hst1. inversion Hrun; subst.
    split; [split; [intros; contradiction | intros [? ?]; discriminate] |].
    split; [intros ? ?; discriminate |].
    eexists. split; [rewrite Hfirst, Hopen, <- app_assoc; reflexivity |].
    repeat constructor. }
  destruct hno as [hno |]; [| discriminate].
  destruct (BufMgr_readPage f hno s1) as [[st2 hp] s2] eqn:Hread1.
  apply BufMgr_readPage_trace in Hread1.
  destruct (status_ne st2 OK) eqn:Hst2.
  { apply status_ne_OK_spec in Hst2. inversion Hrun; subst.
    split; [split; [intros; contradiction | intros [? ?]; discriminate] |].
    split; [intros ? ?; discriminate |].
    eexists. split; [rewrite Hread1, Hfirst, Hopen, <- !app_assoc; reflexivity |].
    repeat constructor. }
  destruct hp as [hp |]; [| discriminate].
  destruct (BufMgr_readPage f _ s2) as [[st3 dp] s3] eqn:Hread2.
  apply BufMgr_readPage_trace in Hread2.
  assert (Htr : trace s3 = trace s ++ [EvOpenFile name; EvGetFirstPage f;
                                       EvReadPage f hno;
                                       EvReadPage f (firstPage (hdr_load hp (world s2)))]).
  { rewrite Hread2, Hread1, Hfirst, Hopen, <- !app_assoc. reflexivity. }
  destruct (status_ne st3 OK) eqn:Hst3.
  { apply status_ne_OK_spec in Hst3. inversion Hrun; subst.
    split; [split; [intros; contradiction | intros [? ?]; discriminate] |].
    split; [intros ? ?; discriminate |].
    eexists. split; [exact Htr |]. repeat constructor. }
  inversion Hrun; subst.
  split; [split; [eauto | reflexivity] |].
  split.
  - intros t Ht. injection Ht as <-. simpl.
    repeat split; try reflexivity; [| exact Htr].
    destruct dp; simpl; eauto.
  - eexists. split; [exact Htr |]. repeat constructor.
Qed.

(** X4.  Whatever status endScan returns, the scan has no current page
    afterwards, while curRec and the scan members are kept.  So a second
    endScan returns OK and calls nothing; the destructor then unpins the
    header page and closes the file without unpinning a data page again; and
    scanNext, getRecord and deleteRecord dereference the null curPage. *)
Theorem endScan_detaches
    (this t' : HeapFileScan) (s s' : Sys) (st : Status) :
  HeapFileScan_endScan this s = (st, t', s') ->
  curPage (base t') = None
  /\ scan t' = scan this
  /\ curRec (base t') = curRec (base this)
  /\ HeapFileScan_endScan t' s' = (OK, t', s')
  /\ (forall fuel, HeapFileScan_scanNext (S fuel) t' s' = Undef)
  /\ HeapFileScan_getRecord t' s' = Undef
  /\ HeapFileScan_deleteRecord t' s' = Undef
  /\ trace (HeapFileScan_delete t' s')
     = trace s' ++ [EvUnPinPage (filePtr (base this)) (headerPageNo (base this))
                      (hdrDirtyFlag (base this));
                    EvCloseFile (filePtr (base this))].
Proof.
  intros Hrun. unfold HeapFileScan_endScan in Hrun.
  assert (Hnone : curPage (base t') = None /\ scan t' = scan this
                  /\ curRec (base t') = curRec (base this)
                  /\ filePtr (base t') = filePtr (base this)
                  /\ headerPageNo (base t') = headerPageNo (base this)
                  /\ hdrDirtyFlag (base t') = hdrDirtyFlag (base this)).
  { destruct (curPage (base this)) eqn:Hcur.
    - destruct (BufMgr_unPinPage _ _ _ s). inversion Hrun; subst. simpl. repeat split.
    - inversion Hrun; subst. repeat split. exact Hcur. }
  destruct Hnone as (Hnone & Hscan & Hrec & Hf & Hno & Hd).
  split; [exact Hnone |]. split; [exact Hscan |]. split; [exact Hrec |].
  assert (Hend : HeapFileScan_endScan t' s' = (OK, t', s')).
  { unfold HeapFileScan_endScan. rewrite Hnone. reflexivity. }
  split; [exact Hend |].
  split; [intros fuel; unfold HeapFileScan_scanNext; simpl; rewrite Hnone; reflexivity |].
  split; [unfold HeapFileScan_getRecord; rewrite Hnone; reflexivity |].
  split; [unfold HeapFileScan_deleteRecord; rewrite Hnone; reflexivity |].
  unfold HeapFileScan_delete. rewrite Hend. unfold HeapFile_delete. rewrite Hnone.
  rewrite Hf, Hno, Hd.
  destruct (BufMgr_unPinPage _ _ _ s') as [st1 s1] eqn:Hunpin. simpl.
  destruct (DB_closeFile (filePtr (base this)) s1) as [st2 s2] eqn:Hclose. simpl.
  rewrite (DB_closeFile_trace Hclose), (BufMgr_unPinPage_trace Hunpin), <- app_assoc.
  reflexivity.
Qed.


Lemma HeapFile_delete_trace (this : HeapFile) (s : Sys) :
  trace (HeapFile_delete this s)
  = trace s
    ++ match curPage this with
       | Some _ => [EvUnPinPage (filePtr this) (curPageNo this) (curDirtyFlag this)]
       | None => []
       end
    ++ [EvUnPinPage (filePtr this) (headerPageNo this) (hdrDirtyFlag this);
        EvCloseFile (filePtr this)].
Proof.
  unfold HeapFile_delete.
  destruct (curPage this).
  - destruct (BufMgr_unPinPage (filePtr this) (curPageNo this) (curDirtyFlag this) s)
      as [st0 s0] eqn:H0. simpl.
    destruct (BufMgr_unPinPage (filePtr this) (headerPageNo this) (hdrDirtyFlag this) s0)
      as [st1 s1] eqn:H1. simpl.
    destruct (DB_closeFile (filePtr this) s1) as [st2 s2] eqn:H2. simpl.
    rewrite (DB_closeFile_trace H2), (BufMgr_unPinPage_trace H1),
      (BufMgr_unPinPage_trace H0), <- !app_assoc. reflexivity.
  - destruct (BufMgr_unPinPage (filePtr this) (headerPageNo this) (hdrDirtyFlag this) s)
      as [st1 s1] eqn:H1. simpl.
    destruct (DB_closeFile (filePtr this) s1) as [st2 s2] eqn:H2. simpl.
    rewrite (DB_closeFile_trace H2), (BufMgr_unPinPage_trace H1), <- !app_assoc.
    reflexivity.
Qed.

(** X5.  The destructors.  Closing a scan or an insert scan unpins the
    current page, if there is one, once; then the header page, with
    hdrDirtyFlag; then closes the file; whatever statuses come back.  A scan
    unpins its page with curDirtyFlag, an insert scan always as dirty. *)
Theorem closing_unpins_once :
  (forall (this : HeapFileScan) (s : Sys),
     trace (HeapFileScan_delete this s)
     = trace s
       ++ match curPage (base this) with
          | Some _ => [EvUnPinPage (filePtr (base this)) (curPageNo (base this))
                         (curDirtyFlag (base this))]
          | None => []
          end
       ++ [EvUnPinPage (filePtr (base this)) (headerPageNo (base this))
             (hdrDirtyFlag (base this));
           EvCloseFile (filePtr (base this))])
  /\ (forall (this : HeapFile) (s : Sys),
        trace (InsertFileScan_delete this s)
        = trace s
          ++ match curPage this with
             | Some _ => [EvUnPinPage (filePtr this) (curPageNo this) true]
             | None => []
             end
          ++ [EvUnPinPage (filePtr this) (headerPageNo this) (hdrDirtyFlag this);
              EvCloseFile (filePtr this)]).
Proof.
  split.
  - intros this s. unfold HeapFileScan_delete, HeapFileScan_endScan.
    destruct (curPage (base this)) eqn:Hcur.
    + destruct (BufMgr_unPinPage _ _ _ s) as [st0 s0] eqn:H0.
      rewrite HeapFile_delete_trace. simpl.
      rewrite (BufMgr_unPinPage_trace H0), <- !app_assoc. reflexivity.
    + rewrite HeapFile_delete_trace, Hcur. reflexivity.
  - intros this s. unfold InsertFileScan_delete.
    destruct (curPage this) eqn:Hcur.
    + destruct (BufMgr_unPinPage _ _ _ s) as [st0 s0] eqn:H0.
      rewrite HeapFile_delete_trace. simpl.
      rewrite (BufMgr_unPinPage_trace H0), <- !app_assoc. reflexivity.
    + rewrite HeapFile_delete_trace, Hcur. reflexivity.
Qed.

Ltac settle :=
  repeat split; intros; try reflexivity; try contradiction; try discriminate;
  eauto;
  try (left; repeat split; eauto; fail);
  try (right; repeat split; eauto; fail).

(** What InsertFileScan::insertRecord does to the object. *)
Lemma InsertFileScan_insertRecord_effect
    (rec : Rec.t) (this this' : HeapFile) (s s' : Sys) (st : Status)
    (rid : option RID) :
  InsertFileScan_insertRecord rec this s = Ret (st, rid, this', s') ->
  (st = OK ->
   is_Some rid
   /\ recCnt (hdr this') = int_wrap (recCnt (hdr this) + 1)
   /\ hdrDirtyFlag this' = true /\ curDirtyFlag this' = true)
  /\ (st <> OK -> rid = None /\ recCnt (hdr this') = recCnt (hdr this))
  /\ fileName (hdr this') = fileName (hdr this)
  /\ firstPage (hdr this') = firstPage (hdr this)
  /\ filePtr this' = filePtr this
  /\ headerPage this' = headerPage this
  /\ headerPageNo this' = headerPageNo this
  /\ curRec this' = curRec this
  /\ ((pageCnt (hdr this') = pageCnt (hdr this)
       /\ lastPage (hdr this') = lastPage (hdr this)
       /\ curPage this' = curPage this
       /\ curPageNo this' = curPageNo this)
      \/ (pageCnt (hdr this') = int_wrap (pageCnt (hdr this) + 1)
          /\ lastPage (hdr this') = curPageNo this'
          /\ is_Some (curPage this')
          /\ hdrDirtyFlag this' = true)).
Proof.
  intros Hrun. unfold InsertFileScan_insertRecord, need in Hrun.
  destruct (uint_wrap (Rec.length rec) >? uint_wrap (PAGESIZE - DPFIXED)).
  { inversion Hrun; subst.
    settle. }
  destruct (curPage this) as [page |] eqn:Hcur; [| discriminate].
  destruct (Page_insertRecord page rec s) as [[st0 rid0] s0].
  destruct (bool_decide (st0 = OK)) eqn:Hst0.
  { unfold insertRecord_done, need in Hrun.
    destruct rid0 as [rid0 |]; [| discriminate].
    inversion Hrun; subst. simpl.
    settle. }
  apply bool_decide_eq_false in Hst0.
  destruct (bool_decide (st0 = NOSPACE)).
  2:{ inversion Hrun; subst.
      settle. }
  destruct (BufMgr_allocPage (filePtr this) s0) as [[[st1 n] q] s1].
  destruct (status_ne st1 OK) eqn:Hst1.
  { apply status_ne_OK_spec in Hst1. inversion Hrun; subst.
    settle. }
  destruct q as [q |]; [| discriminate].
  destruct n as [n |]; [| discriminate].
  destruct (Page_setNextPage page n _) as [st2 s2].
  destruct (status_ne st2 OK) eqn:Hst2.
  { apply status_ne_OK_spec in Hst2. inversion Hrun; subst.
    settle. }
  destruct (BufMgr_unPinPage (filePtr this) (curPageNo this) true s2) as [st3 s3].
  destruct (status_ne st3 OK) eqn:Hst3.
  { apply status_ne_OK_spec in Hst3. inversion Hrun; subst.
    settle. }
  simpl in Hrun.
  match type of Hrun with
  | context [Page_insertRecord q rec ?s4] =>
      destruct (Page_insertRecord q rec s4) as [[st4 rid4] s5]
  end.
  destruct (status_ne st4 OK) eqn:Hst4.
  { apply status_ne_OK_spec in Hst4. inversion Hrun; subst. simpl.
    settle. }
  unfold insertRecord_done, need in Hrun.
  destruct (stored rid4 rid0) as [rid5 |]; [| discriminate].
  inversion Hrun; subst. simpl.
  settle.
Qed.

(** X6.  InsertFileScan::insertRecord, on every path that returns.  Exactly
    when OK is returned a RID is given, the record count is one more (as an
    int) and both dirty flags are set; on a failure no RID is given and the
    count is as it was.  fileName, firstPage, curRec, the file pointer and
    the header handle are never changed.  Either pageCnt, lastPage and the
    current page are as before, or pageCnt is one more and lastPage is the
    new current page. *)
Theorem insertRecord_postcondition
    (rec : Rec.t) (this this' : HeapFile) (s s' : Sys) (st : Status)
    (rid : option RID) :
  InsertFileScan_insertRecord rec this s = Ret (st, rid, this', s') ->
  (st = OK ->
   is_Some rid
   /\ recCnt (hdr this') = int_wrap (recCnt (hdr this) + 1)
   /\ hdrDirtyFlag this' = true /\ curDirtyFlag this' = true)
  /\ (st <> OK -> rid = None /\ recCnt (hdr this') = recCnt (hdr this))
  /\ fileName (hdr this') = fileName (hdr this)
  /\ firstPage (hdr this') = firstPage (hdr this)
  /\ filePtr this' = filePtr this
  /\ headerPage this' = headerPage this
  /\ headerPageNo this' = headerPageNo this
  /\ curRec this' = curRec this
  /\ ((pageCnt (hdr this') = pageCnt (hdr this)
       /\ lastPage (hdr this') = lastPage (hdr this)
       /\ curPage this' = curPage this
       /\ curPageNo this' = curPageNo this)
      \/ (pageCnt (hdr this') = int_wrap (pageCnt (hdr this) + 1)
          /\ lastPage (hdr this') = curPageNo this'
          /\ is_Some (curPage this')
          /\ hdrDirtyFlag this' = true)).
Proof. exact (InsertFileScan_insertRecord_effect rec this this' s s' st rid). Qed.


Lemma scanNext_loop_OK fuel :
  forall nextRid rec (this this' : HeapFileScan) (s s' : Sys) (o : option RID),
    scanNext_loop fuel nextRid rec this s = Ret (OK, o, this', s') ->
    exists rid page s0 rec',
      o = Some rid
      /\ curRec (base this') = rid
      /\ curPage (base this') = Some page
      /\ scan this' = scan this
      /\ Page_getRecord page rid s0 = (OK, rec', s')
      /\ (forall r, rec' = Some r -> HeapFileScan_matchRec this r = true).
Proof.
  induction fuel as [| fuel IH]; intros nextRid rec this this' s s' o Hrun;
    [discriminate |].
  simpl in Hrun. unfold need in Hrun.
  destruct (curPage (base this)) as [page |] eqn:Hcur; [| discriminate].
  match type of Hrun with
  | context [let '(_, _) := ?c in _] => destruct c as [[st0 rid0] s0]
  end.
  destruct (bool_decide (st0 = NORECORDS) || bool_decide (st0 = ENDOFPAGE)).
  - destruct (BufMgr_unPinPage _ _ _ s0) as [st1 s1].
    destruct (status_ne st1 OK) eqn:Hst1.
    { apply status_ne_OK_spec in Hst1. inversion Hrun; subst. contradiction. }
    destruct (Page_getNextPage page s1) as [[st2 npn] s2].
    destruct (status_ne st2 OK) eqn:Hst2.
    { apply status_ne_OK_spec in Hst2. inversion Hrun; subst. contradiction. }
    destruct npn as [npn |]; [| discriminate].
    destruct (npn =? -1); [discriminate |].
    destruct (BufMgr_readPage _ npn s2) as [[st3 pg] s3].
    destruct (status_ne st3 OK) eqn:Hst3.
    { apply status_ne_OK_spec in Hst3. inversion Hrun; subst. contradiction. }
    apply IH in Hrun as (rid & page' & s4 & rec' & Ho & Hrec & Hpage & Hscan & Hget & Hm).
    exists rid, page', s4, rec'. repeat split; assumption.
  - destruct (status_ne st0 OK) eqn:Hst0.
    { apply status_ne_OK_spec in Hst0. inversion Hrun; subst. contradiction. }
    destruct (stored rid0 nextRid) as [rid |]; [| discriminate].
    destruct (Page_getRecord page rid s0) as [[st1 rec1] s1] eqn:Hget.
    destruct (status_ne st1 OK) eqn:Hst1.
    { apply status_ne_OK_spec in Hst1. inversion Hrun; subst. contradiction. }
    apply status_ne_OK_inv in Hst1. subst st1.
    destruct (Scan.filter (scan this)) as [flt |] eqn:Hflt.
    + destruct (stored rec1 rec) as [r1 |] eqn:Hr1; [| discriminate]. simpl in Hrun.
      destruct (HeapFileScan_matchRec this r1) eqn:Hmatch.
      * inversion Hrun; subst. exists rid, page, s0, rec1.
        repeat split; try assumption.
        intros r ->. simpl in Hr1. injection Hr1 as ->. exact Hmatch.
      * apply IH in Hrun
          as (rid' & page' & s4 & rec' & Ho & Hrec & Hpage & Hscan & Hget' & Hm).
        exists rid', page', s4, rec'. repeat split; assumption.
    + simpl in Hrun. inversion Hrun; subst. exists rid, page, s0, rec1.
      repeat split; try assumption.
      intros r _. unfold HeapFileScan_matchRec. rewrite Hflt. reflexivity.
Qed.

(** X7.  When scanNext returns OK it gives a RID; curRec is that RID; the
    scan members are unchanged; and its last call was the getRecord of that
    RID on the current page, which returned OK with a record that matchRec
    accepts. *)
Theorem scanNext_returns_match
    (fuel : nat) (this this' : HeapFileScan) (s s' : Sys) (o : option RID) :
  HeapFileScan_scanNext fuel this s = Ret (OK, o, this', s') ->
  exists rid page s0 rec',
    o = Some rid
    /\ curRec (base this') = rid
    /\ curPage (base this') = Some page
    /\ scan this' = scan this
    /\ Page_getRecord page rid s0 = (OK, rec', s')
    /\ (forall r, rec' = Some r -> HeapFileScan_matchRec this r = true).
Proof. apply scanNext_loop_OK. Qed.

(** scanNext leaves the header side of the object alone. *)
Lemma scanNext_loop_header fuel :
  forall nextRid rec (this this' : HeapFileScan) (s s' : Sys) st (o : option RID),
    scanNext_loop fuel nextRid rec this s = Ret (st, o, this', s') ->
    filePtr (base this') = filePtr (base this)
    /\ headerPage (base this') = headerPage (base this)
    /\ hdr (base this') = hdr (base this)
    /\ headerPageNo (base this') = headerPageNo (base this)
    /\ hdrDirtyFlag (base this') = hdrDirtyFlag (base this)
    /\ scan this' = scan this.
Proof.
  induction fuel as [| fuel IH]; intros nextRid rec this this' s s' st o Hrun;
    [discriminate |].
  simpl in Hrun. unfold need in Hrun.
  destruct (curPage (base this)) as [page |] eqn:Hcur; [| discriminate].
  match type of Hrun with
  | context [let '(_, _) := ?c in _] => destruct c as [[st0 rid0] s0]
  end.
  destruct (bool_decide (st0 = NORECORDS) || bool_decide (st0 = ENDOFPAGE)).
  - destruct (BufMgr_unPinPage _ _ _ s0) as [st1 s1].
    destruct (status_ne st1 OK); [inversion Hrun; subst; repeat split |].
    destruct (Page_getNextPage page s1) as [[st2 npn] s2].
    destruct (status_ne st2 OK); [inversion Hrun; subst; repeat split |].
    destruct npn as [npn |]; [| discriminate].
    destruct (npn =? -1); [inversion Hrun; subst; repeat split |].
    destruct (BufMgr_readPage _ npn s2) as [[st3 pg] s3].
    destruct (status_ne st3 OK); [inversion Hrun; subst; repeat split |].
    apply IH in Hrun. exact Hrun.
  - destruct (status_ne st0 OK); [inversion Hrun; subst; repeat split |].
    destruct (stored rid0 nextRid) as [rid |]; [| discriminate].
    destruct (Page_getRecord page rid s0) as [[st1 rec1] s1].
    destruct (status_ne st1 OK); [inversion Hrun; subst; repeat split |].
    match type of Hrun with
    | context [match ?c with Some _ => _ | None => Undef end] => destruct c as [[|] |]
    end; [| | discriminate].
    + inversion Hrun; subst. repeat split.
    + apply IH in Hrun. exact Hrun.
Qed.

(** X8.  HeapFileScan::resetScan.  The scan members and the header side are
    never changed.  When it returns OK the scan is at the mark: curPageNo is
    markedPageNo and curRec is markedRec.  When the marked page is another
    page, an OK means the current page, if any, was unpinned with its dirty
    flag, then the marked page read, and the dirty flag cleared.  When the
    marked page is the current page it returns OK, calls nothing and keeps
    the page and its dirty flag. *)
Theorem resetScan_postcondition
    (this t' : HeapFileScan) (s s' : Sys) (st : Status) :
  HeapFileScan_resetScan this s = (st, t', s') ->
  scan t' = scan this
  /\ hdr (base t') = hdr (base this)
  /\ hdrDirtyFlag (base t') = hdrDirtyFlag (base this)
  /\ (st = OK ->
      curPageNo (base t') = Scan.markedPageNo (scan this)
      /\ curRec (base t') = Scan.markedRec (scan this))
  /\ (st = OK -> Scan.markedPageNo (scan this) <> curPageNo (base this) ->
      curDirtyFlag (base t') = false
      /\ trace s'
         = trace s
           ++ match curPage (base this) with
              | Some _ => [EvUnPinPage (filePtr (base this)) (curPageNo (base this))
                             (curDirtyFlag (base this))]
              | None => []
              end
           ++ [EvReadPage (filePtr (base this)) (Scan.markedPageNo (scan this))])
  /\ (Scan.markedPageNo (scan this) = curPageNo (base this) ->
      st = OK /\ s' = s /\ curPage (base t') = curPage (base this)
      /\ curDirtyFlag (base t') = curDirtyFlag (base this)).
Proof.
  intros Hrun. unfold HeapFileScan_resetScan in Hrun.
  destruct (Scan.markedPageNo (scan this) =? curPageNo (base this)) eqn:Hm; simpl in Hrun.
  - apply Z.eqb_eq in Hm. inversion Hrun; subst. simpl.
    repeat split; try reflexivity; try (symmetry; exact Hm); intros; contradiction.
  - apply Z.eqb_neq in Hm.
    assert (Hpre : exists st0 s0,
               match curPage (base this) with
               | Some _ => BufMgr_unPinPage (filePtr (base this)) (curPageNo (base this))
                             (curDirtyFlag (base this)) s
               | None => (OK, s)
               end = (st0, s0)
               /\ (st0 = OK ->
                   trace s0 = trace s
                     ++ match curPage (base this) with
                        | Some _ => [EvUnPinPage (filePtr (base this))
                                       (curPageNo (base this)) (curDirtyFlag (base this))]
                        | None => []
                        end)).
    { destruct (curPage (base this)).
      - destruct (BufMgr_unPinPage _ _ _ s) as [st0 s0] eqn:Hunpin.
        exists st0, s0. split; [reflexivity |]. intros _.
        apply (BufMgr_unPinPage_trace Hunpin).
      - exists OK, s. split; [reflexivity |]. intros _. rewrite app_nil_r. reflexivity. }
    destruct Hpre as (st0 & s0 & Hpre & Htr0). rewrite Hpre in Hrun.
    destruct (status_ne st0 OK) eqn:Hst0.
    { apply status_ne_OK_spec in Hst0. inversion Hrun; subst.
      repeat split; intros; try reflexivity; contradiction. }
    apply status_ne_OK_inv in Hst0. subst st0. simpl in Hrun.
    destruct (BufMgr_readPage _ _ s0) as [[st1 page] s1] eqn:Hread.
    apply BufMgr_readPage_trace in Hread.
    destruct (status_ne st1 OK) eqn:Hst1.
    { apply status_ne_OK_spec in Hst1. inversion Hrun; subst.
      repeat split; intros; try reflexivity; contradiction. }
    inversion Hrun; subst. simpl.
    repeat split; intros; try reflexivity; try contradiction.
    rewrite Hread, Htr0, <- app_assoc by reflexivity. reflexivity.
Qed.

End GenericMore.

Section MatchFacts.
Context `{PF : Platform} `{CO : Collab}.

Lemma INT_bounds : 0 < sizeof_int -> INT_MIN < 0 /\ 0 <= INT_MAX.
Proof.
  intros Hs. unfold INT_MIN, INT_MAX.
  assert (0 < 2 ^ (int_bits - 1)) by (apply Z.pow_pos_nonneg; unfold int_bits; lia).
  lia.
Qed.

(** X9.  INTEGER filter of sizeof(int) bytes on a field that lies within
    the record: when the difference of attribute and filter value is in the
    range of int, matchRec compares the two ints as the operator says. *)
Theorem matchRec_integer_exact
    (b : HeapFile) (m : Scan.members) (f : list byte) (rec : Rec.t) :
  0 < sizeof_int ->
  Scan.filter m = Some f ->
  Scan.type m = INTEGER ->
  0 <= Scan.offset m -> Scan.length m = sizeof_int ->
  Scan.offset m + Scan.length m <= INT_MAX ->
  Scan.offset m + Scan.length m <= Rec.length rec ->
  let iattr := int_of_bytes (bytes_at (Rec.data rec) (Scan.offset m) (Scan.length m)) in
  let ifltr := int_of_bytes (bytes_at f 0 (Scan.length m)) in
  INT_MIN <= iattr - ifltr <= INT_MAX ->
  HeapFileScan_matchRec (mkScan b m) rec
  = match Scan.op m with
    | LT => iattr <? ifltr
    | LTE => iattr <=? ifltr
    | EQ => iattr =? ifltr
    | GTE => iattr >=? ifltr
    | GT => iattr >? ifltr
    | NE => negb (iattr =? ifltr)
    | OperatorOther _ => false
    end.
Proof.
  intros Hs Hf Hty Hoff Hlen Hsum Hwin iattr ifltr Hdiff.
  destruct (INT_bounds Hs) as [Hmin Hmax].
  unfold HeapFileScan_matchRec. simpl. rewrite Hf, Hty.
  rewrite (int_wrap_small (Scan.offset m + Scan.length m)) by (try exact Hs; lia).
  rewrite (int_wrap_small (Scan.offset m + Scan.length m - 1)) by (try exact Hs; lia).
  destruct (Scan.offset m + Scan.length m - 1 >=? Rec.length rec) eqn:Hge.
  { rewrite Z.geb_leb in Hge. apply Z.leb_le in Hge. lia. }
  fold iattr ifltr. rewrite (int_wrap_small (iattr - ifltr)) by (try exact Hs; lia).
  unfold fclass_of_int.
  destruct (Scan.op m); try reflexivity;
    destruct (Z.ltb_spec (iattr - ifltr) 0); destruct (Z.eqb_spec (iattr - ifltr) 0);
    simpl; symmetry;
    rewrite ?negb_true_iff, ?negb_false_iff, ?Z.gtb_ltb, ?Z.geb_leb;
    first [apply Z.ltb_lt | apply Z.ltb_ge | apply Z.leb_le | apply Z.leb_gt
          | apply Z.eqb_eq | apply Z.eqb_neq]; lia.
Qed.

(** X10.  For a filter that is set with an offset and a length that
    startScan accepts (offset at least 0, length at least 1) and whose sum
    is in the range of int, so that the test of the field against the length
    of the record does not overflow: LTE accepts what LT or EQ accepts, GTE
    what GT or EQ accepts, nothing is accepted by both LT and GT; NE accepts
    what EQ rejects when the field lies within the record; a record too
    short for the field is accepted under no operator, NE included. *)
Theorem matchRec_operators
    (b : HeapFile) (off len : Z) (ty : Datatype) (f : list byte)
    (mp : Z) (mr : RID) (rec : Rec.t) :
  0 < sizeof_int ->
  0 <= off -> 1 <= len -> off + len <= INT_MAX ->
  let m o := HeapFileScan_matchRec (mkScan b (Scan.mk off len ty (Some f) o mp mr)) rec in
  m LTE = m LT || m EQ
  /\ m GTE = m GT || m EQ
  /\ m LT && m GT = false
  /\ m NE = (if off + len - 1 >=? Rec.length rec then false else negb (m EQ))
  /\ (forall o, (off + len - 1 >=? Rec.length rec) && m o = false).
Proof.
  intros Hint Hoff Hlen Hsum m. subst m.
  pose proof (INT_bounds Hint) as [Hmin Hmax].
  assert (Hguard : int_wrap (int_wrap (off + len) - 1) = off + len - 1).
  { rewrite (int_wrap_small (off + len)) by (exact Hint || lia).
    apply int_wrap_small; [exact Hint | lia]. }
  unfold HeapFileScan_matchRec. simpl. rewrite Hguard.
  destruct (off + len - 1 >=? Rec.length rec).
  { repeat split; intros; reflexivity. }
  match goal with
  | |- context [flt0 ?d] => generalize d
  end.
  intros d. repeat split; try (intros; reflexivity); destruct d; reflexivity.
Qed.

Lemma strncmp_same_prefix n : forall a b : list byte,
  take n a = take n b -> strncmp a b n = 0.
Proof.
  induction n as [| n IH]; intros a b Heq; [reflexivity |].
  simpl.
  assert (Hhd : hd x00 a = hd x00 b /\ take n (tl a) = take n (tl b)).
  { destruct a as [| x a], b as [| y b]; simpl in *; try discriminate.
    - split; reflexivity.
    - injection Heq as -> Heq. split; [reflexivity | exact Heq]. }
  destruct Hhd as [-> Htl]. rewrite Z.eqb_refl. simpl.
  destruct (Z.of_N (Byte.to_N (hd x00 b)) =? 0); [reflexivity |].
  apply IH. exact Htl.
Qed.

Lemma strncmp_same_to_nul n : forall p r1 r2 : list byte,
  strncmp (p ++ x00 :: r1) (p ++ x00 :: r2) n = 0.
Proof.
  induction n as [| n IH]; intros p r1 r2; [reflexivity |].
  destruct p as [| x p]; simpl.
  - reflexivity.
  - rewrite Z.eqb_refl. simpl.
    destruct (Z.of_N (Byte.to_N x) =? 0); [reflexivity | apply IH].
Qed.

(** X11.  STRING filter on a field within the record: when the field and
    the filter hold the same [length] characters, or the same characters up
    to and including a NUL, strncmp is 0: EQ, LTE and GTE accept the record,
    LT, GT and NE reject it, whatever follows the NUL. *)
Theorem matchRec_string_equal
    (b : HeapFile) (m : Scan.members) (f : list byte) (rec : Rec.t) :
  Scan.filter m = Some f ->
  Scan.type m = STRING ->
  (int_wrap (int_wrap (Scan.offset m + Scan.length m) - 1) >=? Rec.length rec) = false ->
  let attr := drop (Z.to_nat (Scan.offset m)) (Rec.data rec) in
  (take (Z.to_nat (Scan.length m)) attr = take (Z.to_nat (Scan.length m)) f
   \/ exists p r1 r2, attr = p ++ x00 :: r1 /\ f = p ++ x00 :: r2) ->
  HeapFileScan_matchRec (mkScan b m) rec
  = match Scan.op m with
    | LTE | EQ | GTE => true
    | _ => false
    end.
Proof.
  intros Hf Hty Hwin attr Hsame.
  unfold HeapFileScan_matchRec. simpl. rewrite Hf, Hty, Hwin. fold attr.
  assert (Hcmp : strncmp attr f (Z.to_nat (Scan.length m)) = 0).
  { destruct Hsame as [Heq | (p & r1 & r2 & -> & ->)].
    - apply strncmp_same_prefix. exact Heq.
    - apply strncmp_same_to_nul. }
  rewrite Hcmp. destruct (Scan.op m); reflexivity.
Qed.

End MatchFacts.

Section RefMore.
Context `{PF : Platform}.
#[local] Existing Instance Ref.collab.
Implicit Types name : string.

Tactic Notation "call" hyp(H) "gives" ident(E) "as" simple_intropattern(p) :=
  match type of H with
  | context [let '(_, _) := ?c in _] => destruct c as p eqn:E
  end.

(** What HeapFile::HeapFile leaves on the reference collaborators when it
    succeeds: the files as they were, and one pin more on the header page and
    on the first data page. *)
Lemma ref_HeapFile_new_run name (s s' : Sys) (t : HeapFile) :
  HeapFile_new name s = Ret (OK, Some t, s') ->
  filePtr t = name
  /\ curPage t = Some (name, curPageNo t)
  /\ headerPage t = (name, headerPageNo t)
  /\ world s'
     = Ref.set_pins (world s)
         (Ref.pin (name, curPageNo t)
            (Ref.pin (name, headerPageNo t) (Ref.pins (world s)))).
Proof.
  intros Hrun. unfold HeapFile_new, need in Hrun.
  destruct (DB_openFile name s) as [[st0 f] s0] eqn:Hopen.
  destruct (bool_decide (st0 = OK)) eqn:Hst0; [| inversion Hrun].
  assert (Hs0 : f = Some name /\ world s0 = world s).
  { unfold DB_openFile in Hopen. simpl in Hopen. unfold Ref.openFile in Hopen.
    apply bool_decide_eq_true in Hst0. subst st0.
    destruct (Ref.files (world s) !! name); inversion Hopen; subst. split; reflexivity. }
  destruct Hs0 as [-> Hw0].
  call Hrun gives Hfirst as [[st1 hno] s1].
  assert (Hw1 : world s1 = world s0).
  { unfold File_getFirstPage in Hfirst. simpl in Hfirst. unfold Ref.getFirstPage in Hfirst.
    destruct (Ref.files (world s0) !! name); inversion Hfirst; subst; reflexivity. }
  destruct (status_ne st1 OK); [inversion Hrun |].
  destruct hno as [hno |]; [| discriminate].
  call Hrun gives Hread1 as [[st2 hp] s2].
  destruct (status_ne st2 OK) eqn:Hst2; [inversion Hrun |].
  apply status_ne_OK_inv in Hst2. subst st2.
  apply ref_readPage_run in Hread1 as [(_ & -> & _ & Hw2) | (Hne & _)];
    [| contradiction].
  call Hrun gives Hread2 as [[st3 dp] s3].
  destruct (status_ne st3 OK) eqn:Hst3; [inversion Hrun |].
  apply status_ne_OK_inv in Hst3. subst st3.
  apply ref_readPage_run in Hread2 as [(_ & -> & _ & Hw3) | (Hne & _)];
    [| contradiction].
  inversion Hrun; subst. simpl.
  repeat split. rewrite Hw3, Hw2, Hw1, Hw0. reflexivity.
Qed.

Lemma ref_HeapFile_delete_run (t : HeapFile) (s : Sys) (P : gmap (string * Z) positive) :
  curPage t = Some (filePtr t, curPageNo t) ->
  Ref.pins (world s)
  = Ref.pin (filePtr t, curPageNo t) (Ref.pin (filePtr t, headerPageNo t) P) ->
  world (HeapFile_delete t s) = Ref.set_pins (world s) P.
Proof.
  intros Hcur Hpins. unfold HeapFile_delete. rewrite Hcur.
  rewrite (ref_unPinPage_ok (filePtr t) (curPageNo t))
    by (rewrite Hpins; apply pin_is_Some).
  cbn [snd world]. rewrite Hpins, unpin_pin.
  rewrite (ref_unPinPage_ok (filePtr t) (headerPageNo t))
    by (cbn [world Ref.set_pins Ref.pins]; apply pin_is_Some).
  cbn [snd world Ref.set_pins Ref.pins Ref.files Ref.numBufs]. rewrite unpin_pin.
  reflexivity.
Qed.

(** X12.  On the reference collaborators, constructing a HeapFile, a
    HeapFileScan or an InsertFileScan and destroying it at once leaves the
    database as it was: same files, same pins. *)
Theorem open_close_round_trip name (s : Sys) :
  (forall s' t,
     HeapFile_new name s = Ret (OK, Some t, s') ->
     world (HeapFile_delete t s') = world s)
  /\ (forall junk s' t,
        HeapFileScan_new name junk s = Ret (OK, Some t, s') ->
        world (HeapFileScan_delete t s') = world s)
  /\ (forall s' t,
        InsertFileScan_new name s = Ret (OK, Some t, s') ->
        world (InsertFileScan_delete t s') = world s).
Proof.
  assert (Hw : forall w : Ref.World, Ref.set_pins w (Ref.pins w) = w)
    by (intros []; reflexivity).
  assert (Hbase : forall s' t,
             HeapFile_new name s = Ret (OK, Some t, s') ->
             world (HeapFile_delete t s') = world s).
  { intros s' t Hrun. apply ref_HeapFile_new_run in Hrun as (Hf & Hcur & Hhp & Hws).
    rewrite (ref_HeapFile_delete_run t s' (Ref.pins (world s))).
    - rewrite Hws. destruct (world s). reflexivity.
    - rewrite Hf. exact Hcur.
    - rewrite Hws, Hf. reflexivity. }
  split; [exact Hbase |]. split.
  - intros junk s' t Hrun. unfold HeapFileScan_new in Hrun.
    destruct (HeapFile_new name s) as [[[st0 [hf |]] s0] | |] eqn:Hnew;
      inversion Hrun; subst.
    pose proof (ref_HeapFile_new_run _ _ _ _ Hnew) as (Hf & Hcur & Hhp & Hws).
    unfold HeapFileScan_delete, HeapFileScan_endScan. cbn [base].
    rewrite Hcur.
    rewrite (ref_unPinPage_ok (filePtr hf) (curPageNo hf))
      by (rewrite Hws, Hf; apply pin_is_Some).
    cbn [base set_base]. unfold HeapFile_delete. cbn [curPage set_curDirtyFlag set_curPageNo set_curPage filePtr headerPageNo hdrDirtyFlag].
    rewrite (ref_unPinPage_ok (filePtr hf) (headerPageNo hf))
      by (cbn [world Ref.set_pins Ref.pins]; rewrite Hws, Hf; cbn [Ref.set_pins Ref.pins];
          rewrite unpin_pin; apply pin_is_Some).
    cbn [snd world Ref.set_pins Ref.pins Ref.files Ref.numBufs].
    rewrite Hws, Hf. cbn [Ref.set_pins Ref.pins Ref.files Ref.numBufs].
    rewrite !unpin_pin. destruct (world s). reflexivity.
  - intros s' t Hrun. unfold InsertFileScan_new in Hrun.
    pose proof (ref_HeapFile_new_run _ _ _ _ Hrun) as (Hf & Hcur & Hhp & Hws).
    unfold InsertFileScan_delete. rewrite Hcur.
    rewrite (ref_unPinPage_ok (filePtr t) (curPageNo t))
      by (rewrite Hws, Hf; apply pin_is_Some).
    unfold HeapFile_delete. cbn [curPage set_curPageNo set_curPage filePtr headerPageNo hdrDirtyFlag].
    rewrite (ref_unPinPage_ok (filePtr t) (headerPageNo t))
      by (cbn [world Ref.set_pins Ref.pins]; rewrite Hws, Hf; cbn [Ref.set_pins Ref.pins];
          rewrite unpin_pin; apply pin_is_Some).
    cbn [snd world Ref.set_pins Ref.pins Ref.files Ref.numBufs].
    rewrite Hws, Hf. cbn [Ref.set_pins Ref.pins Ref.files Ref.numBufs].
    rewrite !unpin_pin. destruct (world s). reflexivity.
Qed.


(** *** Frames under the calls of the reference collaborators *)

Lemma frame_at_set_frame_eq (w : Ref.World) (p : string * Z) fr :
  is_Some (Ref.frame_at w p) -> Ref.frame_at (Ref.set_frame w p fr) p = Some fr.
Proof.
  intros [fr0 Hfr]. destruct (frame_at_Some _ _ _ Hfr) as (d & Hd & Hk).
  destruct p as [f k]. simpl in *.
  rewrite (set_frame_hit _ _ _ _ _ Hd ltac:(eauto)).
  unfold Ref.frame_at. simpl. rewrite lookup_insert_eq. simpl. apply lookup_insert_eq.
Qed.

Lemma frame_at_set_frame_ne (w : Ref.World) (p p' : string * Z) fr :
  p <> p' -> Ref.frame_at (Ref.set_frame w p fr) p' = Ref.frame_at w p'.
Proof.
  intros Hne. unfold Ref.set_frame.
  destruct (Ref.files w !! p.1) as [d |] eqn:Hd; [| reflexivity].
  destruct (Ref.frames d !! p.2) eqn:Hk; [| reflexivity].
  unfold Ref.frame_at. simpl.
  destruct (decide (p.1 = p'.1)) as [Heq | Hf].
  - rewrite <- Heq, lookup_insert_eq, Hd. simpl.
    apply lookup_insert_ne. intros Hk'. apply Hne.
    destruct p, p'; simpl in *; congruence.
  - rewrite lookup_insert_ne by exact Hf. reflexivity.
Qed.

Lemma frame_at_set_pins (w : Ref.World) P p :
  Ref.frame_at (Ref.set_pins w P) p = Ref.frame_at w p.
Proof. reflexivity. Qed.

(** *** Counting the used slots *)

Lemma used_insert_unused (sl : list (option Rec.t)) rec : forall i,
  sl !! i = Some None ->
  length (List.filter (fun o : option Rec.t => bool_decide (o <> None))
            (<[i := Some rec]> sl))
  = S (length (List.filter (fun o : option Rec.t => bool_decide (o <> None)) sl)).
Proof.
  induction sl as [| o sl IH]; intros i Hi; [discriminate |].
  destruct i as [| i]; simpl in *.
  - injection Hi as ->. reflexivity.
  - destruct (bool_decide (o <> None)); simpl; rewrite (IH _ Hi); reflexivity.
Qed.

Lemma used_snoc (sl : list (option Rec.t)) rec :
  length (List.filter (fun o : option Rec.t => bool_decide (o <> None))
            (sl ++ [Some rec]))
  = S (length (List.filter (fun o : option Rec.t => bool_decide (o <> None)) sl)).
Proof. rewrite List.filter_app, length_app. simpl. lia. Qed.

Lemma used_delete (sl : list (option Rec.t)) r : forall i,
  sl !! i = Some (Some r) ->
  S (length (List.filter (fun o : option Rec.t => bool_decide (o <> None))
               (<[i := None]> sl)))
  = length (List.filter (fun o : option Rec.t => bool_decide (o <> None)) sl).
Proof.
  induction sl as [| o sl IH]; intros i Hi; [discriminate |].
  destruct i as [| i]; simpl in *.
  - injection Hi as ->. reflexivity.
  - destruct (bool_decide (o <> None)); simpl; rewrite <- (IH _ Hi); reflexivity.
Qed.

Lemma find_unused_lookup (sl : list (option Rec.t)) : forall i0 i,
  Ref.find_unused sl i0 = Some i -> (i0 <= i)%nat /\ sl !! (i - i0)%nat = Some None.
Proof.
  induction sl as [| [r |] sl IH]; intros i0 i Hf; simpl in Hf.
  - discriminate.
  - apply IH in Hf as [Hle Hl]. split; [lia |].
    replace (i - i0)%nat with (S (i - S i0)) by lia. exact Hl.
  - injection Hf as <-. split; [lia |]. rewrite Nat.sub_diag. reflexivity.
Qed.

(** The used slots of the frames of a file, when one frame is replaced. *)
Lemma live_fold_insert (fr : gmap Z Ref.Frame) k x :
  map_fold (fun _ fr acc => Ref.live_slots fr + acc) 0 (<[k := x]> fr)
  = map_fold (fun _ fr acc => Ref.live_slots fr + acc) 0 fr
    - match fr !! k with Some y => Ref.live_slots y | None => 0 end
    + Ref.live_slots x.
Proof.
  assert (Hins : forall (m : gmap Z Ref.Frame) y, m !! k = None ->
             map_fold (fun _ fr acc => Ref.live_slots fr + acc) 0 (<[k := y]> m)
             = Ref.live_slots y + map_fold (fun _ fr acc => Ref.live_slots fr + acc) 0 m).
  { intros m y Hm. apply (map_fold_insert_L (fun _ fr acc => Ref.live_slots fr + acc));
      [intros; lia | exact Hm]. }
  rewrite <- (insert_delete_eq fr k x), Hins by apply lookup_delete_eq.
  destruct (fr !! k) as [y |] eqn:Hk.
  - rewrite <- (insert_delete_id fr k y Hk) at 2. rewrite Hins by apply lookup_delete_eq.
    lia.
  - rewrite delete_id by exact Hk. lia.
Qed.

Lemma ref_insertRecord_OK (p : string * Z) rec (w w' : Ref.World) rid fr :
  Ref.frame_at w p = Some fr ->
  Ref.insertRecord p rec w = (OK, Some rid, w') ->
  pageNo rid = Ref.curPage (Ref.as_page fr)
  /\ exists dk',
       w' = Ref.set_frame w p (Ref.DataFrame dk')
       /\ Ref.curPage dk' = Ref.curPage (Ref.as_page fr)
       /\ Ref.nextPage dk' = Ref.nextPage (Ref.as_page fr)
       /\ Ref.live_slot dk' (slotNo rid) = Some rec
       /\ Ref.live_slots (Ref.DataFrame dk') = Ref.live_slots fr + 1.
Proof.
  intros Hfr Hrun. unfold Ref.insertRecord in Hrun. rewrite Hfr in Hrun.
  destruct (Rec.length rec + Ref.slot_bytes >? Ref.free_space (Ref.as_page fr));
    [discriminate |].
  destruct (Ref.find_unused (Ref.slots (Ref.as_page fr)) 0) as [i |] eqn:Hfind.
  - injection Hrun as <- <-. split; [reflexivity |].
    apply find_unused_lookup in Hfind as [_ Hi]. rewrite Nat.sub_0_r in Hi.
    eexists. split; [reflexivity |]. simpl. repeat split.
    + unfold Ref.live_slot. simpl.
      destruct (Z.ltb_spec (Z.of_nat i) 0) as [Hneg | _]; [lia |].
      rewrite Nat2Z.id, list_lookup_insert_eq by (eapply lookup_lt_Some; exact Hi).
      reflexivity.
    + unfold Ref.live_slots. simpl. rewrite (used_insert_unused _ _ _ Hi). lia.
  - injection Hrun as <- <-. split; [reflexivity |].
    eexists. split; [reflexivity |]. simpl. repeat split.
    + unfold Ref.live_slot. simpl.
      destruct (Z.ltb_spec (Z.of_nat (length (Ref.slots (Ref.as_page fr)))) 0); [lia |].
      rewrite Nat2Z.id, (list_lookup_middle _ [] (Some rec)) by reflexivity. reflexivity.
    + unfold Ref.live_slots. simpl. rewrite used_snoc. lia.
Qed.

Lemma ref_getRecord_live (p : string * Z) rid (s : Sys) dk rec :
  Ref.frame_at (world s) p = Some (Ref.DataFrame dk) ->
  Ref.live_slot dk (slotNo rid) = Some rec ->
  Page_getRecord p rid s
  = (OK, Some rec, mkSys (world s) (trace s ++ [EvGetRecord p rid])).
Proof.
  intros Hfr Hlive. unfold Page_getRecord. simpl. unfold Ref.getRecord.
  rewrite Hfr. simpl. rewrite Hlive. reflexivity.
Qed.


Lemma live_slots_hdr h : Ref.live_slots (Ref.HdrFrame h) = 0.
Proof. reflexivity. Qed.

Ltac look_up :=
  repeat first [rewrite lookup_insert_eq | rewrite lookup_insert_ne by lia].

(** What a successful InsertFileScan::insertRecord leaves of file [f]: the
    record in the slot the RID names, on the page that is now the current
    page, and one used slot more in the file. *)
Lemma ref_insertRecord_run
    (f : string) (rec : Rec.t) (t t' : HeapFile) (s s' : Sys) (rid : RID)
    (hno : Z) (D : Ref.DbFile) (h0 : FileHdrPage) (dk : Ref.PageData) :
  filePtr t = f -> headerPage t = (f, hno) -> curPage t = Some (f, curPageNo t) ->
  Ref.files (world s) !! f = Some D ->
  (forall n, is_Some (Ref.frames D !! n) -> n < Ref.numPages D) ->
  Ref.frames D !! hno = Some (Ref.HdrFrame h0) ->
  Ref.frames D !! curPageNo t = Some (Ref.DataFrame dk) ->
  InsertFileScan_insertRecord rec t s = Ret (OK, Some rid, t', s') ->
  exists D' dk',
    curPage t' = Some (f, curPageNo t')
    /\ pageNo rid = Ref.curPage dk'
    /\ (curPageNo t' = curPageNo t /\ Ref.curPage dk' = Ref.curPage dk
        \/ curPageNo t' = Ref.numPages D /\ Ref.curPage dk' = Ref.numPages D)
    /\ Ref.files (world s') !! f = Some D'
    /\ Ref.frames D' !! hno = Some (Ref.HdrFrame (hdr t'))
    /\ Ref.frames D' !! curPageNo t' = Some (Ref.DataFrame dk')
    /\ Ref.live_slot dk' (slotNo rid) = Some rec
    /\ map_fold (fun _ fr acc => Ref.live_slots fr + acc) 0 (Ref.frames D')
       = map_fold (fun _ fr acc => Ref.live_slots fr + acc) 0 (Ref.frames D) + 1.
Proof.
  intros Hf Hhp Hcp HD Hbound Hhdr Hdk Hrun.
  assert (Hne : hno <> curPageNo t) by (intros ->; congruence).
  unfold InsertFileScan_insertRecord in Hrun.
  destruct (uint_wrap (Rec.length rec) >? uint_wrap (PAGESIZE - DPFIXED));
    [discriminate |].
  rewrite Hcp, Hf in Hrun. simpl in Hrun.
  assert (Hfr0 : Ref.frame_at (world s) (f, curPageNo t) = Some (Ref.DataFrame dk)).
  { rewrite (frame_at_hit _ _ _ _ HD). exact Hdk. }
  call Hrun gives Hins as [[st1 rid1] s1].
  unfold Page_insertRecord in Hins. simpl in Hins.
  destruct (Ref.insertRecord (f, curPageNo t) rec (world s)) as [[st1' rid1'] w1] eqn:Hp.
  injection Hins as <- <- <-.
  destruct (bool_decide (st1' = OK)) eqn:Hst1.
  { (* the record went on the current page *)
    apply bool_decide_eq_true in Hst1. subst st1'.
    unfold insertRecord_done, need in Hrun.
    destruct rid1' as [rid1 |]; [| discriminate]. simpl in Hrun.
    injection Hrun as -> <- <-.
    destruct (ref_insertRecord_OK _ _ _ _ _ _ Hfr0 Hp)
      as (Hpn & dk' & -> & Hown & _ & Hlive & Hcount).
    simpl in Hpn, Hown.
    destruct (set_frame_file f (world s) (curPageNo t) (Ref.DataFrame dk') D HD
                ltac:(eauto)) as [Hf1 _].
    match goal with
    | |- context [Ref.store _ ?h1 _] =>
        destruct (set_frame_file f _ hno (Ref.HdrFrame h1) _ Hf1) as [Hf2 _];
          [simpl; look_up; eauto |]
    end.
    eexists. exists dk'. simpl. rewrite Hhp.
    split; [exact Hcp |]. split; [congruence |]. split; [left; auto |].
    split; [exact Hf2 |]. simpl. split; [look_up; reflexivity |].
    split; [look_up; reflexivity |]. split; [exact Hlive |].
    rewrite !live_fold_insert. look_up. rewrite Hhdr, Hdk, Hcount, !live_slots_hdr.
    lia. }
  (* the current page took nothing *)
  assert (Hw1 : w1 = world s).
  { unfold Ref.insertRecord in Hp. rewrite Hfr0 in Hp.
    destruct (_ >? _); [injection Hp as _ _ <-; reflexivity |].
    destruct (Ref.find_unused _ _); injection Hp as <- _ _; discriminate. }
  subst w1.
  destruct (bool_decide (st1' = NOSPACE)); [| discriminate].
  assert (Hf1 : Ref.files (world (log (EvInsertRecord (f, curPageNo t) rec) (world s)
                                    (trace s))) !! f = Some D) by exact HD.
  call Hrun gives Halloc as [[[st2 n2] p2] s2].
  apply (allocPage_file _ _ _ _ _ _ _ Hf1) in Halloc
    as [(Hne2 & Hw2) | (-> & -> & -> & Hf2 & Hp2)].
  { rewrite (status_ne_OK_true Hne2) in Hrun. injection Hrun as ->. contradiction. }
  rewrite status_ne_OK_false in Hrun. simpl in Hrun.
  assert (Hkb : curPageNo t < Ref.numPages D) by (apply Hbound; eauto).
  assert (Hhb : hno < Ref.numPages D) by (apply Hbound; eauto).
  assert (Hfresh : Ref.frames D !! Ref.numPages D = None).
  { destruct (Ref.frames D !! Ref.numPages D) eqn:Hn; [| reflexivity].
    specialize (Hbound (Ref.numPages D) ltac:(eauto)). lia. }
  set (n := Ref.numPages D) in *.
  (* init *)
  destruct (init_file f n n s2 _ Hf2)
    as [Hf3 Hp3]; [simpl; rewrite lookup_insert_eq; eauto |].
  cbn [Ref.frames Ref.firstPageNo Ref.numPages] in Hf3. rewrite insert_insert_eq in Hf3.
  (* setNextPage *)
  call Hrun gives Hlink as [st4 s4].
  apply (setNextPage_file f _ _ _ _ _ _ dk Hf3) in Hlink as (-> & Hf4 & Hp4);
    [| cbn [Ref.frames]; rewrite lookup_insert_ne by lia; exact Hdk].
  cbn [Ref.frames Ref.firstPageNo Ref.numPages] in Hf4.
  rewrite status_ne_OK_false in Hrun.
  (* unpin of the old current page *)
  call Hrun gives Hunpin as [st5 s5].
  apply unPinPage_files_eq in Hunpin. rewrite <- Hunpin in Hf4.
  destruct (status_ne st5 OK); [discriminate |].
  (* the two header writes *)
  rewrite Hhp in Hrun.
  match type of Hrun with
  | context [Ref.store ?p ?h1 (world s5)] =>
      destruct (set_frame_file f (world s5) hno (Ref.HdrFrame h1) _ Hf4)
        as [Hf6 _]; [simpl; look_up; eauto |]
  end.
  simpl in Hf6.
  match type of Hrun with
  | context [Ref.store ?p ?h2 (Ref.store ?p ?h1 (world s5))] =>
      destruct (set_frame_file f (Ref.store p h1 (world s5)) hno (Ref.HdrFrame h2) _ Hf6)
        as [Hf7 _]; [simpl; rewrite lookup_insert_eq; eauto |]
  end.
  simpl in Hf7. rewrite insert_insert_eq in Hf7.
  (* the insert on the new page *)
  call Hrun gives Hretry as [[st8 rid8] s8].
  destruct (status_ne st8 OK) eqn:Hst8; [discriminate |].
  apply status_ne_OK_inv in Hst8. subst st8.
  unfold Page_insertRecord in Hretry. simpl in Hretry.
  match type of Hretry with
  | context [Ref.insertRecord ?p rec ?w] =>
      destruct (Ref.insertRecord p rec w) as [[st8 rid8'] w8] eqn:Hp8;
      assert (Hfr8 : Ref.frame_at w p = Some (Ref.DataFrame (Ref.mkPage (-1) n [])))
  end.
  { rewrite (frame_at_hit _ _ _ _ Hf7). simpl. look_up. reflexivity. }
  injection Hretry as -> <- <-.
  assert (Hrid8 : exists r8, rid8' = Some r8).
  { unfold Ref.insertRecord in Hp8. rewrite Hfr8 in Hp8.
    destruct (_ >? _); [discriminate |].
    destruct (Ref.find_unused _ _); injection Hp8 as <- _; eauto. }
  destruct Hrid8 as [r8 ->].
  unfold insertRecord_done in Hrun. simpl in Hrun.
  injection Hrun as -> <- <-.
  destruct (ref_insertRecord_OK _ _ _ _ _ _ Hfr8 Hp8)
    as (Hpn & dk' & -> & Hown & _ & Hlive & Hcount).
  simpl in Hpn, Hown.
  match type of Hf7 with
  | Ref.files ?w7 !! f = Some ?D7 =>
      destruct (set_frame_file f w7 n (Ref.DataFrame dk') D7 Hf7) as [Hf8 _];
        [simpl; look_up; eauto |]
  end.
  simpl in Hf8.
  match goal with
  | |- context [Ref.store _ ?h9 _] =>
      destruct (set_frame_file f _ hno (Ref.HdrFrame h9) _ Hf8) as [Hf9 _];
        [simpl; look_up; eauto |]
  end.
  simpl in Hf9.
  eexists. exists dk'. simpl. rewrite Hhp.
  split; [reflexivity |]. split; [congruence |]. split; [right; auto |].
  split; [exact Hf9 |]. simpl. split; [look_up; reflexivity |].
  split; [look_up; reflexivity |]. split; [exact Hlive |].
  rewrite !live_fold_insert. look_up. rewrite Hhdr, Hdk, Hfresh, Hcount.
  unfold Ref.live_slots. simpl. lia.
Qed.

(** X13.  Insert, then read back, on the reference collaborators.  The insert
    scan holds a page of data of file [f] whose own number is curPageNo, and a
    header page that is another page.  If insertRecord returns OK with [rid],
    HeapFile::getRecord of [rid] on the same object returns OK with the record
    inserted, by one call on the current page, whether the record went on the
    old current page or on a new one. *)
Theorem insert_then_getRecord
    (f : string) (rec : Rec.t) (t t' : HeapFile) (s s' : Sys) (rid : RID)
    (hno : Z) (D : Ref.DbFile) (h0 : FileHdrPage) (dk : Ref.PageData) :
  filePtr t = f -> headerPage t = (f, hno) -> curPage t = Some (f, curPageNo t) ->
  Ref.files (world s) !! f = Some D ->
  (forall n, is_Some (Ref.frames D !! n) -> n < Ref.numPages D) ->
  Ref.frames D !! hno = Some (Ref.HdrFrame h0) ->
  Ref.frames D !! curPageNo t = Some (Ref.DataFrame dk) ->
  Ref.curPage dk = curPageNo t ->
  InsertFileScan_insertRecord rec t s = Ret (OK, Some rid, t', s') ->
  HeapFile_getRecord rid t' s'
  = Ret (OK, Some rec, set_curRec t' rid,
         mkSys (world s') (trace s' ++ [EvGetRecord (f, pageNo rid) rid])).
Proof.
  intros Hf Hhp Hcp HD Hbound Hhdr Hdk Hown Hrun.
  destruct (ref_insertRecord_run f rec t t' s s' rid hno D h0 dk
              Hf Hhp Hcp HD Hbound Hhdr Hdk Hrun)
    as (D' & dk' & Hcp' & Hpn & Hwhere & HD' & _ & Hdk' & Hlive & _).
  assert (Hpage : pageNo rid = curPageNo t').
  { destruct Hwhere as [[-> Ho] | [-> Ho]]; congruence. }
  unfold HeapFile_getRecord. rewrite Hcp', Hpage, Z.eqb_refl. simpl.
  rewrite (ref_getRecord_live (f, curPageNo t') rid s' dk' rec);
    [reflexivity | | exact Hlive].
  rewrite (frame_at_hit _ _ _ _ HD'). exact Hdk'.
Qed.

(** X14.  Under the same conditions, an insertRecord that returns OK adds
    exactly one used slot to the pages of the file, and the count returned by
    getRecCnt, which is the one stored in the header page, is one more (as an
    int). *)
Theorem insertRecord_counts
    (f : string) (rec : Rec.t) (t t' : HeapFile) (s s' : Sys) (rid : RID)
    (hno : Z) (D : Ref.DbFile) (h0 : FileHdrPage) (dk : Ref.PageData) :
  filePtr t = f -> headerPage t = (f, hno) -> curPage t = Some (f, curPageNo t) ->
  Ref.files (world s) !! f = Some D ->
  (forall n, is_Some (Ref.frames D !! n) -> n < Ref.numPages D) ->
  Ref.frames D !! hno = Some (Ref.HdrFrame h0) ->
  Ref.frames D !! curPageNo t = Some (Ref.DataFrame dk) ->
  InsertFileScan_insertRecord rec t s = Ret (OK, Some rid, t', s') ->
  Ref.live_records (world s') f = Ref.live_records (world s) f + 1
  /\ HeapFile_getRecCnt t' = int_wrap (HeapFile_getRecCnt t + 1)
  /\ recCnt (Ref.load (f, hno) (world s')) = HeapFile_getRecCnt t'.
Proof.
  intros Hf Hhp Hcp HD Hbound Hhdr Hdk Hrun.
  destruct (ref_insertRecord_run f rec t t' s s' rid hno D h0 dk
              Hf Hhp Hcp HD Hbound Hhdr Hdk Hrun)
    as (D' & dk' & _ & _ & _ & HD' & Hh' & _ & _ & Hcount).
  split; [unfold Ref.live_records; rewrite HD', HD; exact Hcount |].
  split; [apply (InsertFileScan_insertRecord_effect _ _ _ _ _ _ _ Hrun); reflexivity |].
  unfold Ref.load. rewrite (frame_at_hit _ _ _ _ HD'), Hh'. reflexivity.
Qed.

(** X15.  HeapFileScan::deleteRecord on the reference collaborators, the
    header page being another page than the current one: the file loses one
    used slot exactly when the status returned is OK, and none otherwise; the
    count returned by getRecCnt, which is the one stored in the header page,
    goes down by one (as an int) either way. *)
Theorem deleteRecord_counts
    (f : string) (t : HeapFileScan) (s : Sys) (k hno : Z) (D : Ref.DbFile)
    (h0 : FileHdrPage) :
  curPage (base t) = Some (f, k) -> headerPage (base t) = (f, hno) -> hno <> k ->
  Ref.files (world s) !! f = Some D ->
  Ref.frames D !! hno = Some (Ref.HdrFrame h0) ->
  exists st t' s',
    HeapFileScan_deleteRecord t s = Ret (st, t', s')
    /\ Ref.live_records (world s') f
       = Ref.live_records (world s) f - (if bool_decide (st = OK) then 1 else 0)
    /\ HeapFile_getRecCnt (base t') = int_wrap (HeapFile_getRecCnt (base t) - 1)
    /\ recCnt (Ref.load (f, hno) (world s')) = HeapFile_getRecCnt (base t').
Proof.
  intros Hcp Hhp Hne HD Hhdr. unfold HeapFileScan_deleteRecord. rewrite Hcp. simpl.
  unfold Page_deleteRecord. simpl. unfold Ref.deleteRecord.
  rewrite (frame_at_hit _ _ _ _ HD), Hhp.
  assert (Hstore : forall (w : Ref.World) D1 h1,
             Ref.files w !! f = Some D1 ->
             Ref.frames D1 !! hno = Some (Ref.HdrFrame h0) ->
             Ref.live_records (Ref.store (f, hno) h1 w) f = Ref.live_records w f
             /\ recCnt (Ref.load (f, hno) (Ref.store (f, hno) h1 w)) = recCnt h1).
  { intros w D1 h1 HD1 Hh1.
    destruct (set_frame_file f w hno (Ref.HdrFrame h1) D1 HD1 ltac:(eauto)) as [Hf1 _].
    split.
    - unfold Ref.live_records, Ref.store. rewrite Hf1, HD1. simpl.
      rewrite live_fold_insert, Hh1, !live_slots_hdr. lia.
    - unfold Ref.load, Ref.store. rewrite (frame_at_hit _ _ _ _ Hf1). simpl.
      look_up. reflexivity. }
  destruct (Ref.frames D !! k) as [frk |] eqn:Hk.
  2:{ eexists _, _, _. split; [reflexivity |]. simpl.
      destruct (Hstore (world s) D (set_recCnt (hdr (base t))
                                      (int_wrap (recCnt (hdr (base t)) - 1))) HD Hhdr)
        as [Hl Hr].
      rewrite Hl, Hr. repeat split. lia. }
  destruct (Ref.live_slot (Ref.as_page frk) (slotNo (curRec (base t)))) as [r |] eqn:Hlive.
  2:{ eexists _, _, _. split; [reflexivity |]. simpl.
      destruct (Hstore (world s) D (set_recCnt (hdr (base t))
                                      (int_wrap (recCnt (hdr (base t)) - 1))) HD Hhdr)
        as [Hl Hr].
      rewrite Hl, Hr. repeat split. lia. }
  eexists _, _, _. split; [reflexivity |]. simpl.
  destruct (set_frame_file f (world s) k
              (Ref.DataFrame (Ref.mkPage (Ref.nextPage (Ref.as_page frk))
                                (Ref.curPage (Ref.as_page frk))
                                (<[Z.to_nat (slotNo (curRec (base t))) := None]>
                                   (Ref.slots (Ref.as_page frk)))))
              D HD ltac:(eauto)) as [Hf1 _].
  match goal with
  | |- context [Ref.store _ ?h1 ?w] =>
      destruct (Hstore w _ h1 Hf1 ltac:(simpl; look_up; exact Hhdr)) as [Hl Hr]
  end.
  rewrite Hl, Hr. repeat split.
  unfold Ref.live_records. rewrite Hf1, HD. simpl. rewrite live_fold_insert, Hk.
  assert (Hslot : Ref.slots (Ref.as_page frk) !! Z.to_nat (slotNo (curRec (base t)))
                  = Some (Some r)).
  { unfold Ref.live_slot in Hlive. destruct (_ <? 0); [discriminate |].
    destruct (Ref.slots (Ref.as_page frk) !! _) as [[r' |] |]; congruence. }
  pose proof (used_delete _ _ _ Hslot) as Hused.
  unfold Ref.live_slots. simpl. lia.
Qed.

End RefMore.

Section ScanFacts.
Context `{PF : Platform}.
#[local] Existing Instance Ref.collab.

Lemma page_matches_from t own sl : forall i from from',
  (from <= i)%nat -> (from' <= i)%nat ->
  page_matches t own sl i from = page_matches t own sl i from'.
Proof.
  induction sl as [| o sl IH]; intros i from from' H1 H2; [reflexivity |].
  simpl. rewrite (IH (S i) from from') by lia.
  destruct o; [| reflexivity].
  rewrite (leb_correct _ _ H1), (leb_correct _ _ H2). reflexivity.
Qed.

Lemma find_live_Some t own sl : forall i0 from i,
  Ref.find_live sl i0 from = Some i ->
  (i0 <= i)%nat /\ (from <= i)%nat
  /\ exists r, sl !! (i - i0)%nat = Some (Some r)
      /\ page_matches t own sl i0 from
         = (if HeapFileScan_matchRec t r then [mkRID own (Z.of_nat i)] else [])
           ++ page_matches t own sl i0 (S i).
Proof.
  induction sl as [| o sl IH]; intros i0 from i Hfind; [discriminate |].
  simpl in Hfind.
  destruct ((from <=? i0)%nat && bool_decide (o <> None)) eqn:Hhit.
  - injection Hfind as <-. apply andb_true_iff in Hhit as [Hle Ho].
    apply Nat.leb_le in Hle. apply bool_decide_eq_true in Ho.
    destruct o as [r |]; [| contradiction].
    split; [lia |]. split; [exact Hle |]. exists r.
    split; [rewrite Nat.sub_diag; reflexivity |].
    assert (Hgt : (S i0 <=? i0)%nat = false) by (apply Nat.leb_gt; lia).
    cbn [page_matches]. rewrite (leb_correct _ _ Hle), Hgt.
    rewrite (page_matches_from t own sl (S i0) from (S i0)) by lia.
    cbn [andb]. destruct (HeapFileScan_matchRec t r); reflexivity.
  - apply IH in Hfind as (Hi0 & Hfrom & r & Hr & Hpm).
    split; [lia |]. split; [exact Hfrom |]. exists r. split.
    + replace (i - i0)%nat with (S (i - S i0)) by lia. exact Hr.
    + assert (Hgt : (S i <=? i0)%nat = false) by (apply Nat.leb_gt; lia).
      cbn [page_matches]. rewrite Hpm, Hgt.
      assert (Hhead : match o with
                      | Some r0 => if (from <=? i0)%nat && HeapFileScan_matchRec t r0
                                   then [mkRID own (Z.of_nat i0)] else []
                      | None => []
                      end = []).
      { destruct o as [r0 |]; [| reflexivity].
        rewrite andb_false_iff in Hhit. destruct Hhit as [-> | Hn]; [reflexivity |].
        apply bool_decide_eq_false in Hn. exfalso. apply Hn. discriminate. }
      rewrite Hhead. cbn [andb]. destruct o; reflexivity.
Qed.

Lemma find_live_None t own sl : forall i0 from,
  Ref.find_live sl i0 from = None -> page_matches t own sl i0 from = [].
Proof.
  induction sl as [| o sl IH]; intros i0 from Hfind; [reflexivity |].
  simpl in Hfind.
  destruct ((from <=? i0)%nat && bool_decide (o <> None)) eqn:Hhit; [discriminate |].
  simpl. rewrite (IH _ _ Hfind), app_nil_r.
  destruct o as [r0 |]; [| reflexivity].
  rewrite andb_false_iff in Hhit. destruct Hhit as [-> | Hn]; [reflexivity |].
  apply bool_decide_eq_false in Hn. exfalso. apply Hn. discriminate.
Qed.

Lemma matchRec_scan (t t' : HeapFileScan) r :
  scan t' = scan t -> HeapFileScan_matchRec t' r = HeapFileScan_matchRec t r.
Proof. intros Hs. unfold HeapFileScan_matchRec. rewrite Hs. reflexivity. Qed.

Lemma page_matches_scan (t t' : HeapFileScan) own sl :
  scan t' = scan t ->
  forall i from, page_matches t' own sl i from = page_matches t own sl i from.
Proof.
  intros Hs. induction sl as [| o sl IH]; intros i from; [reflexivity |].
  simpl. rewrite IH. destruct o; [| reflexivity].
  rewrite (matchRec_scan t t' _ Hs). reflexivity.
Qed.

Lemma file_matches_scan (t t' : HeapFileScan) fr l :
  scan t' = scan t -> forall from, file_matches t' fr l from = file_matches t fr l from.
Proof.
  intros Hs. induction l as [| k l IH]; intros from; [reflexivity |].
  simpl. rewrite IH. destruct (fr !! k) as [[h | d] |]; try reflexivity.
  rewrite (page_matches_scan t t' _ _ Hs). reflexivity.
Qed.


Lemma ref_fetch (f : string) (t : HeapFileScan) (s : Sys) k dk j :
  Ref.frame_at (world s) (f, k) = Some (Ref.DataFrame dk) ->
  at_slot j (curRec (base t)) ->
  exists st_end s1,
    world s1 = world s
    /\ (if (pageNo (curRec (base t)) =? -1) && (slotNo (curRec (base t)) =? -1)
        then Page_firstRecord (f, k) s
        else Page_nextRecord (f, k) (curRec (base t)) s)
       = match Ref.find_live (Ref.slots dk) 0 j with
         | Some i => (OK, Some (mkRID (Ref.curPage dk) (Z.of_nat i)), s1)
         | None => (st_end, None, s1)
         end
    /\ (st_end = NORECORDS \/ st_end = ENDOFPAGE).
Proof.
  intros Hfr [[-> Hrec] | [Hj Hslot]].
  - rewrite Hrec. simpl. exists NORECORDS. eexists. split; [| split; [| auto]].
    2:{ unfold Page_firstRecord. simpl. unfold Ref.firstRecord. rewrite Hfr. simpl.
        destruct (Ref.find_live (Ref.slots dk) 0 0); reflexivity. }
    reflexivity.
  - assert (Htest : (pageNo (curRec (base t)) =? -1) && (slotNo (curRec (base t)) =? -1)
                    = false).
    { apply andb_false_iff. right. apply Z.eqb_neq. lia. }
    rewrite Htest. exists ENDOFPAGE. eexists. split; [| split; [| auto]].
    2:{ unfold Page_nextRecord. simpl. unfold Ref.nextRecord. rewrite Hfr. simpl.
        replace (Z.to_nat (slotNo (curRec (base t)) + 1)) with j by lia.
        destruct (Ref.find_live (Ref.slots dk) 0 j); reflexivity. }
    reflexivity.
Qed.


Lemma ref_getNextPage_data (p : string * Z) (s : Sys) dk :
  Ref.frame_at (world s) p = Some (Ref.DataFrame dk) ->
  Page_getNextPage p s
  = (OK, Some (Ref.nextPage dk), mkSys (world s) (trace s ++ [EvGetNextPage p])).
Proof.
  intros Hfr. unfold Page_getNextPage. simpl. unfold Ref.getNextPage. rewrite Hfr.
  reflexivity.
Qed.

Lemma ref_getRecord_slot (p : string * Z) (i : nat) own (s : Sys) dk r :
  Ref.frame_at (world s) p = Some (Ref.DataFrame dk) ->
  Ref.slots dk !! i = Some (Some r) ->
  Page_getRecord p (mkRID own (Z.of_nat i)) s
  = (OK, Some r, mkSys (world s) (trace s ++ [EvGetRecord p (mkRID own (Z.of_nat i))])).
Proof.
  intros Hfr Hr. unfold Page_getRecord. simpl. unfold Ref.getRecord. rewrite Hfr. simpl.
  unfold Ref.live_slot. destruct (Z.ltb_spec (Z.of_nat i) 0); [lia |].
  rewrite Nat2Z.id, Hr. reflexivity.
Qed.

Lemma chain_NoDup (fr : gmap Z Ref.Frame) n l : Ref.chain fr n l -> NoDup l.
Proof.
  induction 1 as [n d Hn Hend | n d l Hn Hmore Hnin Hc IH].
  - apply NoDup_singleton.
  - apply NoDup_cons. split; assumption.
Qed.

Lemma chain_inv (fr : gmap Z Ref.Frame) n k l :
  Ref.chain fr n (k :: l) ->
  k = n
  /\ exists d, fr !! n = Some (Ref.DataFrame d)
       /\ ((Ref.nextPage d = -1 /\ l = [])
           \/ (Ref.nextPage d <> -1 /\ Ref.chain fr (Ref.nextPage d) l)).
Proof.
  intros Hc. inversion Hc; subst.
  - split; [reflexivity |]. eexists. split; [eassumption |]. left. auto.
  - split; [reflexivity |]. eexists. split; [eassumption |]. right. auto.
Qed.

(** What one call of scanNext comes to, from any position of the scan. *)
Lemma scanNext_loop_enumerates (f : string) D nb B :
  (size B < nb)%nat ->
  forall l (t : HeapFileScan) (s : Sys) j nr rc,
    scan_at f D nb B t s l j ->
    match file_matches t (Ref.frames D) l j with
    | [] =>
        exists fuel t' s',
          scanNext_loop fuel nr rc t s = Ret (NOMORERECS, None, t', s')
          /\ curPage (base t') = None /\ scan t' = scan t
          /\ Ref.files (world s') = Ref.files (world s)
          /\ Ref.pins (world s') = B /\ Ref.numBufs (world s') = nb
    | rid :: rest =>
        exists fuel t' s' l' j',
          scanNext_loop fuel nr rc t s = Ret (OK, Some rid, t', s')
          /\ scan t' = scan t
          /\ Ref.files (world s') = Ref.files (world s)
          /\ scan_at f D nb B t' s' l' j'
          /\ file_matches t (Ref.frames D) l' j' = rest
    end.
Proof.
  intros HB l. induction l as [| k l' IHl]; intros t s j nr rc Hat.
  { destruct Hat as (_ & _ & _ & _ & _ & Hc & _). inversion Hc. }
  pose proof Hat as (_ & _ & _ & _ & _ & Hc0 & _).
  destruct (chain_inv _ _ _ _ Hc0) as (Hk0 & dk & Hdk & Hlink). clear Hc0.
  assert (Hinner : forall n (t : HeapFileScan) (s : Sys) j nr rc,
             scan_at f D nb B t s (k :: l') j ->
             (length (Ref.slots dk) - j <= n)%nat ->
             match file_matches t (Ref.frames D) (k :: l') j with
             | [] =>
                 exists fuel t' s',
                   scanNext_loop fuel nr rc t s = Ret (NOMORERECS, None, t', s')
                   /\ curPage (base t') = None /\ scan t' = scan t
                   /\ Ref.files (world s') = Ref.files (world s)
                   /\ Ref.pins (world s') = B /\ Ref.numBufs (world s') = nb
             | rid :: rest =>
                 exists fuel t' s' l'' j',
                   scanNext_loop fuel nr rc t s = Ret (OK, Some rid, t', s')
                   /\ scan t' = scan t
                   /\ Ref.files (world s') = Ref.files (world s)
                   /\ scan_at f D nb B t' s' l'' j'
                   /\ file_matches t (Ref.frames D) l'' j' = rest
             end).
  2:{ apply (Hinner (length (Ref.slots dk) - j)%nat); [exact Hat | lia]. }
  rewrite <- Hk0 in Hdk. clear t s j nr rc Hat Hk0.
  induction n as [n IHn] using lt_wf_ind. intros t s j nr rc Hat Hn.
  destruct Hat as (Hf & Hcp & HD & Hnb & Hpins & Hc & Hslot).
  destruct (chain_inv _ _ _ _ Hc) as (Hk & _).
  assert (Hfr : Ref.frame_at (world s) (f, k) = Some (Ref.DataFrame dk))
    by (rewrite (frame_at_hit _ _ _ _ HD); exact Hdk).
  destruct (ref_fetch f t s k dk j Hfr Hslot) as (st_end & s1 & Hw1 & Hfetch & Hend).
  cbn [file_matches]. rewrite Hdk.
  rewrite <- Hk in Hcp, Hpins, Hc.
  destruct (Ref.find_live (Ref.slots dk) 0 j) as [i |] eqn:Hfind.
  - (* a used slot at or after [j] *)
    destruct (find_live_Some t (Ref.curPage dk) _ _ _ _ Hfind) as (_ & Hji & r & Hr & Hpm).
    rewrite Nat.sub_0_r in Hr. rewrite Hpm.
    pose proof (lookup_lt_Some _ _ _ Hr) as Hlt.
    set (rid := mkRID (Ref.curPage dk) (Z.of_nat i)) in *.
    set (t2 := set_base t (set_curRec (base t) rid)).
    assert (Hfr1 : Ref.frame_at (world s1) (f, k) = Some (Ref.DataFrame dk))
      by (rewrite Hw1; exact Hfr).
    pose proof (ref_getRecord_slot (f, k) i (Ref.curPage dk) s1 dk r Hfr1 Hr) as Hget.
    fold rid in Hget.
    match type of Hget with _ = (_, _, ?x) => set (s2 := x) in * end.
    assert (Hat2 : scan_at f D nb B t2 s2 (k :: l') (S i)).
    { unfold scan_at, t2, s2. simpl. rewrite Hw1, <- Hk.
      repeat split; try assumption.
      right. split; [lia |]. simpl. lia. }
    assert (Hiter : forall fuel,
               scanNext_loop (S fuel) nr rc t s
               = if HeapFileScan_matchRec t r then Ret (OK, Some rid, t2, s2)
                 else scanNext_loop fuel (Some rid) (Some r) t2 s2).
    { intros fuel. simpl. rewrite Hcp. simpl. rewrite Hfetch. simpl.
      rewrite Hget. simpl. unfold HeapFileScan_matchRec.
      destruct (Scan.filter (scan t)); reflexivity. }
    destruct (HeapFileScan_matchRec t r) eqn:Hm.
    + exists 1%nat, t2, s2, (k :: l'), (S i).
      split; [apply Hiter |]. split; [reflexivity |].
      split; [simpl; rewrite Hw1; reflexivity |]. split; [exact Hat2 |].
      cbn [file_matches]. rewrite Hdk. reflexivity.
    + cbn [app].
      assert (Hlt2 : (length (Ref.slots dk) - S i < n)%nat) by lia.
      pose proof (IHn _ Hlt2 t2 s2 (S i) (Some rid) (Some r) Hat2 ltac:(lia)) as IH.
      rewrite (file_matches_scan t t2) in IH by reflexivity.
      cbn [file_matches] in IH. rewrite Hdk in IH.
      destruct (page_matches t (Ref.curPage dk) (Ref.slots dk) 0 (S i)
                ++ file_matches t (Ref.frames D) l' 0) as [| rid' rest].
      * destruct IH as (fuel & t' & s' & Hrun & Hnone & Hscan & Hfiles & Hp & Hb).
        exists (S fuel), t', s'. rewrite Hiter.
        split; [exact Hrun |]. split; [exact Hnone |]. split; [exact Hscan |].
        split; [rewrite Hfiles; simpl; rewrite Hw1; reflexivity |]. auto.
      * destruct IH as (fuel & t' & s' & l'' & j' & Hrun & Hscan & Hfiles & Hat' & Hrest).
        exists (S fuel), t', s', l'', j'. rewrite Hiter.
        split; [exact Hrun |]. split; [exact Hscan |].
        split; [rewrite Hfiles; simpl; rewrite Hw1; reflexivity |].
        split; [exact Hat' |].
        rewrite <- (file_matches_scan t t2) by reflexivity. exact Hrest.
  - (* no used slot left on the page *)
    rewrite (find_live_None t _ _ _ _ Hfind). cbn [app].
    assert (Hexh : bool_decide (st_end = NORECORDS) || bool_decide (st_end = ENDOFPAGE)
                   = true) by (destruct Hend as [-> | ->]; reflexivity).
    assert (Hpin1 : is_Some (Ref.pins (world s1) !! (f, k)))
      by (rewrite Hw1, Hpins; apply pin_is_Some).
    pose proof (ref_unPinPage_ok f k (curDirtyFlag (base t)) s1 Hpin1) as Hunpin.
    match type of Hunpin with _ = (_, ?x) => set (s3 := x) in * end.
    assert (Hw3 : world s3 = Ref.set_pins (world s) B).
    { unfold s3. cbn [world]. rewrite Hw1, Hpins, unpin_pin. reflexivity. }
    assert (Hfr3 : Ref.frame_at (world s3) (f, k) = Some (Ref.DataFrame dk))
      by (rewrite Hw3; exact Hfr).
    pose proof (ref_getNextPage_data (f, k) s3 dk Hfr3) as Hnext.
    match type of Hnext with _ = (_, _, ?x) => set (s4 := x) in * end.
    assert (Hw4 : world s4 = Ref.set_pins (world s) B) by exact Hw3.
    clearbody s3 s4.
    assert (Hhead : forall fuel,
               scanNext_loop (S fuel) nr rc t s
               = if Ref.nextPage dk =? -1
                 then Ret (NOMORERECS, None, set_base t (set_curPage (base t) None), s4)
                 else
                   let '(status, page', s5) :=
                     BufMgr_readPage f (Ref.nextPage dk) s4 in
                   let b := set_curPage (base t) (stored page' (curPage (base t))) in
                   if status_ne status OK then Ret (status, None, set_base t b, s5)
                   else
                     scanNext_loop fuel nr rc
                       (set_base t
                          (set_curDirtyFlag
                             (set_curRec (set_curPageNo b (Ref.nextPage dk)) NULLRID)
                             false)) s5).
    { intros fuel. simpl. rewrite Hcp. simpl. rewrite Hfetch, Hexh, Hf, <- Hk, Hunpin.
      simpl. rewrite Hnext. simpl. reflexivity. }
    destruct Hlink as [[Hlast ->] | [Hmore Hc']].
    + (* the end of the chain *)
      exists 1%nat, (set_base t (set_curPage (base t) None)), s4.
      split; [rewrite Hhead, Hlast; reflexivity |].
      rewrite Hw4. simpl. repeat split. exact Hnb.
    + (* on to the next page *)
      destruct (chain_head _ _ _ Hc') as [l'' ->].
      destruct (chain_data _ _ _ (Ref.nextPage dk) Hc' ltac:(left)) as [dn Hdn].
      assert (Hroom : is_Some (Ref.pins (world s4) !! (f, Ref.nextPage dk))
                      \/ ((size (Ref.pins (world s4)) < Ref.numBufs (world s4))%nat
                          /\ is_Some (Ref.frame_at (world s4) (f, Ref.nextPage dk)))).
      { right. rewrite Hw4. split; [simpl; rewrite Hnb; exact HB |].
        rewrite (frame_at_hit (Ref.set_pins (world s) B) f _ D HD). eauto. }
      pose proof (ref_readPage_ok f (Ref.nextPage dk) s4 Hroom) as Hread.
      match type of Hread with _ = (_, _, ?x) => set (s5 := x) in * end.
      set (t5 := set_base t
                   (set_curDirtyFlag
                      (set_curRec
                         (set_curPageNo
                            (set_curPage (base t) (Some (f, Ref.nextPage dk)))
                            (Ref.nextPage dk)) NULLRID) false)).
      assert (Hiter : forall fuel,
                 scanNext_loop (S fuel) nr rc t s = scanNext_loop fuel nr rc t5 s5).
      { intros fuel. rewrite Hhead.
        destruct (Z.eqb_spec (Ref.nextPage dk) (-1)) as [Heq | _]; [contradiction |].
        rewrite Hread. reflexivity. }
      assert (Hw5 : world s5
                    = Ref.set_pins (world s) (Ref.pin (f, Ref.nextPage dk) B)).
      { unfold s5. cbn [world]. rewrite Hw4. reflexivity. }
      clearbody s5.
      assert (Hat5 : scan_at f D nb B t5 s5 (Ref.nextPage dk :: l'') 0).
      { unfold scan_at. rewrite Hw5. unfold t5. simpl.
        repeat split; try assumption. left. split; reflexivity. }
      pose proof (IHl t5 s5 0%nat nr rc Hat5) as IH.
      rewrite (file_matches_scan t t5) in IH by reflexivity.
      assert (Hfiles5 : Ref.files (world s5) = Ref.files (world s)).
      { rewrite Hw5. reflexivity. }
      destruct (file_matches t (Ref.frames D) (Ref.nextPage dk :: l'') 0)
        as [| rid' rest].
      * destruct IH as (fuel & t' & s' & Hrun & Hnone & Hscan & Hfiles & Hp & Hb).
        exists (S fuel), t', s'. rewrite Hiter.
        split; [exact Hrun |]. split; [exact Hnone |]. split; [exact Hscan |].
        split; [rewrite Hfiles; exact Hfiles5 |]. auto.
      * destruct IH as (fuel & t' & s' & l3 & j' & Hrun & Hscan & Hfiles & Hat' & Hrest).
        exists (S fuel), t', s', l3, j'. rewrite Hiter.
        split; [exact Hrun |]. split; [exact Hscan |].
        split; [rewrite Hfiles; exact Hfiles5 |].
        split; [exact Hat' |].
        rewrite <- (file_matches_scan t t5) by reflexivity. exact Hrest.
Qed.


Lemma scan_run_enumerates (f : string) D nb B :
  (size B < nb)%nat ->
  forall rids (t : HeapFileScan) (s : Sys) l j,
    scan_at f D nb B t s l j ->
    file_matches t (Ref.frames D) l j = rids ->
    exists t' s',
      scan_run t s rids t' s'
      /\ curPage (base t') = None
      /\ scan t' = scan t
      /\ Ref.files (world s') = Ref.files (world s)
      /\ Ref.pins (world s') = B
      /\ Ref.numBufs (world s') = nb.
Proof.
  intros HB rids. induction rids as [| rid rest IH]; intros t s l j Hat Hrids.
  - pose proof (scanNext_loop_enumerates f D nb B HB l t s j None None Hat) as Hone.
    rewrite Hrids in Hone.
    destruct Hone as (fuel & t' & s' & Hrun & Hnone & Hscan & Hfiles & Hp & Hnb).
    exists t', s'. split; [exact (run_end _ _ fuel _ _ Hrun) |]. auto.
  - pose proof (scanNext_loop_enumerates f D nb B HB l t s j None None Hat) as Hone.
    rewrite Hrids in Hone.
    destruct Hone as (fuel & t1 & s1 & l1 & j1 & Hrun & Hscan & Hfiles & Hat1 & Hrest).
    rewrite <- (file_matches_scan t t1) in Hrest by exact Hscan.
    destruct (IH t1 s1 l1 j1 Hat1 Hrest)
      as (t' & s' & Hruns & Hnone & Hscan' & Hfiles' & Hp).
    exists t', s'. split; [exact (run_more _ _ fuel _ _ _ _ _ _ Hrun Hruns) |].
    split; [exact Hnone |]. split; [congruence |]. split; [congruence | exact Hp].
Qed.

Lemma page_matches_elem (t : HeapFileScan) own sl : forall i0 rid,
  rid ∈ page_matches t own sl i0 0
  <-> exists i r, sl !! i = Some (Some r) /\ HeapFileScan_matchRec t r = true
                  /\ rid = mkRID own (Z.of_nat (i0 + i)).
Proof.
  induction sl as [| o sl IH]; intros i0 rid; cbn [page_matches].
  - split; [intros H; inversion H | intros (i & r & H & _); discriminate].
  - rewrite elem_of_app, IH. split.
    + intros [Hhead | (i & r & Hi & Hm & ->)].
      * destruct o as [r |]; [| inversion Hhead]. simpl in Hhead.
        destruct (HeapFileScan_matchRec t r) eqn:Hm; [| inversion Hhead].
        apply list_elem_of_singleton in Hhead. subst rid.
        exists 0%nat, r. rewrite Nat.add_0_r. auto.
      * exists (S i), r. replace (i0 + S i)%nat with (S i0 + i)%nat by lia. auto.
    + intros ([| i] & r & Hi & Hm & ->).
      * left. simpl in Hi. injection Hi as ->. simpl. rewrite Hm, Nat.add_0_r.
        apply list_elem_of_singleton. reflexivity.
      * right. exists i, r. replace (i0 + S i)%nat with (S i0 + i)%nat by lia. auto.
Qed.

Lemma file_matches_elem (t : HeapFileScan) (fr : gmap Z Ref.Frame) l rid :
  rid ∈ file_matches t fr l 0
  <-> exists k d i r,
        k ∈ l /\ fr !! k = Some (Ref.DataFrame d)
        /\ Ref.slots d !! i = Some (Some r) /\ HeapFileScan_matchRec t r = true
        /\ rid = mkRID (Ref.curPage d) (Z.of_nat i).
Proof.
  induction l as [| k l IH]; cbn [file_matches].
  - split; [intros H; inversion H | intros (k & d & i & r & H & _); inversion H].
  - rewrite elem_of_app, IH. split.
    + intros [Hhead | (k' & d & i & r & Hk & Hrest)].
      * destruct (fr !! k) as [[h | d] |] eqn:Hfr; try (inversion Hhead; fail).
        apply page_matches_elem in Hhead as (i & r & Hi & Hm & ->).
        exists k, d, i, r. split; [left |]. auto.
      * exists k', d, i, r. split; [right; exact Hk | exact Hrest].
    + intros (k' & d & i & r & Hk & Hfr & Hi & Hm & ->).
      apply elem_of_cons in Hk as [-> | Hk].
      * left. rewrite Hfr. apply page_matches_elem. exists i, r. auto.
      * right. exists k', d, i, r. auto.
Qed.

(** A scan that has fetched nothing yet runs to the end of the chain. *)
Lemma scan_run_from_start
    (f : string) (D : Ref.DbFile) (B : gmap (string * Z) positive)
    (t : HeapFileScan) (s : Sys) (l : list Z) :
  filePtr (base t) = f ->
  curPage (base t) = Some (f, curPageNo (base t)) ->
  curRec (base t) = NULLRID ->
  Ref.files (world s) !! f = Some D ->
  Ref.chain (Ref.frames D) (curPageNo (base t)) l ->
  Ref.pins (world s) = Ref.pin (f, curPageNo (base t)) B ->
  (size B < Ref.numBufs (world s))%nat ->
  exists t' s',
    scan_run t s (file_matches t (Ref.frames D) l 0) t' s'
    /\ curPage (base t') = None
    /\ world s' = Ref.set_pins (world s) B.
Proof.
  intros Hf Hcp Hrec HD Hc Hpins HB.
  destruct (scan_run_enumerates f D (Ref.numBufs (world s)) B HB
              (file_matches t (Ref.frames D) l 0) t s l 0%nat)
    as (t' & s' & Hrun & Hnone & _ & Hfiles & Hp & Hnb); [| reflexivity |].
  - unfold scan_at. repeat split; try assumption. left. split; [reflexivity | exact Hrec].
  - exists t', s'. split; [exact Hrun |]. split; [exact Hnone |].
    apply ref_world_eq; simpl; assumption.
Qed.

(** X16.  On the reference collaborators, with a frame of the pool free, a
    scan that has fetched nothing yet returns, call after call and each with
    enough loop iterations allowed, the RIDs of the records its filter accepts
    on the pages from its current page to the end of the chain, each once, in
    page and slot order; then NOMORERECS, which leaves it without a current
    page and with its pin released.  The RIDs are those of the used slots of
    these pages whose record matchRec accepts. *)
Theorem scan_enumerates
    (f : string) (D : Ref.DbFile) (B : gmap (string * Z) positive)
    (t : HeapFileScan) (s : Sys) (l : list Z) :
  filePtr (base t) = f ->
  curPage (base t) = Some (f, curPageNo (base t)) ->
  curRec (base t) = NULLRID ->
  Ref.files (world s) !! f = Some D ->
  Ref.chain (Ref.frames D) (curPageNo (base t)) l ->
  Ref.pins (world s) = Ref.pin (f, curPageNo (base t)) B ->
  (size B < Ref.numBufs (world s))%nat ->
  (exists t' s',
     scan_run t s (file_matches t (Ref.frames D) l 0) t' s'
     /\ curPage (base t') = None
     /\ world s' = Ref.set_pins (world s) B)
  /\ (forall rid,
        rid ∈ file_matches t (Ref.frames D) l 0
        <-> exists k d i r,
              k ∈ l /\ Ref.frames D !! k = Some (Ref.DataFrame d)
              /\ Ref.slots d !! i = Some (Some r)
              /\ HeapFileScan_matchRec t r = true
              /\ rid = mkRID (Ref.curPage d) (Z.of_nat i)).
Proof.
  intros Hf Hcp Hrec HD Hc Hpins HB. split; [| apply file_matches_elem].
  exact (scan_run_from_start f D B t s l Hf Hcp Hrec HD Hc Hpins HB).
Qed.


(** X17.  On the reference page: after scanNext has returned a RID, getRecord
    of the scan returns OK with the record under the cursor, by one call on
    the current page, and that record is one matchRec accepts. *)
Theorem scanNext_then_getRecord
    (fuel : nat) (t t' : HeapFileScan) (s s' : Sys) (rid : RID) :
  HeapFileScan_scanNext fuel t s = Ret (OK, Some rid, t', s') ->
  exists page rec,
    curPage (base t') = Some page
    /\ HeapFileScan_getRecord t' s'
       = Ret (OK, Some rec, mkSys (world s') (trace s' ++ [EvGetRecord page rid]))
    /\ HeapFileScan_matchRec t rec = true.
Proof.
  intros Hrun.
  destruct (scanNext_loop_OK fuel _ _ _ _ _ _ _ Hrun)
    as (rid0 & page & s0 & rec' & Ho & Hrec & Hpage & _ & Hget & Hm).
  injection Ho as <-.
  unfold Page_getRecord in Hget. simpl in Hget. unfold Ref.getRecord in Hget.
  destruct (Ref.frame_at (world s0) page) as [fr |] eqn:Hfr; [| discriminate].
  destruct (Ref.live_slot (Ref.as_page fr) (slotNo rid)) as [r |] eqn:Hlive;
    [| discriminate].
  injection Hget as <- <-.
  exists page, r. split; [exact Hpage |]. split; [| apply Hm; reflexivity].
  unfold HeapFileScan_getRecord. rewrite Hpage, Hrec. simpl.
  unfold Page_getRecord. simpl. unfold Ref.getRecord. rewrite Hfr, Hlive. reflexivity.
Qed.

Lemma page_matches_insert_before (t : HeapFileScan) own x sl : forall i0 i from,
  (i0 + i < from)%nat ->
  page_matches t own (<[i := x]> sl) i0 from = page_matches t own sl i0 from.
Proof.
  induction sl as [| o sl IH]; intros i0 i from Hlt; [reflexivity |].
  destruct i as [| i]; simpl.
  - assert (Hgt : (from <=? i0)%nat = false) by (apply Nat.leb_gt; lia).
    rewrite Hgt. simpl. destruct x, o; reflexivity.
  - rewrite (IH (S i0) i from) by lia. reflexivity.
Qed.

(** X18.  Deleting under the cursor does not disturb the scan.  On the
    reference collaborators, the header page not being a page of the chain:
    from any position of a scan, deleteRecord returns, and the calls of
    scanNext that follow it return the RIDs they would have returned without
    it, then NOMORERECS. *)
Theorem delete_keeps_scan
    (f : string) (D : Ref.DbFile) (nb : nat) (B : gmap (string * Z) positive)
    (t : HeapFileScan) (s : Sys) (l : list Z) (j : nat) (hno : Z)
    (h0 : FileHdrPage) :
  (size B < nb)%nat ->
  scan_at f D nb B t s l j ->
  headerPage (base t) = (f, hno) ->
  Ref.frames D !! hno = Some (Ref.HdrFrame h0) ->
  (hno ∉ l) ->
  exists st t1 s1,
    HeapFileScan_deleteRecord t s = Ret (st, t1, s1)
    /\ (exists ta sa, scan_run t s (file_matches t (Ref.frames D) l j) ta sa)
    /\ (exists tb sb, scan_run t1 s1 (file_matches t (Ref.frames D) l j) tb sb).
Proof.
  intros HB Hat Hhp Hhdr Hnl.
  assert (Hplain : exists ta sa, scan_run t s (file_matches t (Ref.frames D) l j) ta sa).
  { destruct (scan_run_enumerates f D nb B HB _ t s l j Hat eq_refl)
      as (ta & sa & Hrun & _). eauto. }
  destruct Hat as (Hf & Hcp & HD & Hnb & Hpins & Hc & Hslot).
  destruct (chain_head _ _ _ Hc) as [l' ->].
  destruct (chain_data _ _ _ (curPageNo (base t)) Hc ltac:(left)) as [dk Hdk].
  assert (Hne : hno <> curPageNo (base t)).
  { intros ->. apply Hnl. left. }
  remember (file_matches t (Ref.frames D) (curPageNo (base t) :: l') j) as R eqn:HR.
  unfold HeapFileScan_deleteRecord. rewrite Hcp. simpl.
  unfold Page_deleteRecord. simpl. unfold Ref.deleteRecord.
  rewrite (frame_at_hit _ _ _ _ HD), Hdk, Hhp. simpl.
  (* the state after the header write, whatever the page-level delete did *)
  assert (Hafter : forall (w : Ref.World) D1 h1,
             Ref.files w !! f = Some D1 ->
             Ref.numBufs w = nb -> Ref.pins w = Ref.pins (world s) ->
             Ref.frames D1 !! hno = Some (Ref.HdrFrame h0) ->
             Ref.chain (Ref.frames D1) (curPageNo (base t)) (curPageNo (base t) :: l') ->
             file_matches t (Ref.frames D1) (curPageNo (base t) :: l') j = R ->
             forall tr,
             exists tb sb,
               scan_run
                 (set_base t
                    (set_hdrDirtyFlag
                       (set_hdr (set_curDirtyFlag (base t) true) h1) true))
                 (mkSys (Ref.store (f, hno) h1 w) tr) R tb sb).
  { intros w D1 h1 HD1 Hnb1 Hp1 Hh1 Hc1 Hsame tr.
    destruct (set_frame_file f w hno (Ref.HdrFrame h1) D1 HD1 ltac:(eauto)) as [Hf2 Hp2].
    set (t1 := set_base t _).
    match goal with |- context [scan_run _ ?sx _ _ _] => set (s1 := sx) end.
    destruct (scan_run_enumerates f
                (Ref.mkFile (Ref.firstPageNo D1) (Ref.numPages D1)
                   (<[hno := Ref.HdrFrame h1]> (Ref.frames D1)))
                nb B HB R t1 s1 (curPageNo (base t) :: l') j)
      as (tb & sb & Hrun & _).
    - unfold scan_at, t1, s1. simpl. unfold Ref.store. rewrite Hf2, Hp2, Hp1, Hpins.
      repeat split; try assumption.
      + rewrite (set_frame_hit _ _ _ _ _ HD1 ltac:(eauto)). simpl. exact Hnb1.
      + apply chain_update_other; assumption.
    - rewrite (file_matches_scan t t1) by reflexivity. rewrite <- Hsame.
      cbn [Ref.frames]. clear - Hnl.
      assert (Hgen : forall l0 from,
                 hno ∉ l0 ->
                 file_matches t (<[hno := Ref.HdrFrame h1]> (Ref.frames D1)) l0 from
                 = file_matches t (Ref.frames D1) l0 from).
      { induction l0 as [| k l0 IH]; intros from Hn; [reflexivity |].
        apply not_elem_of_cons in Hn as [Hk Hn]. cbn [file_matches].
        rewrite lookup_insert_ne by congruence. rewrite IH by exact Hn. reflexivity. }
      apply Hgen. exact Hnl.
    - eauto. }
  destruct (Ref.live_slot dk (slotNo (curRec (base t)))) as [r |] eqn:Hlive.
  - (* the record is deleted *)
    eexists _, _, _. split; [reflexivity |]. split; [exact Hplain |].
    destruct (set_frame_file f (world s) (curPageNo (base t))
                (Ref.DataFrame (Ref.mkPage (Ref.nextPage dk) (Ref.curPage dk)
                                  (<[Z.to_nat (slotNo (curRec (base t))) := None]>
                                     (Ref.slots dk))))
                D HD ltac:(eauto)) as [Hf1 Hp1].
    eapply (Hafter _ _ _ Hf1).
    + rewrite (set_frame_hit _ _ _ _ _ HD ltac:(eauto)). simpl. exact Hnb.
    + exact Hp1.
    + simpl. rewrite lookup_insert_ne by congruence. exact Hhdr.
    + simpl. eapply chain_update_data; [exact Hc | exact Hdk | reflexivity].
    + rewrite HR. cbn [Ref.frames file_matches]. rewrite lookup_insert_eq, Hdk.
      assert (Hrest : forall l0 from,
                 curPageNo (base t) ∉ l0 ->
                 file_matches t
                   (<[curPageNo (base t) :=
                        Ref.DataFrame (Ref.mkPage (Ref.nextPage dk) (Ref.curPage dk)
                                         (<[Z.to_nat (slotNo (curRec (base t))) := None]>
                                            (Ref.slots dk)))]> (Ref.frames D)) l0 from
                 = file_matches t (Ref.frames D) l0 from).
      { induction l0 as [| k l0 IH]; intros from Hn; [reflexivity |].
        apply not_elem_of_cons in Hn as [Hk Hn]. cbn [file_matches].
        rewrite lookup_insert_ne by congruence. rewrite IH by exact Hn. reflexivity. }
      rewrite Hrest by (pose proof (chain_NoDup _ _ _ Hc) as Hnd;
                        apply NoDup_cons in Hnd as [Hn _]; exact Hn).
      f_equal. apply page_matches_insert_before.
      unfold Ref.live_slot in Hlive.
      destruct (Z.ltb_spec (slotNo (curRec (base t))) 0) as [Hneg | Hpos];
        [discriminate |].
      destruct Hslot as [[_ Hnull] | [Hj Hs]]; [rewrite Hnull in Hpos; simpl in Hpos; lia |].
      lia.
  - (* nothing to delete *)
    eexists _, _, _. split; [reflexivity |]. split; [exact Hplain |].
    eapply (Hafter _ _ _ HD Hnb eq_refl Hhdr Hc). symmetry. exact HR.
Qed.

End ScanFacts.


Section LifecycleMore.
Context `{PF : Platform}.
#[local] Existing Instance Ref.collab.
Implicit Types name : string.

Lemma reachable_consistent name c :
  0 < sizeof_int -> reachable name c -> consistent name c.
Proof.
  intros Hint Hreach. induction Hreach as [s s' Hfree Hrun | c c' _ IH Hstep].
  - destruct (createHeapFile_fresh name s s' Hint Hfree Hrun) as (d & h & Hf & Hd & _).
    exists d, h, [2]. simpl. auto using Forall_nil_2.
  - exact (step_consistent name c c' IH Hstep).
Qed.

Lemma chain_last_end (fr : gmap Z Ref.Frame) n l :
  Ref.chain fr n l ->
  forall m, last l = Some m ->
            exists dm, fr !! m = Some (Ref.DataFrame dm) /\ Ref.nextPage dm = -1.
Proof.
  induction 1 as [n d Hn Hend | n d l Hn Hmore Hnin Hc IH]; intros m Hlast.
  - injection Hlast as <-. eauto.
  - destruct (chain_head _ _ _ Hc) as [l' ->]. rewrite last_cons_cons in Hlast.
    apply IH. exact Hlast.
Qed.

(** X19.  On the reference collaborators, in every state reached from the
    creation of the file by opening scans and insert scans, with success or
    not, any number at a time, by the calls of a scan that return (startScan,
    scanNext, both getRecord, markScan, resetScan, deleteRecord, markDirty,
    endScan), by those of an insert scan (getRecord, and insertRecord called
    in order: on a page of data, which if it has no room is the page the
    header names as last and is pinned), by closing, and by createHeapFile on
    the name again, the header page names the two ends of the chain of data
    pages: firstPage is its first page and lastPage its last, whose link is
    the end mark; no page is chained twice, the header page is not in the
    chain, and every page of data of the file is.  Every open object has the
    header page behind its headerPage, and its getRecCnt returns the count the
    header page holds. *)
Theorem header_names_chain_ends name c :
  0 < sizeof_int ->
  reachable name c ->
  exists d h l,
    Ref.files (world (sys c)) !! name = Some d
    /\ Ref.frames d !! Ref.firstPageNo d = Some (Ref.HdrFrame h)
    /\ Ref.chain (Ref.frames d) (firstPage h) l
    /\ last l = Some (lastPage h)
    /\ (exists dl, Ref.frames d !! lastPage h = Some (Ref.DataFrame dl)
                   /\ Ref.nextPage dl = -1)
    /\ NoDup l
    /\ (Ref.firstPageNo d ∉ l)
    /\ (forall k dk, Ref.frames d !! k = Some (Ref.DataFrame dk) -> k ∈ l)
    /\ (forall o,
          o ∈ objs c ->
          headerPage (base_of o) = (name, Ref.firstPageNo d)
          /\ HeapFile_getRecCnt (sees (base_of o) (sys c)) = recCnt h).
Proof.
  intros Hint Hreach.
  destruct (reachable_consistent name c Hint Hreach)
    as (d & h & l & Hf & Hd & Hatt).
  pose proof Hd as (Hh & Hc & Hlast & Hnl & _ & _ & Hall).
  exists d, h, l. split; [exact Hf |]. split; [exact Hh |]. split; [exact Hc |].
  split; [exact Hlast |]. split; [exact (chain_last_end _ _ _ Hc _ Hlast) |].
  split; [exact (chain_NoDup _ _ _ Hc) |]. split; [exact Hnl |].
  split; [exact Hall |].
  intros o Ho. rewrite Forall_forall in Hatt. destruct (Hatt o Ho) as (_ & Hhp & _).
  split; [exact Hhp |]. unfold HeapFile_getRecCnt.
  rewrite (sees_hdr _ _ _ _ _ _ Hf Hd Hhp). reflexivity.
Qed.

Lemma scan_run_header (t t' : HeapFileScan) (s s' : Sys) rids :
  scan_run t s rids t' s' ->
  filePtr (base t') = filePtr (base t)
  /\ headerPageNo (base t') = headerPageNo (base t).
Proof.
  induction 1 as [t s fuel t' s' Hrun | t s fuel rid t1 s1 rids t' s' Hrun _ IH].
  - apply scanNext_loop_header in Hrun as (Hf & _ & _ & Hn & _). auto.
  - apply scanNext_loop_header in Hrun as (Hf & _ & _ & Hn & _).
    destruct IH as [IHf IHn]. split; congruence.
Qed.

Lemma size_pin_le (k : string * Z) (P : gmap (string * Z) positive) :
  (size (Ref.pin k P) <= S (size P))%nat.
Proof.
  unfold Ref.pin. destruct (P !! k) as [c |] eqn:Hk.
  - rewrite map_size_insert_Some by eauto. lia.
  - rewrite map_size_insert_None by exact Hk. lia.
Qed.

(** HeapFile::HeapFile succeeds on a file whose header page names a page
    of data, when the pool has two frames free. *)
Lemma ref_HeapFile_new_ok name (s : Sys) d h :
  Ref.files (world s) !! name = Some d ->
  Ref.frames d !! Ref.firstPageNo d = Some (Ref.HdrFrame h) ->
  is_Some (Ref.frames d !! firstPage h) ->
  (size (Ref.pins (world s)) + 2 <= Ref.numBufs (world s))%nat ->
  exists s',
    HeapFile_new name s
    = Ret (OK,
           Some (mkHeapFile name (name, Ref.firstPageNo d) h (Ref.firstPageNo d) false
                   (Some (name, firstPage h)) (firstPage h) false NULLRID),
           s')
    /\ world s'
       = Ref.set_pins (world s)
           (Ref.pin (name, firstPage h)
              (Ref.pin (name, Ref.firstPageNo d) (Ref.pins (world s)))).
Proof.
  intros Hf Hh Hfirst Hroom. unfold HeapFile_new.
  rewrite (ref_openFile_hit _ _ _ Hf). simpl.
  rewrite ref_getFirstPage_hit with (d := d) by exact Hf. simpl.
  rewrite ref_readPage_ok.
  2:{ right. split; [simpl; lia |].
      unfold Ref.frame_at. simpl. rewrite Hf. simpl. rewrite Hh. eauto. }
  simpl.
  assert (Hload : forall P,
             Ref.load (name, Ref.firstPageNo d) (Ref.set_pins (world s) P) = h).
  { intros P. unfold Ref.load, Ref.frame_at. simpl. rewrite Hf. simpl.
    rewrite Hh. reflexivity. }
  rewrite !Hload.
  rewrite ref_readPage_ok.
  2:{ right. split.
      - simpl.
        pose proof (size_pin_le (name, Ref.firstPageNo d) (Ref.pins (world s))). lia.
      - unfold Ref.frame_at. simpl. rewrite Hf. simpl. exact Hfirst. }
  simpl. eexists. split; reflexivity.
Qed.


(** A scan opened on a reachable state with two free frames. *)
Lemma scan_of_reachable name c (junk : Scan.members) :
  0 < sizeof_int ->
  reachable name c ->
  (size (Ref.pins (world (sys c))) + 2 <= Ref.numBufs (world (sys c)))%nat ->
  exists d h l t0 s0,
    Ref.files (world (sys c)) !! name = Some d
    /\ Ref.frames d !! Ref.firstPageNo d = Some (Ref.HdrFrame h)
    /\ Ref.chain (Ref.frames d) (firstPage h) l
    /\ HeapFileScan_new name junk (sys c) = Ret (OK, Some t0, s0)
    /\ forall offset_ length_ type_ filter_ op_ t,
         HeapFileScan_startScan offset_ length_ type_ filter_ op_ t0 = (OK, t) ->
         exists t' s',
           scan_run t s0 (file_matches t (Ref.frames d) l 0) t' s'
           /\ world (HeapFileScan_delete t' s') = world (sys c).
Proof.
  intros Hint Hreach Hroom.
  destruct (reachable_consistent name c Hint Hreach)
    as (d & h & l & Hf & (Hh & Hc & _) & _).
  destruct (chain_head _ _ _ Hc) as [l' ->].
  destruct (chain_data _ _ _ (firstPage h) Hc ltac:(left)) as [d1 Hd1].
  destruct (ref_HeapFile_new_ok name (sys c) d h Hf Hh ltac:(eauto) Hroom)
    as (s0 & Hnew & Hw0).
  exists d, h, (firstPage h :: l'). eexists. exists s0.
  split; [exact Hf |]. split; [exact Hh |]. split; [exact Hc |].
  split; [unfold HeapFileScan_new; rewrite Hnew; reflexivity |].
  intros offset_ length_ type_ filter_ op_ t Hstart.
  assert (Hbase : base t
                  = mkHeapFile name (name, Ref.firstPageNo d) h (Ref.firstPageNo d) false
                      (Some (name, firstPage h)) (firstPage h) false NULLRID).
  { unfold HeapFileScan_startScan in Hstart. simpl in Hstart.
    destruct filter_; [destruct (bad_scan_parm _ _ _ _) |];
      inversion Hstart; subst; reflexivity. }
  set (B := Ref.pin (name, Ref.firstPageNo d) (Ref.pins (world (sys c)))).
  destruct (scan_run_from_start name d B t s0 (firstPage h :: l'))
    as (t' & s' & Hrun & Hnone & Hw').
  - rewrite Hbase. reflexivity.
  - rewrite Hbase. reflexivity.
  - rewrite Hbase. reflexivity.
  - rewrite Hw0. exact Hf.
  - rewrite Hbase. exact Hc.
  - rewrite Hw0, Hbase. reflexivity.
  - rewrite Hw0. simpl.
    pose proof (size_pin_le (name, Ref.firstPageNo d) (Ref.pins (world (sys c)))).
    unfold B. lia.
  - exists t', s'. split; [exact Hrun |].
    destruct (scan_run_header _ _ _ _ _ Hrun) as [Hfp Hhn].
    rewrite Hbase in Hfp, Hhn. simpl in Hfp, Hhn.
    unfold HeapFileScan_delete, HeapFileScan_endScan. rewrite Hnone.
    unfold HeapFile_delete. rewrite Hnone, Hfp, Hhn.
    rewrite ref_unPinPage_ok by (rewrite Hw'; apply pin_is_Some).
    simpl. rewrite Hw', Hw0. simpl. unfold B. rewrite unpin_pin.
    destruct (world (sys c)). reflexivity.
Qed.

(** X20.  On the reference collaborators, in a state reached from the
    creation of the file as in X19 (any number of open objects, insertRecord
    called in order) in which the pool has two frames free: opening a scan
    succeeds; after any startScan that returns OK, the calls of scanNext,
    with no other call in between, return the RIDs of the records the filter
    accepts on the data pages of the file, in chain and slot order, and then
    NOMORERECS; closing the scan leaves the database as it was before the
    scan was opened. *)
Theorem full_scan_round_trip name c (junk : Scan.members) :
  0 < sizeof_int ->
  reachable name c ->
  (size (Ref.pins (world (sys c))) + 2 <= Ref.numBufs (world (sys c)))%nat ->
  exists d h l t0 s0,
    Ref.files (world (sys c)) !! name = Some d
    /\ Ref.frames d !! Ref.firstPageNo d = Some (Ref.HdrFrame h)
    /\ Ref.chain (Ref.frames d) (firstPage h) l
    /\ HeapFileScan_new name junk (sys c) = Ret (OK, Some t0, s0)
    /\ forall offset_ length_ type_ filter_ op_ t,
         HeapFileScan_startScan offset_ length_ type_ filter_ op_ t0 = (OK, t) ->
         exists t' s',
           scan_run t s0 (file_matches t (Ref.frames d) l 0) t' s'
           /\ world (HeapFileScan_delete t' s') = world (sys c).
Proof. exact (scan_of_reachable name c junk). Qed.


(** X21.  On the reference collaborators, a record is found by a scan that
    follows its insertion.  In a state reached as in X19, an insert scan is
    called in order and insertRecord returns OK with a RID; the insert scan
    is closed, which leaves two frames of the pool free; then a scan that is
    opened, and whose filter accepts the record, returns that RID among its
    RIDs. *)
Theorem inserted_record_is_scanned
    name c (i : nat) (t t' : HeapFile) (s' : Sys) (rec : Rec.t) (rid : RID)
    (junk : Scan.members) :
  0 < sizeof_int ->
  reachable name c ->
  objs c !! i = Some (InsObj t) ->
  inserts_in_order rec (sees t (sys c)) (sys c) ->
  InsertFileScan_insertRecord rec (sees t (sys c)) (sys c) = Ret (OK, Some rid, t', s') ->
  (size (Ref.pins (world (InsertFileScan_delete t' s'))) + 2
   <= Ref.numBufs (world (InsertFileScan_delete t' s')))%nat ->
  exists t0 s0,
    HeapFileScan_new name junk (InsertFileScan_delete t' s') = Ret (OK, Some t0, s0)
    /\ forall offset_ length_ type_ filter_ op_ t2,
         HeapFileScan_startScan offset_ length_ type_ filter_ op_ t0 = (OK, t2) ->
         HeapFileScan_matchRec t2 rec = true ->
         exists rids t3 s3, scan_run t2 s0 rids t3 s3 /\ rid ∈ rids.
Proof.
  intros Hint Hreach Hi Horder Hrun Hroom.
  destruct c as [s os]. simpl in *.
  (* before the insert *)
  destruct (reachable_consistent _ _ Hint Hreach) as (d & h & l & Hf & Hd & Hatt).
  simpl in Hf, Hatt.
  destruct (Forall_lookup_1 _ _ _ _ Hatt Hi) as (Hfp & Hhp & Hshape).
  simpl in Hfp, Hhp, Hshape.
  pose proof Hd as (Hh & Hc & _ & _ & _ & Hb & _).
  destruct (curPage t) as [page |] eqn:Hcp.
  2:{ unfold InsertFileScan_insertRecord in Hrun. simpl in Hrun. rewrite Hcp in Hrun.
      destruct (uint_wrap (Rec.length rec) >? uint_wrap (PAGESIZE - DPFIXED));
        discriminate. }
  pose proof (Hshape _ eq_refl) as Hpage. subst page.
  destruct (Horder _ Hcp) as [[dk Hdk] _].
  rewrite (frame_at_hit _ _ _ _ Hf) in Hdk.
  destruct (ref_insertRecord_run name rec (sees t s) t' s s' rid (Ref.firstPageNo d) d h dk
              Hfp Hhp Hcp Hf ltac:(intros n Hn; apply Hb; exact Hn) Hh Hdk Hrun)
    as (D' & dk' & _ & Hpn & _ & HD' & _ & Hdk' & Hlive & _).
  (* after the insert, and after the insert scan is closed *)
  assert (Hreach1 : reachable name (mkCfg s' (<[i := InsObj t']> os))).
  { eapply reach_step; [exact Hreach |]. eapply step_insert; [exact Hi |].
    eapply call_insertRecord; eassumption. }
  destruct (reachable_consistent _ _ Hint Hreach1)
    as (d1 & h1 & l1 & Hf1 & Hd1 & _).
  simpl in Hf1.
  assert (d1 = D') by congruence. subst d1.
  pose proof Hd1 as (Hh1 & Hc1 & _ & _ & _ & _ & Hall1).
  assert (Hreach2 : reachable name
            (mkCfg (InsertFileScan_delete t' s') (delete i (<[i := InsObj t']> os)))).
  { eapply reach_step; [exact Hreach1 |]. apply step_close_insert.
    apply list_lookup_insert_eq. exact (lookup_lt_Some _ _ _ Hi). }
  destruct (scan_of_reachable name _ junk Hint Hreach2 Hroom)
    as (d2 & h2 & l2 & t0 & s0 & Hf2 & Hh2 & Hc2 & Hnew & Hscan).
  simpl in Hf2, Hnew.
  rewrite InsertFileScan_delete_files in Hf2.
  assert (d2 = D') by congruence. subst d2.
  assert (h2 = h1) by congruence. subst h2.
  pose proof (chain_unique _ _ _ _ Hc2 Hc1). subst l2.
  exists t0, s0. split; [exact Hnew |].
  intros offset_ length_ type_ filter_ op_ t2 Hstart Hmatch.
  destruct (Hscan _ _ _ _ _ _ Hstart) as (t3 & s3 & Hruns & _).
  eexists _, t3, s3. split; [exact Hruns |].
  apply file_matches_elem.
  exists (curPageNo t'), dk', (Z.to_nat (slotNo rid)), rec.
  split; [exact (Hall1 _ _ Hdk') |]. split; [exact Hdk' |].
  unfold Ref.live_slot in Hlive.
  destruct (Z.ltb_spec (slotNo rid) 0) as [Hneg | Hpos]; [discriminate |].
  split.
  { destruct (Ref.slots dk' !! Z.to_nat (slotNo rid)) as [[r |] |]; congruence. }
  split; [exact Hmatch |].
  destruct rid as [pn sn]. simpl in *. rewrite Z2Nat.id by exact Hpos. congruence.
Qed.

End LifecycleMore.

(** ** The code on concrete inputs *)
Section Runs.
#[local] Existing Instance X86.platform.
#[local] Existing Instance Ref.collab.

(** C6 on a failing input.  The record holds INT_MIN and the filter holds 1:
    the attribute is less than the filter, their exact difference is
    negative, and matchRec with operator LT answers false, because
    [iattr - ifltr] wraps around to INT_MAX. *)
Theorem matchRec_integer_wraps :
  int_of_bytes (Rec.data Ex.rec_int_min) = -2147483648
  /\ int_of_bytes [x01; x00; x00; x00] = 1
  /\ int_of_bytes (Rec.data Ex.rec_int_min) - int_of_bytes [x01; x00; x00; x00] < 0
  /\ HeapFileScan_matchRec (Ex.scan_with Ex.less_than_one) Ex.rec_int_min = false.
Proof. vm_compute. repeat split; reflexivity. Qed.

Lemma insertRecord_oversized_witness :
  InsertFileScan_insertRecord Ex.rec_oversized (base (Ex.scan_with Ex.less_than_one))
    (Ex.fresh 3)
  = Ret (INVALIDRECLEN, None, base (Ex.scan_with Ex.less_than_one), Ex.fresh 3).
Proof.
  apply insertRecord_oversized; vm_compute; congruence.
Defined.

(** C1 as stated fails.  getRecord for RID (3, 7) switches from page 2 to
    page 3, and the read on page 3 fails with INVALIDSLOTNO.  getRecord
    returns that status, but the calls it made end with the read: page 3 is
    not unpinned, its pin count is 1 and it is the current page. *)
Lemma getRecord_read_failure_counterexample :
  exists this' s',
    HeapFile_getRecord (mkRID 3 7) Ex.opened (Ex.two_pages_open 3)
    = Ret (INVALIDSLOTNO, None, this', s')
    /\ trace s' = [EvUnPinPage "t1" 2 false; EvReadPage "t1" 3;
                   EvGetRecord ("t1", 3) (mkRID 3 7)]
    /\ (forall dirty, EvUnPinPage "t1" 3 dirty ∉ trace s')
    /\ Ref.pins (world s') !! ("t1", 3) = Some 1%positive
    /\ curPage this' = Some ("t1", 3)
    /\ curPageNo this' = 3.
Proof.
  eexists _, _. split; [reflexivity |]. split; [reflexivity |].
  split; [| repeat split; reflexivity].
  intros dirty Hin. cbn [trace] in Hin.
  repeat (apply elem_of_cons in Hin as [Hin | Hin]; [discriminate |]).
  exact (not_elem_of_nil _ Hin).
Qed.

Lemma getRecord_read_failure_witness :
  exists s3,
    HeapFile_getRecord (mkRID 3 7) Ex.opened (Ex.two_pages_open 3)
    = Ret (INVALIDSLOTNO, None,
           mkHeapFile "t1" ("t1", 1) (mkHdr "t1" 2 3 3 2) 1 false
             (Some ("t1", 3)) 3 false NULLRID,
           s3)
    /\ trace s3 = [EvUnPinPage "t1" 2 false; EvReadPage "t1" 3;
                   EvGetRecord ("t1", 3) (mkRID 3 7)]
    /\ Ref.pins (world s3) !! ("t1", 3) = Some 1%positive.
Proof.
  edestruct (getRecord_read_failure_keeps_pin (mkRID 3 7) Ex.opened (Ex.two_pages_open 3))
    as [Hret Htr];
    [ reflexivity | vm_compute; congruence | reflexivity | reflexivity
    | reflexivity | discriminate | ].
  eexists. split; [exact Hret | split; [exact Htr | reflexivity]].
Defined.

Lemma scanNext_reads_link_after_unpin_witness :
  exists s',
    HeapFileScan_scanNext 2 Ex.scan_on_page_2 (Ex.two_pages_open 3)
    = Ret (OK, Some (mkRID 3 0),
           mkScan (mkHeapFile "t1" ("t1", 1) (mkHdr "t1" 2 3 3 2) 1 false
                     (Some ("t1", 3)) 3 false (mkRID 3 0)) Ex.no_filter,
           s')
    /\ exists rest,
         trace s' = [] ++ [EvNextRecord ("t1", 2) (mkRID 2 0);
                           EvUnPinPage "t1" 2 false;
                           EvGetNextPage ("t1", 2)] ++ rest.
Proof.
  eexists. split; [reflexivity |].
  eapply (scanNext_reads_link_after_unpin 1 None None Ex.scan_on_page_2
            (Ex.two_pages_open 3));
    [reflexivity | reflexivity | right; reflexivity | reflexivity | reflexivity].
Defined.

Lemma deleteRecord_unconditional_witness :
  Ref.live_records (world (Ex.two_pages_open 3)) "t1" = 2
  /\ recCnt (hdr (base Ex.scan_start)) = 2
  /\ exists this' s',
       HeapFileScan_deleteRecord Ex.scan_start (Ex.two_pages_open 3)
       = Ret (INVALIDSLOTNO, this', s')
       /\ recCnt (hdr (base this')) = 1
       /\ curDirtyFlag (base this') = true
       /\ hdrDirtyFlag (base this') = true
       /\ Ref.live_records (world s') "t1" = 2.
Proof.
  split; [reflexivity | split; [reflexivity |]].
  edestruct (deleteRecord_unconditional Ex.scan_start (Ex.two_pages_open 3))
    as (this' & s' & Hret & Hcnt & Hcur & Hhdr & Hworld & _);
    [reflexivity | reflexivity | reflexivity |].
  exists this', s'.
  split; [exact Hret |].
  split; [exact Hcnt |].
  split; [exact Hcur |].
  split; [exact Hhdr |].
  rewrite Hworld. reflexivity.
Defined.

(** C4 as stated fails.  The only data page of the file is full and the
    record fits a page, so the insert has to grow the file; but both frames
    of the pool are pinned, allocPage fails, and insertRecord returns
    BUFFEREXCEEDED: no page is allocated, pageCnt stays 2, no RID comes back. *)
Lemma insertRecord_full_pool_counterexample :
  (Page_insertRecord ("t1", 2) Ex.rec_five (Ex.full_page_open 2)).1.1 = NOSPACE
  /\ (uint_wrap (Rec.length Ex.rec_five) >? uint_wrap (PAGESIZE - DPFIXED)) = false
  /\ (exists s',
        InsertFileScan_insertRecord Ex.rec_five Ex.inserting (Ex.full_page_open 2)
        = Ret (BUFFEREXCEEDED, None, Ex.inserting, s')
        /\ Ref.files (world s') = Ex.full_page)
  /\ ~ (exists rid this' s',
          InsertFileScan_insertRecord Ex.rec_five Ex.inserting (Ex.full_page_open 2)
          = Ret (OK, Some rid, this', s')
          /\ pageCnt (hdr this') = pageCnt (hdr Ex.inserting) + 1).
Proof.
  assert (Hrun : exists s',
             InsertFileScan_insertRecord Ex.rec_five Ex.inserting (Ex.full_page_open 2)
             = Ret (BUFFEREXCEEDED, None, Ex.inserting, s')
             /\ Ref.files (world s') = Ex.full_page).
  { eexists. split; reflexivity. }
  split; [reflexivity | split; [reflexivity | split; [exact Hrun |]]].
  destruct Hrun as (s0 & Hrun & _).
  intros (rid & this' & s' & Hret & _). rewrite Hrun in Hret. discriminate.
Qed.

Lemma insertRecord_grows_file_witness :
  exists this' s',
    InsertFileScan_insertRecord Ex.rec_five Ex.inserting (Ex.full_page_open 3)
    = Ret (OK, Some (mkRID 3 0), this', s')
    /\ pageCnt (hdr this') = pageCnt (hdr Ex.inserting) + 1
    /\ lastPage (hdr this') = 3
    /\ recCnt (hdr this') = int_wrap (recCnt (hdr Ex.inserting) + 1)
    /\ curPage this' = Some ("t1", 3)
    /\ curPageNo this' = 3
    /\ Ref.files (world s') = Ex.two_pages.
Proof.
  edestruct (insertRecord_grows_file Ex.rec_five Ex.inserting (Ex.full_page_open 3))
    as (this' & s' & Hret & Hpc & Hlp & Hrc & Hcp & Hcn & Hw & Ht);
    [ reflexivity | vm_compute; split; congruence | vm_compute; congruence | reflexivity
    | reflexivity | reflexivity | reflexivity | reflexivity | reflexivity | ].
  assert (Hh : hdr this' = mkHdr "t1" 2 3 3 2).
  { assert (Hrun : exists t s0,
               InsertFileScan_insertRecord Ex.rec_five Ex.inserting (Ex.full_page_open 3)
               = Ret (OK, Some (mkRID 3 0), t, s0)
               /\ fileName (hdr t) = "t1" /\ firstPage (hdr t) = 2).
    { eexists _, _. split; [reflexivity | split; reflexivity]. }
    destruct Hrun as (t & s0 & Hrun & Hnm & Hfp).
    rewrite Hrun in Hret. injection Hret as Heqt _. subst t.
    destruct (hdr this') as [nm fp lp pc rc]. simpl in *. subst. reflexivity. }
  exists this', s'.
  split; [exact Hret |].
  split; [exact Hpc |].
  split; [exact Hlp |].
  split; [exact Hrc |].
  split; [exact Hcp |].
  split; [exact Hcn |].
  rewrite Hw, Hh. reflexivity.
Defined.

(** C9 as stated fails.  No file "t1" exists, the pool has a single frame:
    the header page takes it, the allocation of the data page fails, and
    createHeapFile returns BUFFEREXCEEDED, leaving a file whose header names
    no data page (firstPage = lastPage = 0) and which has no data page. *)
Lemma createHeapFile_full_pool_counterexample :
  Ref.files (world (Ex.fresh 1)) !! "t1" = None
  /\ exists s',
       createHeapFile "t1" (Ex.fresh 1) = Ret (BUFFEREXCEEDED, s')
       /\ Ref.files (world s') !! "t1"
          = Some (Ref.mkFile 1 2 {[ 1 := Ref.HdrFrame (mkHdr "t1" 0 0 2 0) ]}).
Proof.
  split; [reflexivity |]. eexists. split; reflexivity.
Qed.

Lemma createHeapFile_creates_witness :
  (createHeapFile "t1" (Ex.two_pages_open 3)
   = Ret (FILEEXISTS, mkSys (world (Ex.two_pages_open 3)) [EvOpenFile "t1"]))
  /\ exists s7,
       createHeapFile "t1" (Ex.fresh 2) = Ret (OK, s7)
       /\ trace s7 = [EvOpenFile "t1"; EvCreateFile "t1"; EvOpenFile "t1";
                      EvAllocPage "t1"; EvAllocPage "t1"; EvInit ("t1", 2) 2;
                      EvUnPinPage "t1" 1 true; EvUnPinPage "t1" 2 true]
       /\ Ref.files (world s7) !! "t1"
          = Some (Ref.mkFile 1 3
                    {[ 1 := Ref.HdrFrame (mkHdr "t1" 2 2 2 0);
                       2 := Ref.DataFrame (Ref.mkPage (-1) 2 []) ]}).
Proof.
  split.
  - apply (createHeapFile_creates "t1" (Ex.two_pages_open 3) _ OK (Some "t1")
             eq_refl). reflexivity.
  - eexists. split; [| split].
    + eapply (createHeapFile_creates "t1" (Ex.fresh 2) _ UNIXERR None eq_refl);
        [discriminate | reflexivity | reflexivity | reflexivity | reflexivity
        | reflexivity | reflexivity | reflexivity | reflexivity].
    + reflexivity.
    + reflexivity.
Defined.

Lemma mark_reset_round_trip_witness :
  exists t2 s2 t3 s3 t4 s4,
    nexts (HeapFileScan_markScan Ex.scan_start).2 (Ex.two_pages_open 3) t2 s2
    /\ curRec (base t2) = mkRID 3 0
    /\ HeapFileScan_resetScan t2 s2 = (OK, t3, s3)
    /\ HeapFileScan_scanNext 3 (HeapFileScan_markScan Ex.scan_start).2
         (Ex.two_pages_open 3)
       = Ret (OK, Some (mkRID 2 0), t4, s4)
    /\ same_next (HeapFileScan_scanNext 3 t3 s3)
         (Ret (OK, Some (mkRID 2 0), t4, s4)).
Proof.
  assert (Hn : exists t2 s2,
             nexts (HeapFileScan_markScan Ex.scan_start).2 (Ex.two_pages_open 3) t2 s2
             /\ curRec (base t2) = mkRID 3 0).
  { eexists _, _. split.
    - eapply nexts_more with (fuel := 3%nat); [reflexivity |].
      eapply nexts_more with (fuel := 3%nat); [reflexivity |].
      apply nexts_none.
    - reflexivity. }
  destruct Hn as (t2 & s2 & Hn & Hrec).
  destruct (mark_reset_round_trip Ex.scan_start t2 (Ex.two_pages_open 3) s2)
    as (t3 & s3 & Hreset & Hsame & _);
    [ reflexivity | eexists; reflexivity | eexists; reflexivity
    | apply Nat.leb_le; reflexivity | exact Hn | ].
  assert (Hfirst : exists t4 s4,
             HeapFileScan_scanNext 3 (HeapFileScan_markScan Ex.scan_start).2
               (Ex.two_pages_open 3)
             = Ret (OK, Some (mkRID 2 0), t4, s4)).
  { eexists _, _. reflexivity. }
  destruct Hfirst as (t4 & s4 & Hfirst).
  exists t2, s2, t3, s3, t4, s4.
  split; [exact Hn |]. split; [exact Hrec |]. split; [exact Hreset |].
  split; [exact Hfirst |].
  rewrite <- Hfirst. apply Hsame.
Defined.

(** C2 as stated fails on the file createHeapFile has just made: its chain
    holds the one data page 2, and the header's pageCnt is 2, not 1. *)
Lemma pageCnt_after_create_counterexample :
  exists s' d h,
    createHeapFile "t1" (Ex.fresh 2) = Ret (OK, s')
    /\ Ref.files (world s') !! "t1" = Some d
    /\ Ref.frames d !! Ref.firstPageNo d = Some (Ref.HdrFrame h)
    /\ Ref.chain_from 3 (Ref.frames d) (firstPage h) = Some [2]
    /\ pageCnt h = 2
    /\ pageCnt h <> Z.of_nat (List.length [2]).
Proof.
  eexists _, _, _. split; [reflexivity |]. split; [reflexivity |].
  split; [reflexivity |]. split; [reflexivity |]. split; [reflexivity |].
  discriminate.
Qed.

(** The invariant of C2 on a run with two objects open together: the file
    is created, opened for insertion and opened as a scan; the insert scan
    inserts [rec_full] on page 2 and [rec_five] on the new page 3; the scan,
    opened before the file grew, moves to the record of page 2 and deletes
    it.  The header then counts three pages, for a chain of two, and one
    record. *)
Lemma pageCnt_counts_header_page_witness :
  0 < sizeof_int
  /\ reachable "t1"
       (mkCfg Ex.shared_deleted [InsObj Ex.grown_obj; ScanObj Ex.scan_deleted])
  /\ Ref.load ("t1", 1) (world Ex.shared_deleted) = mkHdr "t1" 2 3 3 1
  /\ exists d h l,
       Ref.files (world Ex.shared_deleted) !! "t1" = Some d
       /\ Ref.frames d !! Ref.firstPageNo d = Some (Ref.HdrFrame h)
       /\ Ref.chain (Ref.frames d) (firstPage h) l
       /\ pageCnt h = int_wrap (Z.of_nat (List.length l) + 1)
       /\ (Z.of_nat (List.length l) < INT_MAX ->
           pageCnt h = Z.of_nat (List.length l) + 1).
Proof.
  assert (Hint : 0 < sizeof_int) by reflexivity.
  assert (Hcreated : reachable "t1" (mkCfg Ex.created [])).
  { apply (reach_created "t1" (Ex.fresh 3)); reflexivity. }
  assert (Hopen : reachable "t1" (mkCfg Ex.created_open [InsObj Ex.empty_open])).
  { apply (reach_step "t1" _ _ Hcreated).
    apply (step_open_insert "t1" Ex.created [] Ex.empty_open Ex.created_open).
    reflexivity. }
  assert (Hboth : reachable "t1"
            (mkCfg Ex.shared_open [InsObj Ex.empty_open; ScanObj Ex.shared_scan])).
  { apply (reach_step "t1" _ _ Hopen).
    apply (step_open_scan "t1" Ex.created_open [InsObj Ex.empty_open] Ex.no_filter
             Ex.shared_scan Ex.shared_open).
    reflexivity. }
  assert (Hfull : reachable "t1"
            (mkCfg Ex.shared_full [InsObj Ex.full_obj; ScanObj Ex.shared_scan])).
  { apply (reach_step "t1" _ _ Hboth).
    apply (step_insert "t1" Ex.shared_open [InsObj Ex.empty_open; ScanObj Ex.shared_scan]
             0 Ex.empty_open Ex.full_obj Ex.shared_full); [reflexivity |].
    apply (call_insertRecord _ _ Ex.rec_full OK (Some (mkRID 2 0))); [| reflexivity].
    intros page [= <-].
    split; [eexists; reflexivity | intros _; split; [reflexivity | eexists; reflexivity]]. }
  assert (Hgrown : reachable "t1"
            (mkCfg Ex.shared_grown [InsObj Ex.grown_obj; ScanObj Ex.shared_scan])).
  { apply (reach_step "t1" _ _ Hfull).
    apply (step_insert "t1" Ex.shared_full [InsObj Ex.full_obj; ScanObj Ex.shared_scan]
             0 Ex.full_obj Ex.grown_obj Ex.shared_grown); [reflexivity |].
    apply (call_insertRecord _ _ Ex.rec_five OK (Some (mkRID 3 0))); [| reflexivity].
    intros page [= <-].
    split; [eexists; reflexivity | intros _; split; [reflexivity | eexists; reflexivity]]. }
  assert (Hscanned : reachable "t1"
            (mkCfg Ex.shared_scanned [InsObj Ex.grown_obj; ScanObj Ex.scan_on_page_2])).
  { apply (reach_step "t1" _ _ Hgrown).
    apply (step_scan "t1" Ex.shared_grown [InsObj Ex.grown_obj; ScanObj Ex.shared_scan]
             1 Ex.shared_scan Ex.scan_on_page_2 Ex.shared_scanned); [reflexivity |].
    apply (call_scanNext _ _ 1%nat OK (Some (mkRID 2 0))). reflexivity. }
  assert (Hdeleted : reachable "t1"
            (mkCfg Ex.shared_deleted [InsObj Ex.grown_obj; ScanObj Ex.scan_deleted])).
  { apply (reach_step "t1" _ _ Hscanned).
    apply (step_scan "t1" Ex.shared_scanned
             [InsObj Ex.grown_obj; ScanObj Ex.scan_on_page_2]
             1 Ex.scan_on_page_2 Ex.scan_deleted Ex.shared_deleted); [reflexivity |].
    apply (call_deleteRecord _ _ OK). reflexivity. }
  split; [exact Hint |]. split; [exact Hdeleted |]. split; [reflexivity |].
  exact (proj2 (pageCnt_counts_header_page "t1" Hint) _ Hdeleted).
Defined.

(** File "t1" with its one page of data full, grown to two pages of data,
    the insert scan still open, and then closed: states reached from the
    creation of the file. *)
Lemma full_reachable :
  reachable "t1" (mkCfg Ex.full_open [InsObj Ex.full_obj]).
Proof.
  assert (Hcreated : reachable "t1" (mkCfg Ex.created [])).
  { apply (reach_created "t1" (Ex.fresh 3)); reflexivity. }
  assert (Hopen : reachable "t1" (mkCfg Ex.created_open [InsObj Ex.empty_open])).
  { apply (reach_step "t1" _ _ Hcreated).
    apply (step_open_insert "t1" Ex.created [] Ex.empty_open Ex.created_open).
    reflexivity. }
  apply (reach_step "t1" _ _ Hopen).
  apply (step_insert "t1" Ex.created_open [InsObj Ex.empty_open] 0 Ex.empty_open
           Ex.full_obj Ex.full_open); [reflexivity |].
  apply (call_insertRecord _ _ Ex.rec_full OK (Some (mkRID 2 0))); [| reflexivity].
  intros page [= <-].
  split; [eexists; reflexivity | intros _; split; [reflexivity | eexists; reflexivity]].
Qed.

Lemma full_in_order :
  inserts_in_order Ex.rec_five (sees Ex.full_obj Ex.full_open) Ex.full_open.
Proof.
  intros page [= <-].
  split; [eexists; reflexivity | intros _; split; [reflexivity | eexists; reflexivity]].
Qed.

Lemma grown_reachable :
  reachable "t1" (mkCfg Ex.grown_open [InsObj Ex.grown_obj]).
Proof.
  apply (reach_step "t1" _ _ full_reachable).
  apply (step_insert "t1" Ex.full_open [InsObj Ex.full_obj] 0 Ex.full_obj
           Ex.grown_obj Ex.grown_open); [reflexivity |].
  apply (call_insertRecord _ _ Ex.rec_five OK (Some (mkRID 3 0)));
    [exact full_in_order | reflexivity].
Qed.

Lemma grown_closed_reachable :
  reachable "t1" (mkCfg (InsertFileScan_delete Ex.grown_obj Ex.grown_open) []).
Proof.
  apply (reach_step "t1" _ _ grown_reachable).
  apply (step_close_insert "t1" Ex.grown_open [InsObj Ex.grown_obj] 0 Ex.grown_obj).
  reflexivity.
Qed.

(** Why C2 asks that insertRecord grow the file from its last page.  The
    file has the data pages 2 and 3 and is opened for insertion anew: page
    2, which is full, is the current page, and the header names page 3 as
    last.  insertRecord links the new page 4 after page 2: the chain is then
    2, 4, page 3 is cut off, and pageCnt is 4. *)
Lemma growth_from_inner_page_cuts_chain :
  reachable "t1" (mkCfg Ex.reopened [InsObj Ex.opened])
  /\ (Page_insertRecord ("t1", 2) Ex.rec_five Ex.reopened).1.1 = NOSPACE
  /\ curPageNo Ex.opened = 2
  /\ lastPage (hdr (sees Ex.opened Ex.reopened)) = 3
  /\ InsertFileScan_insertRecord Ex.rec_five (sees Ex.opened Ex.reopened) Ex.reopened
     = Ret (OK, Some (mkRID 4 0), Ex.regrown_obj, Ex.regrown)
  /\ exists d h,
       Ref.files (world Ex.regrown) !! "t1" = Some d
       /\ Ref.frames d !! Ref.firstPageNo d = Some (Ref.HdrFrame h)
       /\ Ref.chain_from 5 (Ref.frames d) (firstPage h) = Some [2; 4]
       /\ pageCnt h = 4.
Proof.
  split.
  { apply (reach_step "t1" _ _ grown_closed_reachable).
    apply (step_open_insert "t1" (InsertFileScan_delete Ex.grown_obj Ex.grown_open) []
             Ex.opened Ex.reopened).
    reflexivity. }
  split; [reflexivity |]. split; [reflexivity |]. split; [reflexivity |].
  split; [reflexivity |].
  eexists _, _. repeat split; reflexivity.
Qed.

(** Why C2 asks that the page insertRecord grows the file from be pinned.
    Page 2 is the only page of data, the current page of the insert scan,
    and full.  getRecord for a page that does not exist unpins page 2 and
    returns the failure of readPage; page 2 is still the current page.
    insertRecord then links the new page 3 after page 2, fails to unpin page
    2 and returns: the chain is 2, 3 and pageCnt is still 2. *)
Lemma growth_from_unpinned_page_skips_count :
  reachable "t1" (mkCfg Ex.full_open [InsObj Ex.full_obj])
  /\ HeapFile_getRecord (mkRID 9 0) (sees Ex.full_obj Ex.full_open) Ex.full_open
     = Ret (BADPAGENO, None, Ex.full_obj, Ex.full_unpinned)
  /\ Ref.pins (world Ex.full_unpinned) !! ("t1", 2) = None
  /\ InsertFileScan_insertRecord Ex.rec_five (sees Ex.full_obj Ex.full_unpinned)
       Ex.full_unpinned
     = Ret (PAGENOTPINNED, None, Ex.full_obj, Ex.linked_not_counted)
  /\ exists d h,
       Ref.files (world Ex.linked_not_counted) !! "t1" = Some d
       /\ Ref.frames d !! Ref.firstPageNo d = Some (Ref.HdrFrame h)
       /\ Ref.chain_from 5 (Ref.frames d) (firstPage h) = Some [2; 3]
       /\ pageCnt h = 2.
Proof.
  split; [exact full_reachable |].
  split; [reflexivity |]. split; [reflexivity |]. split; [reflexivity |].
  eexists _, _. repeat split; reflexivity.
Qed.

(** *** The further properties on inputs *)

Lemma getRecord_postcondition_witness :
  exists this' s',
    HeapFile_getRecord (mkRID 3 0) Ex.opened (Ex.two_pages_open 3)
    = Ret (OK, Some Ex.rec_five, this', s')
    /\ curRec this' = mkRID 3 0 /\ curPageNo this' = 3 /\ curPage this' <> None
    /\ hdr this' = hdr Ex.opened.
Proof.
  assert (Hrun : exists this' s',
             HeapFile_getRecord (mkRID 3 0) Ex.opened (Ex.two_pages_open 3)
             = Ret (OK, Some Ex.rec_five, this', s')) by (eexists _, _; reflexivity).
  destruct Hrun as (this' & s' & Hrun).
  destruct (getRecord_postcondition _ _ _ _ _ _ _ Hrun)
    as (Hok & _ & _ & _ & Hhdr & _).
  destruct (Hok eq_refl) as (Hrec & Hno & Hpage).
  exists this', s'. auto.
Defined.

Lemma getRecord_same_page_witness :
  exists this' s' s2,
    HeapFile_getRecord (mkRID 3 0) Ex.opened (Ex.two_pages_open 3)
    = Ret (OK, Some Ex.rec_five, this', s')
    /\ HeapFile_getRecord (mkRID 3 7) this' s' = Ret (INVALIDSLOTNO, None, this', s2)
    /\ trace s2 = trace s' ++ [EvGetRecord ("t1", 3) (mkRID 3 7)].
Proof.
  assert (Hrun : exists this' s',
             HeapFile_getRecord (mkRID 3 0) Ex.opened (Ex.two_pages_open 3)
             = Ret (OK, Some Ex.rec_five, this', s')
             /\ curPage this' = Some ("t1", 3)
             /\ exists s2, Page_getRecord ("t1", 3) (mkRID 3 7) s' = (INVALIDSLOTNO, None, s2)).
  { eexists _, _. split; [reflexivity |]. split; [reflexivity |].
    eexists. reflexivity. }
  destruct Hrun as (this' & s' & Hrun & Hpage & s2 & Hget).
  destruct (getRecord_same_page _ (mkRID 3 7) _ _ _ _ _ _ _ _ _ Hrun eq_refl Hpage Hget)
    as [Hagain Htr].
  exists this', s', s2. auto.
Defined.

Lemma HeapFile_new_postcondition_witness :
  HeapFile_new "t1" Ex.created = Ret (OK, Some Ex.empty_open, Ex.created_open)
  /\ curPageNo Ex.empty_open = firstPage (hdr Ex.empty_open)
  /\ trace Ex.created_open
     = trace Ex.created ++ [EvOpenFile "t1"; EvGetFirstPage "t1"; EvReadPage "t1" 1;
                            EvReadPage "t1" 2].
Proof.
  assert (Hrun : HeapFile_new "t1" Ex.created
                 = Ret (OK, Some Ex.empty_open, Ex.created_open)) by reflexivity.
  destruct (HeapFile_new_postcondition _ _ _ _ _ Hrun) as (_ & Hobj & _).
  destruct (Hobj _ eq_refl) as (_ & _ & _ & Hno & _ & Htr).
  split; [exact Hrun |]. split; [exact Hno | exact Htr].
Defined.

Lemma endScan_detaches_witness :
  exists t' s',
    HeapFileScan_endScan Ex.scan_start (Ex.two_pages_open 3) = (OK, t', s')
    /\ curPage (base t') = None
    /\ HeapFileScan_endScan t' s' = (OK, t', s')
    /\ HeapFileScan_scanNext 1 t' s' = Undef.
Proof.
  assert (Hrun : exists t' s',
             HeapFileScan_endScan Ex.scan_start (Ex.two_pages_open 3) = (OK, t', s'))
    by (eexists _, _; reflexivity).
  destruct Hrun as (t' & s' & Hrun).
  destruct (endScan_detaches _ _ _ _ _ Hrun) as (Hnone & _ & _ & Hagain & Hnext & _).
  exists t', s'. split; [exact Hrun |]. split; [exact Hnone |].
  split; [exact Hagain | apply Hnext].
Defined.

Lemma insertRecord_postcondition_witness :
  InsertFileScan_insertRecord Ex.rec_five Ex.full_obj Ex.full_open
  = Ret (OK, Some (mkRID 3 0), Ex.grown_obj, Ex.grown_open)
  /\ recCnt (hdr Ex.grown_obj) = int_wrap (recCnt (hdr Ex.full_obj) + 1)
  /\ firstPage (hdr Ex.grown_obj) = firstPage (hdr Ex.full_obj).
Proof.
  assert (Hrun : InsertFileScan_insertRecord Ex.rec_five Ex.full_obj Ex.full_open
                 = Ret (OK, Some (mkRID 3 0), Ex.grown_obj, Ex.grown_open))
    by reflexivity.
  destruct (insertRecord_postcondition _ _ _ _ _ _ _ Hrun)
    as (Hok & _ & _ & Hfirst & _).
  destruct (Hok eq_refl) as (_ & Hcnt & _).
  split; [exact Hrun |]. split; [exact Hcnt | exact Hfirst].
Defined.

Lemma scanNext_returns_match_witness :
  exists t' s',
    HeapFileScan_scanNext 2 Ex.scan_start (Ex.two_pages_open 3)
    = Ret (OK, Some (mkRID 2 0), t', s')
    /\ curRec (base t') = mkRID 2 0.
Proof.
  assert (Hrun : exists t' s',
             HeapFileScan_scanNext 2 Ex.scan_start (Ex.two_pages_open 3)
             = Ret (OK, Some (mkRID 2 0), t', s')) by (eexists _, _; reflexivity).
  destruct Hrun as (t' & s' & Hrun).
  destruct (scanNext_returns_match _ _ _ _ _ _ Hrun)
    as (rid & page & s0 & rec' & Ho & Hrec & _).
  exists t', s'. split; [exact Hrun |]. congruence.
Defined.

Lemma resetScan_postcondition_witness :
  exists t' s',
    HeapFileScan_resetScan (mkScan Ex.opened Ex.marked_on_page_3) (Ex.two_pages_open 3)
    = (OK, t', s')
    /\ curPageNo (base t') = 3 /\ curRec (base t') = mkRID 3 0
    /\ curDirtyFlag (base t') = false.
Proof.
  assert (Hrun : exists t' s',
             HeapFileScan_resetScan (mkScan Ex.opened Ex.marked_on_page_3)
               (Ex.two_pages_open 3) = (OK, t', s')) by (eexists _, _; reflexivity).
  destruct Hrun as (t' & s' & Hrun).
  destruct (resetScan_postcondition _ _ _ _ _ Hrun) as (_ & _ & _ & Hpos & Hsw & _).
  destruct (Hpos eq_refl) as [Hno Hrec].
  destruct (Hsw eq_refl ltac:(discriminate)) as [Hd _].
  exists t', s'. auto.
Defined.

Lemma matchRec_integer_exact_witness :
  HeapFileScan_matchRec (Ex.scan_with Ex.less_than_one) Ex.rec_five = false.
Proof.
  rewrite (matchRec_integer_exact (base (Ex.scan_with Ex.less_than_one))
             Ex.less_than_one [x01; x00; x00; x00] Ex.rec_five);
    try reflexivity; vm_compute; try split; congruence.
Defined.

Lemma matchRec_operators_witness :
  let m o :=
    HeapFileScan_matchRec
      (mkScan Ex.opened (Scan.mk 2 4 INTEGER (Some [x01; x00; x00; x00]) o 0 NULLRID))
      Ex.rec_int_min in
  m LTE = m LT || m EQ
  /\ m GTE = m GT || m EQ
  /\ m LT && m GT = false
  /\ m NE = (if 2 + 4 - 1 >=? Rec.length Ex.rec_int_min then false else negb (m EQ))
  /\ (forall o, (2 + 4 - 1 >=? Rec.length Ex.rec_int_min) && m o = false).
Proof.
  apply (matchRec_operators Ex.opened 2 4 INTEGER [x01; x00; x00; x00] 0 NULLRID
           Ex.rec_int_min); [reflexivity | lia | lia | vm_compute; congruence].
Defined.

Lemma matchRec_string_equal_witness :
  HeapFileScan_matchRec (Ex.scan_with Ex.starts_ab) Ex.rec_ab = true.
Proof.
  apply (matchRec_string_equal (base (Ex.scan_with Ex.starts_ab)) Ex.starts_ab
           [x61; x62; x00; x7a] Ex.rec_ab); try reflexivity.
  right. exists [x61; x62], [x71], [x7a]. split; reflexivity.
Defined.


Lemma open_close_round_trip_witness :
  HeapFile_new "t1" Ex.created = Ret (OK, Some Ex.empty_open, Ex.created_open)
  /\ world (HeapFile_delete Ex.empty_open Ex.created_open) = world Ex.created.
Proof.
  assert (Hrun : HeapFile_new "t1" Ex.created
                 = Ret (OK, Some Ex.empty_open, Ex.created_open)) by reflexivity.
  split; [exact Hrun |].
  exact (proj1 (open_close_round_trip "t1" Ex.created) _ _ Hrun).
Defined.

(** The frames of file "t1" in [Ex.full_page] have numbers below 3. *)
Lemma full_file_bound n : is_Some (Ref.frames Ex.full_file !! n) -> n < 3.
Proof.
  intros [fr Hn]. unfold Ex.full_file in Hn. cbn [Ref.frames] in Hn.
  destruct (decide (n = 1)) as [-> | H1]; [lia |].
  destruct (decide (n = 2)) as [-> | H2]; [lia |].
  rewrite lookup_insert_ne in Hn by congruence.
  rewrite lookup_singleton_ne in Hn by congruence. discriminate.
Qed.

Lemma insert_then_getRecord_witness :
  InsertFileScan_insertRecord Ex.rec_five Ex.full_obj Ex.full_open
  = Ret (OK, Some (mkRID 3 0), Ex.grown_obj, Ex.grown_open)
  /\ HeapFile_getRecord (mkRID 3 0) Ex.grown_obj Ex.grown_open
     = Ret (OK, Some Ex.rec_five, set_curRec Ex.grown_obj (mkRID 3 0),
            mkSys (world Ex.grown_open)
              (trace Ex.grown_open ++ [EvGetRecord ("t1", 3) (mkRID 3 0)])).
Proof.
  assert (Hrun : InsertFileScan_insertRecord Ex.rec_five Ex.full_obj Ex.full_open
                 = Ret (OK, Some (mkRID 3 0), Ex.grown_obj, Ex.grown_open))
    by reflexivity.
  split; [exact Hrun |].
  apply (insert_then_getRecord "t1" Ex.rec_five Ex.full_obj Ex.grown_obj Ex.full_open
           Ex.grown_open (mkRID 3 0) 1 Ex.full_file (mkHdr "t1" 2 2 2 1)
           (Ref.mkPage (-1) 2 [Some Ex.rec_full]));
    try reflexivity; exact full_file_bound.
Defined.

Lemma insertRecord_counts_witness :
  Ref.live_records (world Ex.full_open) "t1" = 1
  /\ Ref.live_records (world Ex.grown_open) "t1" = 1 + 1
  /\ HeapFile_getRecCnt Ex.grown_obj = 2
  /\ recCnt (Ref.load ("t1", 1) (world Ex.grown_open)) = 2.
Proof.
  destruct (insertRecord_counts "t1" Ex.rec_five Ex.full_obj Ex.grown_obj Ex.full_open
              Ex.grown_open (mkRID 3 0) 1 Ex.full_file (mkHdr "t1" 2 2 2 1)
              (Ref.mkPage (-1) 2 [Some Ex.rec_full]))
    as (Hlive & Hcnt & Hload);
    try reflexivity; [exact full_file_bound |].
  split; [reflexivity |]. split; [exact Hlive |]. split; [reflexivity |].
  rewrite Hload. reflexivity.
Defined.

Lemma deleteRecord_counts_witness :
  exists t' s',
    HeapFileScan_deleteRecord Ex.scan_on_page_2 (Ex.two_pages_open 3)
    = Ret (OK, t', s')
    /\ Ref.live_records (world (Ex.two_pages_open 3)) "t1" = 2
    /\ Ref.live_records (world s') "t1" = 2 - 1
    /\ HeapFile_getRecCnt (base t') = 1.
Proof.
  destruct (deleteRecord_counts "t1" Ex.scan_on_page_2 (Ex.two_pages_open 3) 2 1
              Ex.two_page_file (mkHdr "t1" 2 3 3 2))
    as (st & t' & s' & Hrun & Hlive & Hcnt & _);
    try reflexivity; [discriminate |].
  assert (Hst : exists t0 s0,
             HeapFileScan_deleteRecord Ex.scan_on_page_2 (Ex.two_pages_open 3)
             = Ret (OK, t0, s0)) by (eexists _, _; reflexivity).
  destruct Hst as (t0 & s0 & Hst). rewrite Hst in Hrun.
  injection Hrun as <- <- <-.
  exists t0, s0. split; [exact Hst |]. split; [reflexivity |].
  split; [exact Hlive |]. rewrite Hcnt. reflexivity.
Defined.


Lemma two_page_chain :
  Ref.chain (Ref.frames Ex.two_page_file) 2 [2; 3].
Proof.
  apply Ref.chain_next with (d := Ref.mkPage 3 2 [Some Ex.rec_full]);
    [reflexivity | discriminate | |].
  - apply not_elem_of_cons. split; [discriminate | apply not_elem_of_nil].
  - apply Ref.chain_last with (d := Ref.mkPage (-1) 3 [Some Ex.rec_five]); reflexivity.
Qed.

Lemma scanNext_then_getRecord_witness :
  exists t' s' page rec,
    HeapFileScan_scanNext 2 Ex.scan_start (Ex.two_pages_open 3)
    = Ret (OK, Some (mkRID 2 0), t', s')
    /\ curPage (base t') = Some page
    /\ HeapFileScan_getRecord t' s'
       = Ret (OK, Some rec, mkSys (world s') (trace s' ++ [EvGetRecord page (mkRID 2 0)])).
Proof.
  assert (Hrun : exists t' s',
             HeapFileScan_scanNext 2 Ex.scan_start (Ex.two_pages_open 3)
             = Ret (OK, Some (mkRID 2 0), t', s')) by (eexists _, _; reflexivity).
  destruct Hrun as (t' & s' & Hrun).
  destruct (scanNext_then_getRecord _ _ _ _ _ _ Hrun) as (page & rec & Hpage & Hget & _).
  exists t', s', page, rec. auto.
Defined.

Lemma delete_keeps_scan_witness :
  exists st t1 s1,
    HeapFileScan_deleteRecord Ex.scan_on_page_2 (Ex.two_pages_open 3) = Ret (st, t1, s1)
    /\ (exists ta sa, scan_run Ex.scan_on_page_2 (Ex.two_pages_open 3) [mkRID 3 0] ta sa)
    /\ (exists tb sb, scan_run t1 s1 [mkRID 3 0] tb sb).
Proof.
  apply (delete_keeps_scan "t1" Ex.two_page_file 3 Ex.header_pinned Ex.scan_on_page_2
           (Ex.two_pages_open 3) [2; 3] 1 1 (mkHdr "t1" 2 3 3 2)).
  - apply Nat.ltb_lt. reflexivity.
  - unfold scan_at. repeat split; try reflexivity.
    + exact two_page_chain.
    + right. split; [lia | reflexivity].
  - reflexivity.
  - reflexivity.
  - apply not_elem_of_cons. split; [discriminate |].
    apply not_elem_of_cons. split; [discriminate | apply not_elem_of_nil].
Defined.

Lemma scan_enumerates_witness :
  exists t' s',
    scan_run Ex.scan_start (Ex.two_pages_open 3) [mkRID 2 0; mkRID 3 0] t' s'
    /\ curPage (base t') = None
    /\ world s' = Ref.set_pins (world (Ex.two_pages_open 3)) Ex.header_pinned.
Proof.
  destruct (scan_enumerates "t1" Ex.two_page_file Ex.header_pinned Ex.scan_start
              (Ex.two_pages_open 3) [2; 3]) as [Hrun _]; try reflexivity.
  - exact two_page_chain.
  - apply Nat.ltb_lt. reflexivity.
  - exact Hrun.
Defined.

Lemma header_names_chain_ends_witness :
  exists d h l,
    Ref.files (world Ex.grown_open) !! "t1" = Some d
    /\ Ref.frames d !! Ref.firstPageNo d = Some (Ref.HdrFrame h)
    /\ Ref.chain (Ref.frames d) (firstPage h) l
    /\ last l = Some (lastPage h)
    /\ NoDup l
    /\ (forall k dk, Ref.frames d !! k = Some (Ref.DataFrame dk) -> k ∈ l)
    /\ HeapFile_getRecCnt (sees Ex.grown_obj Ex.grown_open) = recCnt h.
Proof.
  assert (Hint : 0 < sizeof_int) by reflexivity.
  destruct (header_names_chain_ends "t1" _ Hint grown_reachable)
    as (d & h & l & Hf & Hh & Hc & Hlast & _ & Hnd & _ & Hall & Hobjs).
  destruct (Hobjs (InsObj Ex.grown_obj) ltac:(left)) as [_ Hcnt].
  exists d, h, l. auto 10.
Defined.

Lemma full_scan_round_trip_witness :
  exists d h l t0 s0 t' s',
    Ref.files (world (InsertFileScan_delete Ex.grown_obj Ex.grown_open)) !! "t1" = Some d
    /\ Ref.frames d !! Ref.firstPageNo d = Some (Ref.HdrFrame h)
    /\ Ref.chain (Ref.frames d) (firstPage h) l
    /\ HeapFileScan_new "t1" Ex.no_filter
         (InsertFileScan_delete Ex.grown_obj Ex.grown_open) = Ret (OK, Some t0, s0)
    /\ scan_run t0 s0 (file_matches t0 (Ref.frames d) l 0) t' s'
    /\ world (HeapFileScan_delete t' s')
       = world (InsertFileScan_delete Ex.grown_obj Ex.grown_open).
Proof.
  assert (Hint : 0 < sizeof_int) by reflexivity.
  destruct (full_scan_round_trip "t1" _ Ex.no_filter Hint grown_closed_reachable)
    as (d & h & l & t0 & s0 & Hf & Hh & Hc & Hnew & Hscan).
  { apply Nat.leb_le. reflexivity. }
  destruct (Hscan 0 0 STRING None EQ t0) as (t' & s' & Hrun & Hw).
  { assert (Hfilter : Scan.filter (scan t0) = None /\ scan t0 = Ex.no_filter).
    { unfold HeapFileScan_new in Hnew.
      destruct (HeapFile_new _ _) as [[[st [hf |]] s1] | |]; inversion Hnew; subst.
      split; reflexivity. }
    destruct t0 as [b m]. simpl in Hfilter. destruct Hfilter as [_ ->]. reflexivity. }
  exists d, h, l, t0, s0, t', s'. auto 10.
Defined.

Lemma inserted_record_is_scanned_witness :
  InsertFileScan_insertRecord Ex.rec_five Ex.full_obj Ex.full_open
  = Ret (OK, Some (mkRID 3 0), Ex.grown_obj, Ex.grown_open)
  /\ exists t0 s0 rids t3 s3,
       HeapFileScan_new "t1" Ex.no_filter
         (InsertFileScan_delete Ex.grown_obj Ex.grown_open) = Ret (OK, Some t0, s0)
       /\ scan_run t0 s0 rids t3 s3
       /\ (mkRID 3 0 ∈ rids).
Proof.
  assert (Hrun : InsertFileScan_insertRecord Ex.rec_five Ex.full_obj Ex.full_open
                 = Ret (OK, Some (mkRID 3 0), Ex.grown_obj, Ex.grown_open))
    by reflexivity.
  split; [exact Hrun |].
  assert (Hint : 0 < sizeof_int) by reflexivity.
  destruct (inserted_record_is_scanned "t1" (mkCfg Ex.full_open [InsObj Ex.full_obj]) 0
              Ex.full_obj Ex.grown_obj Ex.grown_open Ex.rec_five (mkRID 3 0) Ex.no_filter
              Hint full_reachable)
    as (t0 & s0 & Hnew & Hscan).
  { reflexivity. }
  { exact full_in_order. }
  { exact Hrun. }
  { apply Nat.leb_le. reflexivity. }
  assert (Hm : scan t0 = Ex.no_filter).
  { unfold HeapFileScan_new in Hnew.
    destruct (HeapFile_new _ _) as [[[st [hf |]] s1] | |]; inversion Hnew; subst.
    reflexivity. }
  destruct (Hscan 0 0 STRING None EQ t0) as (rids & t3 & s3 & Hruns & Hin).
  { destruct t0 as [b m]. simpl in Hm. subst m. reflexivity. }
  { unfold HeapFileScan_matchRec. rewrite Hm. reflexivity. }
  exists t0, s0, rids, t3, s3. auto.
Defined.

End Runs.
